(** * X Analyzer financial assistant: chart extraction, conversation log
      and manual chart path of [business_chatbot.py]

    The script is a Streamlit page.  Its logic is embedded here as
    functions in a small state-and-exception monad over the session
    state and a log of the effects the page produces (widgets drawn,
    errors shown, HTTP requests sent).  The Python values the script
    manipulates (the objects produced by [json.loads], text, floats,
    exceptions) are modelled first, then the libraries it calls
    ([json], [float], [pandas.DataFrame], [plotly.express]), then the
    script itself, and finally the properties.

    The page is Streamlit's, not the script's: like the completion
    endpoint it is a parameter of the model.  A [Surface] says, for
    each element handed to the page, whether the page takes it or
    raises, and the properties are proved for every surface. *)

From Stdlib Require Import String Ascii List ZArith NArith Bool Lia.
Import ListNotations.

Set Implicit Arguments.
Set Warnings "-register-all".

(* ===================================================================== *)
(** ** Python text *)
(* ===================================================================== *)

(** A Python [str] is a sequence of Unicode code points. *)
Definition char := N.
Definition str := list char.

(** [py "abc"] is the text of an ASCII literal. *)
Definition py (s : string) : str :=
  map N_of_ascii (list_ascii_of_string s).

(** [jq] writes a text that contains double quotes: every apostrophe of
    the literal stands for a double quote (code point 34). *)
Definition jq (s : string) : str :=
  map (fun c => if N.eqb c 39 then 34%N else c) (py s).

Module Str.

Fixpoint eqb (a b : str) : bool :=
  match a, b with
  | [], [] => true
  | x :: a', y :: b' => N.eqb x y && eqb a' b'
  | _, _ => false
  end.

(** [bool(s)]: a text is true when it is not empty. *)
Definition truthy (s : str) : bool :=
  match s with [] => false | _ :: _ => true end.

(** [s.find(c)] for a one-character [c]: lowest index, or [-1]. *)
Fixpoint find_from (c : char) (s : str) (i : Z) : Z :=
  match s with
  | [] => (-1)%Z
  | x :: r => if N.eqb x c then i else find_from c r (i + 1)%Z
  end.

Definition find (s : str) (c : char) : Z := find_from c s 0%Z.

(** [s.rfind(c)] for a one-character [c]: highest index, or [-1]. *)
Fixpoint rfind_from (c : char) (s : str) (i last : Z) : Z :=
  match s with
  | [] => last
  | x :: r => rfind_from c r (i + 1)%Z (if N.eqb x c then i else last)
  end.

Definition rfind (s : str) (c : char) : Z := rfind_from c s 0%Z (-1)%Z.

(** [s[start:stop]]: a negative bound counts from the end, and both
    bounds are clipped to the text. *)
Definition clip (len i : Z) : Z :=
  if (i <? 0)%Z then Z.max 0 (i + len) else Z.min i len.

Definition slice (s : str) (start stop : Z) : str :=
  let len := Z.of_nat (length s) in
  let a := clip len start in
  let b := clip len stop in
  firstn (Z.to_nat (b - a)) (skipn (Z.to_nat a) s).

(** The characters [str.isspace] accepts; [strip] removes them. *)
Definition isspace (c : char) : bool :=
  ((9 <=? c) && (c <=? 13) || (28 <=? c) && (c <=? 32)
   || (c =? 133) || (c =? 160) || (c =? 5760)
   || (8192 <=? c) && (c <=? 8202)
   || (c =? 8232) || (c =? 8233) || (c =? 8239) || (c =? 8287)
   || (c =? 12288))%N.

Fixpoint lstrip_by (space : char -> bool) (s : str) : str :=
  match s with
  | [] => []
  | c :: r => if space c then lstrip_by space r else s
  end.

Definition rstrip_by (space : char -> bool) (s : str) : str :=
  rev (lstrip_by space (rev s)).

Definition lstrip : str -> str := lstrip_by isspace.
Definition rstrip : str -> str := rstrip_by isspace.

(** [s.strip()]. *)
Definition strip (s : str) : str := rstrip (lstrip s).

(** [s.split(sep)] for a one-character separator: the fields between
    the separators, always at least one. *)
Fixpoint split_from (sep : char) (s : str) (field : str) : list str :=
  match s with
  | [] => [rev field]
  | c :: r =>
      if N.eqb c sep then rev field :: split_from sep r []
      else split_from sep r (c :: field)
  end.

Definition split (s : str) (sep : char) : list str := split_from sep s [].

(** [s.startswith(p)], returning what follows the prefix. *)
Fixpoint drop_prefix (p s : str) : option str :=
  match p, s with
  | [], _ => Some s
  | x :: p', y :: s' => if N.eqb x y then drop_prefix p' s' else None
  | _ :: _, [] => None
  end.

(** [p in s] for two texts: [p] occurs somewhere in [s]. *)
Fixpoint contains (s p : str) : bool :=
  match drop_prefix p s with
  | Some _ => true
  | None => match s with [] => false | _ :: r => contains r p end
  end.

Definition lower (c : char) : char :=
  if ((65 <=? c) && (c <=? 90))%N then (c + 32)%N else c.

End Str.

Definition lbrace : char := 123%N.
Definition rbrace : char := 125%N.
Definition comma : char := 44%N.

(* ===================================================================== *)
(** ** Python values and exceptions *)
(* ===================================================================== *)

(** A float is kept as the decimal its literal denotes,
    [(-1)^neg * digits * 10^exp10]; the rounding to binary64 is not
    modelled, nothing in the script depends on it. *)
Inductive pyfloat : Type :=
| FNaN
| FInf (neg : bool)
| FDec (neg : bool) (digits : N) (exp10 : Z).

(** The objects [json.loads] produces, which are also the objects the
    script passes around.  A dict keeps its keys in insertion order. *)
Inductive pyobj : Type :=
| PyNone
| PyBool (b : bool)
| PyInt (n : Z)
| PyFloat (x : pyfloat)
| PyStr (s : str)
| PyList (l : list pyobj)
| PyDict (d : list (str * pyobj)).

(** The exception classes that occur.  [JSONDecodeError] and
    [UnicodeEncodeError] are subclasses of [ValueError];
    [StreamlitDuplicateElementId] is what the page raises for an
    element it already holds; [StopException] and [RerunException] are
    Streamlit's script-control exceptions, which derive from
    [BaseException] and so pass through [except Exception]. *)
Inductive exn : Type :=
| JSONDecodeError
| ValueError
| UnicodeEncodeError
| TypeError
| AttributeError
| KeyError
| IndexError
| RequestException
| StreamlitDuplicateElementId
| StopException
| RerunException.

Definition is_Exception (e : exn) : bool :=
  match e with
  | StopException | RerunException => false
  | _ => true
  end.

Definition is_ValueError (e : exn) : bool :=
  match e with
  | JSONDecodeError | ValueError | UnicodeEncodeError => true
  | _ => false
  end.

(** The result of evaluating a Python expression. *)
Inductive outcome (A : Type) : Type :=
| Ok (a : A)
| Raise (e : exn).
Arguments Ok {A} a.
Arguments Raise {A} e.

Module Dict.

Definition t := list (str * pyobj).

Fixpoint lookup (k : str) (d : t) : option pyobj :=
  match d with
  | [] => None
  | (k', v) :: r => if Str.eqb k k' then Some v else lookup k r
  end.

Definition mem (k : str) (d : t) : bool :=
  match lookup k d with Some _ => true | None => false end.

(** [d[k] = v]: an existing key keeps its place. *)
Fixpoint set (k : str) (v : pyobj) (d : t) : t :=
  match d with
  | [] => [(k, v)]
  | (k', v') :: r =>
      if Str.eqb k k' then (k', v) :: r else (k', v') :: set k v r
  end.

End Dict.

(** [obj.get(key, default)]: only a dict has the method. *)
Definition py_get (obj : pyobj) (key : str) (default : pyobj)
  : outcome pyobj :=
  match obj with
  | PyDict d =>
      Ok (match Dict.lookup key d with Some v => v | None => default end)
  | _ => Raise AttributeError
  end.

(** [obj == "text"]. *)
Definition py_eq_str (obj : pyobj) (s : str) : bool :=
  match obj with
  | PyStr t => Str.eqb t s
  | _ => false
  end.

(** ["key" in obj]: key membership for a dict, element membership for a
    list, substring test for a text; other objects are not iterable. *)
Definition py_in (key : str) (obj : pyobj) : outcome bool :=
  match obj with
  | PyDict d => Ok (Dict.mem key d)
  | PyList l => Ok (existsb (fun x => py_eq_str x key) l)
  | PyStr s => Ok (Str.contains s key)
  | _ => Raise TypeError
  end.

(** [obj["key"]]. *)
Definition py_getitem_str (obj : pyobj) (key : str) : outcome pyobj :=
  match obj with
  | PyDict d =>
      match Dict.lookup key d with
      | Some v => Ok v
      | None => Raise KeyError
      end
  | _ => Raise TypeError
  end.

(** [obj[0]]: the keys of a decoded dict are texts, so [0] is never
    one of them. *)
Definition py_getitem_0 (obj : pyobj) : outcome pyobj :=
  match obj with
  | PyList (x :: _) => Ok x
  | PyList [] => Raise IndexError
  | PyStr (c :: _) => Ok (PyStr [c])
  | PyStr [] => Raise IndexError
  | PyDict _ => Raise KeyError
  | _ => Raise TypeError
  end.

(* ===================================================================== *)
(** ** [json.loads] *)
(* ===================================================================== *)

(** The decoder of the standard [json] module with its default
    settings, written as the scanner it is: a value is read at the head
    of the text and the unread rest is returned.  Every decoding error
    is a [JSONDecodeError]; the interpreter's resource limits (recursion
    depth, digits of an integer literal) are not modelled. *)
Module Json.

Inductive scan (A : Type) : Type :=
| Scanned (a : A) (rest : str)
| Invalid
| Starved.
Arguments Scanned {A} a rest.
Arguments Invalid {A}.
Arguments Starved {A}.

Definition is_ws (c : char) : bool :=
  ((c =? 32) || (c =? 9) || (c =? 10) || (c =? 13))%N.

Fixpoint skip_ws (s : str) : str :=
  match s with
  | [] => []
  | c :: r => if is_ws c then skip_ws r else s
  end.

Definition is_digit (c : char) : bool := ((48 <=? c) && (c <=? 57))%N.

Definition hexval (c : char) : option N :=
  if is_digit c then Some (c - 48)%N
  else if ((97 <=? c) && (c <=? 102))%N then Some (c - 87)%N
  else if ((65 <=? c) && (c <=? 70))%N then Some (c - 55)%N
  else None.

Definition hex4 (a b c d : char) : option N :=
  match hexval a, hexval b, hexval c, hexval d with
  | Some x, Some y, Some z, Some w =>
      Some (((x * 16 + y) * 16 + z) * 16 + w)%N
  | _, _, _, _ => None
  end.

(** The one-character escapes after a backslash. *)
Definition unescape (c : char) : option char :=
  if (c =? 34)%N then Some 34%N        (* quote *)
  else if (c =? 92)%N then Some 92%N   (* backslash *)
  else if (c =? 47)%N then Some 47%N   (* slash *)
  else if (c =? 98)%N then Some 8%N    (* b *)
  else if (c =? 102)%N then Some 12%N  (* f *)
  else if (c =? 110)%N then Some 10%N  (* n *)
  else if (c =? 114)%N then Some 13%N  (* r *)
  else if (c =? 116)%N then Some 9%N   (* t *)
  else None.

(** What a string literal is made of: characters, written directly or
    by a one-character escape, and [\uXXXX] escapes. *)
Inductive piece : Type :=
| Lit (c : char)
| U16 (n : N).

(** A [\uXXXX] high surrogate immediately followed by a [\uXXXX] low
    surrogate is one code point; any other escape stands for itself. *)
Fixpoint join_surrogates (l : list piece) : str :=
  match l with
  | [] => []
  | Lit c :: r => c :: join_surrogates r
  | U16 h :: r =>
      match r with
      | U16 lo :: r' =>
          if ((55296 <=? h) && (h <=? 56319)
              && (56320 <=? lo) && (lo <=? 57343))%N
          then (65536 + ((h - 55296) * 1024 + (lo - 56320)))%N
               :: join_surrogates r'
          else h :: join_surrogates r
      | _ => h :: join_surrogates r
      end
  end.

(** The body of a string literal, after its opening quote, up to and
    including the closing quote (strict mode: no control character). *)
Fixpoint scanpieces (s : str) (acc : list piece) : scan (list piece) :=
  match s with
  | [] => Invalid
  | c :: r =>
      if (c =? 34)%N then Scanned (rev acc) r
      else if (c =? 92)%N then
        match r with
        | [] => Invalid
        | e :: r1 =>
            if (e =? 117)%N then
              match r1 with
              | h1 :: h2 :: h3 :: h4 :: r2 =>
                  match hex4 h1 h2 h3 h4 with
                  | Some n => scanpieces r2 (U16 n :: acc)
                  | None => Invalid
                  end
              | _ => Invalid
              end
            else
              match unescape e with
              | Some x => scanpieces r1 (Lit x :: acc)
              | None => Invalid
              end
        end
      else if (c <=? 31)%N then Invalid
      else scanpieces r (Lit c :: acc)
  end.

Definition scanstring (s : str) : scan str :=
  match scanpieces s [] with
  | Scanned l r => Scanned (join_surrogates l) r
  | Invalid => Invalid
  | Starved => Starved
  end.

(** The longest run of decimal digits at the head of the text. *)
Fixpoint span_digits (s : str) : str * str :=
  match s with
  | [] => ([], [])
  | c :: r =>
      if is_digit c then let (ds, r') := span_digits r in (c :: ds, r')
      else ([], s)
  end.

Definition digits_value (ds : str) : N :=
  fold_left (fun n c => (n * 10 + (c - 48))%N) ds 0%N.

Definition signed (neg : bool) (n : N) : Z :=
  if neg then (- Z.of_N n)%Z else Z.of_N n.

(** [float] of a literal with integer part [ip], fraction [fp] and
    decimal exponent [e]. *)
Definition decimal (neg : bool) (ip fp : str) (e : Z) : pyfloat :=
  FDec neg (digits_value (ip ++ fp)) (e - Z.of_nat (length fp))%Z.

(** A number: an optional minus sign; an integer part that is a single
    zero or starts with a non-zero digit; optionally a point with at
    least one digit; optionally [e] or [E], a sign and at least one
    digit.  It is an [int] when it has neither fraction nor exponent,
    else a [float]. *)
Definition match_number (s : str) : scan pyobj :=
  let (neg, s1) :=
    match s with
    | c :: r => if (c =? 45)%N then (true, r) else (false, s)
    | [] => (false, s)
    end in
  match s1 with
  | [] => Invalid
  | d :: r =>
      if is_digit d then
        let (ip, s2) :=
          if (d =? 48)%N then ([d], r)
          else let (ds, r') := span_digits r in (d :: ds, r') in
        let (fp, s3) :=
          match s2 with
          | c :: r2 =>
              if (c =? 46)%N then
                match span_digits r2 with
                | ([], _) => ([], s2)
                | (fs, r3) => (fs, r3)
                end
              else ([], s2)
          | [] => ([], s2)
          end in
        let (ex, s4) :=
          match s3 with
          | c :: r3 =>
              if ((c =? 101) || (c =? 69))%N then
                let (eneg, r4) :=
                  match r3 with
                  | g :: r4 =>
                      if (g =? 45)%N then (true, r4)
                      else if (g =? 43)%N then (false, r4)
                      else (false, r3)
                  | [] => (false, r3)
                  end in
                match span_digits r4 with
                | ([], _) => (None, s3)
                | (es, r5) => (Some (signed eneg (digits_value es)), r5)
                end
              else (None, s3)
          | [] => (None, s3)
          end in
        match fp, ex with
        | [], None => Scanned (PyInt (signed neg (digits_value ip))) s4
        | _, None => Scanned (PyFloat (decimal neg ip fp 0)) s4
        | _, Some e => Scanned (PyFloat (decimal neg ip fp e)) s4
        end
      else Invalid
  end.

(** The literals, tried in the scanner's order before a number. *)
Definition match_constant (s : str) : option (pyobj * str) :=
  match Str.drop_prefix (py "null") s with
  | Some r => Some (PyNone, r)
  | None =>
  match Str.drop_prefix (py "true") s with
  | Some r => Some (PyBool true, r)
  | None =>
  match Str.drop_prefix (py "false") s with
  | Some r => Some (PyBool false, r)
  | None =>
  match Str.drop_prefix (py "NaN") s with
  | Some r => Some (PyFloat FNaN, r)
  | None =>
  match Str.drop_prefix (py "Infinity") s with
  | Some r => Some (PyFloat (FInf false), r)
  | None =>
  match Str.drop_prefix (py "-Infinity") s with
  | Some r => Some (PyFloat (FInf true), r)
  | None => None
  end end end end end end.

(** [scan_once] reads one value; [parse_pairs] continues an object at
    the quote of a key and [parse_items] an array at an element.  The
    three recurse on [fuel]; [loads] supplies enough of it. *)
Fixpoint scan_once (fuel : nat) (s : str) : scan pyobj :=
  match fuel with
  | O => Starved
  | S f =>
      match s with
      | [] => Invalid
      | c :: r =>
          if (c =? 34)%N then
            match scanstring r with
            | Scanned t r' => Scanned (PyStr t) r'
            | Invalid => Invalid
            | Starved => Starved
            end
          else if (c =? 123)%N then
            match skip_ws r with
            | c1 :: r1 =>
                if (c1 =? 125)%N then Scanned (PyDict []) r1
                else parse_pairs f [] (c1 :: r1)
            | [] => Invalid
            end
          else if (c =? 91)%N then
            match skip_ws r with
            | c1 :: r1 =>
                if (c1 =? 93)%N then Scanned (PyList []) r1
                else parse_items f [] (c1 :: r1)
            | [] => Invalid
            end
          else
            match match_constant s with
            | Some (v, r') => Scanned v r'
            | None => match_number s
            end
      end
  end

with parse_pairs (fuel : nat) (acc : Dict.t) (s : str) : scan pyobj :=
  match fuel with
  | O => Starved
  | S f =>
      match s with
      | [] => Invalid
      | q :: r =>
          if (q =? 34)%N then
            match scanstring r with
            | Scanned key r1 =>
                match skip_ws r1 with
                | c :: r2 =>
                    if (c =? 58)%N then
                      match scan_once f (skip_ws r2) with
                      | Scanned v r3 =>
                          let acc' := Dict.set key v acc in
                          match skip_ws r3 with
                          | c4 :: r4 =>
                              if (c4 =? 125)%N then Scanned (PyDict acc') r4
                              else if (c4 =? 44)%N
                              then parse_pairs f acc' (skip_ws r4)
                              else Invalid
                          | [] => Invalid
                          end
                      | Invalid => Invalid
                      | Starved => Starved
                      end
                    else Invalid
                | [] => Invalid
                end
            | Invalid => Invalid
            | Starved => Starved
            end
          else Invalid
      end
  end

with parse_items (fuel : nat) (acc : list pyobj) (s : str) : scan pyobj :=
  match fuel with
  | O => Starved
  | S f =>
      match scan_once f s with
      | Scanned v r =>
          match skip_ws r with
          | c :: r1 =>
              if (c =? 93)%N then Scanned (PyList (rev (v :: acc))) r1
              else if (c =? 44)%N then parse_items f (v :: acc) (skip_ws r1)
              else Invalid
          | [] => Invalid
          end
      | Invalid => Invalid
      | Starved => Starved
      end
  end.

Definition enough (s : str) : nat := 2 * length s + 2.

(** [json.loads(s)]: surrounding whitespace is allowed, anything else
    after the value is an error. *)
Definition loads (s : str) : outcome pyobj :=
  let s0 := skip_ws s in
  match scan_once (enough s0) s0 with
  | Scanned v r =>
      match skip_ws r with
      | [] => Ok v
      | _ :: _ => Raise JSONDecodeError
      end
  | Invalid => Raise JSONDecodeError
  | Starved => Raise JSONDecodeError
  end.

End Json.

(* ===================================================================== *)
(** ** [float] of a text *)
(* ===================================================================== *)

(** The built-in [float] applied to a [str]: surrounding whitespace is
    dropped, an underscore may stand between two digits, and what is
    left is a signed decimal literal, [inf], [infinity] or [nan] in any
    letter case.  Only the ASCII digits are modelled (the interpreter
    also reads the decimal digits of other scripts). *)
Module Float.

Definition is_underscore (c : char) : bool := (c =? 95)%N.

Definition after_digit (prev : option char) : bool :=
  match prev with Some p => Json.is_digit p | None => false end.

Definition after_underscore (prev : option char) : bool :=
  match prev with Some p => is_underscore p | None => false end.

(** Underscores are removed; one that does not follow a digit, does not
    precede a digit or ends the text makes the literal invalid. *)
Fixpoint drop_underscores (prev : option char) (s : str) : option str :=
  match s with
  | [] => if after_underscore prev then None else Some []
  | c :: r =>
      if is_underscore c then
        if after_digit prev then drop_underscores (Some c) r else None
      else if after_underscore prev && negb (Json.is_digit c) then None
      else option_map (cons c) (drop_underscores (Some c) r)
  end.

Definition sign (s : str) : bool * str :=
  match s with
  | c :: r =>
      if (c =? 45)%N then (true, r)
      else if (c =? 43)%N then (false, r)
      else (false, s)
  | [] => (false, s)
  end.

Definition parse (s : str) : option pyfloat :=
  let (neg, s1) := sign s in
  let low := map Str.lower s1 in
  if Str.eqb low (py "inf") || Str.eqb low (py "infinity")
  then Some (FInf neg)
  else if Str.eqb low (py "nan") then Some FNaN
  else
    let (ip, s2) := Json.span_digits s1 in
    let (fp, s3) :=
      match s2 with
      | c :: r => if (c =? 46)%N then Json.span_digits r else ([], s2)
      | [] => ([], s2)
      end in
    match ip, fp with
    | [], [] => None
    | _, _ =>
        match s3 with
        | [] => Some (Json.decimal neg ip fp 0)
        | c :: r =>
            if ((c =? 101) || (c =? 69))%N then
              let (eneg, r1) := sign r in
              match Json.span_digits r1 with
              | ((_ :: _) as es, []) =>
                  Some (Json.decimal neg ip fp
                          (Json.signed eneg (Json.digits_value es)))
              | _ => None
              end
            else None
        end
    end.

(** The whitespace [float] drops around the literal: the ASCII blanks
    and, beyond ASCII, the characters of [str.isspace]; the four ASCII
    separators 28 to 31 are not among them. *)
Definition is_blank (c : char) : bool :=
  ((9 <=? c) && (c <=? 13) || (c =? 32)
   || (128 <=? c) && Str.isspace c)%N.

Definition trim (s : str) : str :=
  Str.rstrip_by is_blank (Str.lstrip_by is_blank s).

Definition of_str (s : str) : outcome pyfloat :=
  match drop_underscores None (trim s) with
  | Some t =>
      match parse t with
      | Some x => Ok x
      | None => Raise ValueError
      end
  | None => Raise ValueError
  end.

(** [list(map(float, l))]: the first text that is not a number raises. *)
Fixpoint of_strs (l : list str) : outcome (list pyfloat) :=
  match l with
  | [] => Ok []
  | s :: r =>
      match of_str s with
      | Ok x =>
          match of_strs r with
          | Ok xs => Ok (x :: xs)
          | Raise e => Raise e
          end
      | Raise e => Raise e
      end
  end.

End Float.

(* ===================================================================== *)
(** ** [pandas.DataFrame] and [plotly.express] *)
(* ===================================================================== *)

(** The script builds one kind of frame, from a dict with the two
    columns ['Category'] and ['Amount']. *)
Module Pandas.

(** A column, [pd.Series].  pandas gives every column a type and
    converts its cells to it: the integers of a column that also holds
    [None] become floats and [None] becomes NaN, so that [[1, None]] is
    stored as [[1.0, nan]]; a column of texts or of mixed objects is
    stored as it is.  That conversion is not modelled.  A column is
    kept as the list of objects it is built from, which determines it,
    and nothing below speaks of its converted cells: only of the list
    it comes from and of its number of rows. *)
Inductive Series : Type :=
| series_of (source : list pyobj).

Definition size (c : Series) : nat :=
  match c with series_of source => length source end.

Record DataFrame : Type := {
  Category : Series;
  Amount : Series
}.

Definition keys (d : Dict.t) : list str := map fst d.

(** The keys of [d2] that [d1] lacks, in the order of [d2]. *)
Definition new_keys (d1 d2 : Dict.t) : list str :=
  filter (fun k => negb (Dict.mem k d1)) (keys d2).

Definition cell (d : Dict.t) (k : str) : pyobj :=
  match Dict.lookup k d with
  | Some v => v
  | None => PyFloat FNaN
  end.

(** [pd.DataFrame({'Category': category, 'Amount': amount})].  Two
    lists must have the same length; a scalar is repeated along the
    other column; two scalars have no index to be repeated along; a
    dict is read as labelled cells and cannot be mixed with a list; two
    dicts are aligned on the union of their keys, with NaN where a key
    is missing. *)
Definition from_columns (category amount : pyobj) : outcome DataFrame :=
  match category, amount with
  | PyList l, PyList v =>
      if Nat.eqb (length l) (length v)
      then Ok {| Category := series_of l; Amount := series_of v |}
      else Raise ValueError
  | PyList _, PyDict _ => Raise ValueError
  | PyDict _, PyList _ => Raise ValueError
  | PyList l, x =>
      Ok {| Category := series_of l;
            Amount := series_of (repeat x (length l)) |}
  | x, PyList v =>
      Ok {| Category := series_of (repeat x (length v));
            Amount := series_of v |}
  | PyDict d1, PyDict d2 =>
      let index := keys d1 ++ new_keys d1 d2 in
      Ok {| Category := series_of (map (cell d1) index);
            Amount := series_of (map (cell d2) index) |}
  | PyDict d, x =>
      Ok {| Category := series_of (map snd d);
            Amount := series_of (repeat x (length d)) |}
  | x, PyDict d =>
      Ok {| Category := series_of (repeat x (length d));
            Amount := series_of (map snd d) |}
  | _, _ => Raise ValueError
  end.

End Pandas.

(** A figure is kept as the description the script gives of it. *)
Module Plotly.

Import Pandas.

Inductive trace : Type :=
| Pie       (* px.pie(df, names='Category', values='Amount') *)
| Line      (* px.line(df, x='Category', y='Amount', markers=True) *)
| Bar.      (* px.bar(df, x='Category', y='Amount') *)

Record Layout : Type := {
  template : str;
  title_font_size : Z;
  xaxis_title : str;
  yaxis_title : str
}.

Record Figure : Type := {
  fig_trace : trace;
  fig_frame : DataFrame;
  fig_title : pyobj;
  fig_layout : option Layout
}.

(** The [title] argument: a false value (such as an empty list) sets no
    title; a true one is set as the title text and must then be a text
    or a number, so that a non-empty list or dict is refused. *)
Definition title_ok (title : pyobj) : bool :=
  match title with
  | PyList (_ :: _) | PyDict (_ :: _) => false
  | _ => true
  end.

(** [px.pie], [px.line] and [px.bar] with the arguments of the script.
    Only the check of the title is modelled; the frame is taken as it
    is, whatever its columns hold. *)
Definition express (t : trace) (df : DataFrame) (title : pyobj)
  : outcome Figure :=
  if title_ok title
  then Ok {| fig_trace := t; fig_frame := df; fig_title := title;
             fig_layout := None |}
  else Raise ValueError.

Definition pie := express Pie.
Definition line := express Line.
Definition bar := express Bar.

(** [fig.update_layout(template=..., title_font=dict(size=24),
    xaxis_title='Category', yaxis_title='Amount')]. *)
Definition update_layout (fig : Figure) (tpl : str) : Figure :=
  {| fig_trace := fig_trace fig; fig_frame := fig_frame fig;
     fig_title := fig_title fig;
     fig_layout := Some {| template := tpl; title_font_size := 24;
                           xaxis_title := py "Category";
                           yaxis_title := py "Amount" |} |}.

End Plotly.

(* ===================================================================== *)
(** ** The page: session state, effects and the script monad *)
(* ===================================================================== *)

Import Pandas Plotly.

(** [st.selectbox("Choose Theme", ["Day Mode", "Night Mode"])]. *)
Inductive Theme : Type := DayMode | NightMode.

(** The three strings used under ["role"]. *)
Inductive Role : Type := System | User | Assistant.

(** A message of the log, [{"role": ..., "content": ...}]. *)
Record Message : Type := {
  role : Role;
  content : pyobj
}.

(** [st.session_state]: each of the two keys is absent until set. *)
Record SessionState : Type := {
  messages : option (list Message);
  groq_client_api_key : option str
}.

(** The body and headers of the completion request. *)
Record Request : Type := {
  authorization : str;
  model : str;
  request_messages : list Message;
  temperature : pyfloat;
  max_tokens : Z
}.

(** What [requests.post] does: it raises, or returns a response with a
    status code and a body. *)
Inductive Reply : Type :=
| ConnectionFailed
| Response (status_code : Z) (body : str).

Definition Gateway := Request -> Reply.

(** The texts the script shows with [st.error]. *)
Inductive error_text : Type :=
| ErrorCreatingVisualization (e : exn)
    (* f"Error creating visualization: {str(e)}" *)
| ErrorStatus (status_code : Z) (detail : pyobj)
    (* f"Error: {response.status_code} - {...}" *)
| ErrorException (e : exn)
    (* f"Error: {str(e)}" *)
| ErrorCountMismatch
    (* "The number of categories and amounts must be the same." *)
| ErrorNotNumeric (e : exn).
    (* f"Error: {str(e)}. Please make sure amounts are numeric values." *)

(** What a run of the script does to the outside, in order. *)
Inductive effect : Type :=
| ChatMessage (r : Role)                  (* with st.chat_message(r): *)
| Markdown (body : pyobj)                 (* st.markdown(body) *)
| Subheader (title : pyobj)               (* st.subheader(f"... {title}") *)
| PlotlyChart (fig : Figure) (use_container_width : bool)
| Error (msg : error_text)                (* st.error(msg) *)
| Info                                    (* st.info(...) *)
| Post (req : Request).                   (* requests.post(...) *)

Definition is_post (x : effect) : bool :=
  match x with Post _ => true | _ => false end.

(** The elements of the page among the effects of a run: all of them
    but the requests. *)
Definition drawn (l : list effect) : list effect :=
  filter (fun x => negb (is_post x)) l.

(** The page can refuse an element: [st.markdown] and [st.subheader]
    raise [UnicodeEncodeError] for a text they cannot encode,
    [st.plotly_chart] raises [StreamlitDuplicateElementId] for a chart
    the page holds already.  What the page raises is an exception of
    class [Exception]; the script-control exceptions come from
    [st.stop] and [st.rerun] only. *)
Definition refusal : Type := {e : exn | is_Exception e = true}.

Definition raised (r : refusal) : exn := proj1_sig r.

(** A surface answers, for the elements drawn so far in the run and
    the element that is handed to it: [None] when it takes the element,
    the exception it raises otherwise. *)
Definition Surface : Type := list effect -> effect -> option refusal.

Record world : Type := {
  session : SessionState;
  page : list effect;
  surface : Surface
}.

(** A statement runs in a world and either completes with a value or
    raises; what it did before raising stays done. *)
Definition M (A : Type) : Type := world -> outcome A * world.

Definition ret {A} (a : A) : M A := fun w => (Ok a, w).

Definition bind {A B} (c : M A) (k : A -> M B) : M B :=
  fun w =>
    match c w with
    | (Ok a, w') => k a w'
    | (Raise e, w') => (Raise e, w')
    end.

Definition raise {A} (e : exn) : M A := fun w => (Raise e, w).

Definition lift {A} (o : outcome A) : M A := fun w => (o, w).

Declare Scope script_scope.
Delimit Scope script_scope with script.
Notation "x <- c ;; k" := (bind c (fun x => k))
  (at level 61, c at next level, right associativity) : script_scope.
Notation "c ;; k" := (bind c (fun _ => k))
  (at level 61, right associativity) : script_scope.
Open Scope script_scope.

(** [try: body  except <class> as e: handler e]. *)
Definition try_except {A} (catches : exn -> bool) (body : M A)
    (handler : exn -> M A) : M A :=
  fun w =>
    match body w with
    | (Ok a, w') => (Ok a, w')
    | (Raise e, w') => if catches e then handler e w' else (Raise e, w')
    end.

(** An effect that the page cannot refuse: a request, a container, a
    message with a constant text or with the text of an exception, and
    the elements that show what the user typed in a widget (the browser
    sends no lone surrogate). *)
Definition emit (x : effect) : M unit :=
  fun w => (Ok tt, {| session := session w; page := page w ++ [x];
                      surface := surface w |}).

(** An element that shows decoded data: the surface is asked, and a
    refused element is not drawn. *)
Definition present (x : effect) : M unit :=
  fun w =>
    match surface w (drawn (page w)) x with
    | None => (Ok tt, {| session := session w; page := page w ++ [x];
                         surface := surface w |})
    | Some r => (Raise (raised r), w)
    end.

Definition get_session : M SessionState := fun w => (Ok (session w), w).

Definition put_session (s : SessionState) : M unit :=
  fun w => (Ok tt, {| session := s; page := page w;
                      surface := surface w |}).

(** [st.session_state.messages]: reading an absent key raises. *)
Definition get_messages : M (list Message) :=
  s <- get_session ;;
  match messages s with
  | Some l => ret l
  | None => raise AttributeError
  end.

Definition set_messages (l : list Message) : M unit :=
  s <- get_session ;;
  put_session {| messages := Some l;
                 groq_client_api_key := groq_client_api_key s |}.

(** [st.session_state.messages.append(m)]. *)
Definition append (m : Message) : M unit :=
  l <- get_messages ;;
  set_messages (l ++ [m]).

(* ===================================================================== *)
(** ** The script *)
(* ===================================================================== *)

(** Lines 89-97: the log is created once, with the system message. *)
Definition system_preamble : Message :=
  {| role := System;
     content := PyStr (jq
"You are a helpful financial assistant. Provide advice on budgeting, saving, investing, and personal finance. 
        When users provide financial data (like expenses, income, budgets, investments), respond with both advice AND a JSON object 
        for visualization. Format: {'chart_type': 'pie|bar|line', 'title': 'Chart Title', 'data': {'labels': [], 'values': []}}
        Always remind users to consult with licensed financial advisors for important decisions.") |}.

Definition initialize_chat_history : M unit :=
  s <- get_session ;;
  match messages s with
  | None =>
      put_session {| messages := Some [];
                     groq_client_api_key := groq_client_api_key s |} ;;
      append system_preamble
  | Some _ => ret tt
  end.

Definition plotly_template (theme : Theme) : str :=
  match theme with
  | NightMode => py "plotly_dark"
  | DayMode => py "plotly_white"
  end.

(** Lines 109-137 of [create_visualization]: from the decoded object to
    the chart.  The result is [true] where the function returns [True]
    and [false] where control leaves the [if]s without returning.  The
    heading (line 119) and the chart (line 136) show decoded data and
    can be refused by the page. *)
Definition chart_from_data (theme : Theme) (data : pyobj) : M bool :=
  chart_type <- lift (py_get data (py "chart_type") (PyStr (py "bar"))) ;;
  title <- lift (py_get data (py "title") (PyStr (py "Financial Analysis"))) ;;
  chart_data <- lift (py_get data (py "data") (PyDict [])) ;;
  has_labels <- lift (py_in (py "labels") chart_data) ;;
  has_both <- (if has_labels : bool
               then lift (py_in (py "values") chart_data)
               else ret false) ;;
  if has_both : bool then
    labels <- lift (py_getitem_str chart_data (py "labels")) ;;
    values <- lift (py_getitem_str chart_data (py "values")) ;;
    df <- lift (Pandas.from_columns labels values) ;;
    present (Subheader title) ;;
    fig <- lift (if py_eq_str chart_type (py "pie") then Plotly.pie df title
                 else if py_eq_str chart_type (py "line")
                 then Plotly.line df title
                 else Plotly.bar df title) ;;
    present (PlotlyChart (Plotly.update_layout fig (plotly_template theme))
               true) ;;
    ret true
  else ret false.

(** Lines 100-140.  [text] is whatever object the caller passes; only
    a [str] has [find]. *)
Definition create_visualization (theme : Theme) (text : pyobj) : M bool :=
  try_except is_Exception
    match text with
    | PyStr text =>
        let start := Str.find text lbrace in
        let end_ := (Str.rfind text rbrace + 1)%Z in
        if negb (start =? -1)%Z && (end_ >? start)%Z then
          let json_str := Str.slice text start end_ in
          data <- lift (Json.loads json_str) ;;
          chart_from_data theme data
        else ret false
    | _ => raise AttributeError
    end
    (fun e => emit (Error (ErrorCreatingVisualization e)) ;; ret false).

(** Lines 144-148: the log is shown without its first element.  A
    content of the log was typed in the chat input, or was shown by
    line 175 before line 180 appended it: the page, which took it then,
    takes it again. *)
Fixpoint display_messages (theme : Theme) (l : list Message) : M unit :=
  match l with
  | [] => ret tt
  | message :: rest =>
      emit (ChatMessage (role message)) ;;
      emit (Markdown (content message)) ;;
      match role message with
      | Assistant => create_visualization theme (content message) ;; ret tt
      | _ => ret tt
      end ;;
      display_messages theme rest
  end.

Definition display_chat_history (theme : Theme) : M unit :=
  l <- get_messages ;;
  display_messages theme (skipn 1 l).

(** [requests.post(url, json=data, headers=headers)]. *)
Definition requests_post (gateway : Gateway) (req : Request)
  : M (Z * str) :=
  emit (Post req) ;;
  match gateway req with
  | ConnectionFailed => raise RequestException
  | Response status_code body => ret (status_code, body)
  end.

(** [response_data['choices'][0]['message']['content']]. *)
Definition first_choice_content (response_data : pyobj) : outcome pyobj :=
  match py_getitem_str response_data (py "choices") with
  | Raise e => Raise e
  | Ok choices =>
  match py_getitem_0 choices with
  | Raise e => Raise e
  | Ok choice =>
  match py_getitem_str choice (py "message") with
  | Raise e => Raise e
  | Ok message => py_getitem_str message (py "content")
  end end end.

(** Lines 158-168: the headers and the body of the request. *)
Definition completion_request (key : str) (log : list Message) : Request :=
  {| authorization := py "Bearer " ++ key;
     model := py "llama-3.3-70b-versatile";
     request_messages := log;
     temperature := FDec false 7 (-1);
     max_tokens := 1024 |}.

(** Lines 151-184.  [prompt] is [None] when nothing was submitted.  The
    reply (line 175) and the detail of a status error (line 182) are
    decoded from the response and can be refused by the page, inside
    the [try]. *)
Definition chat_input (gateway : Gateway) (theme : Theme)
    (prompt : option str) : M unit :=
  match prompt with
  | None => ret tt
  | Some prompt =>
      if Str.truthy prompt then
        append {| role := User; content := PyStr prompt |} ;;
        emit (ChatMessage User) ;;
        emit (Markdown (PyStr prompt)) ;;
        emit (ChatMessage Assistant) ;;
        try_except is_Exception
          (s <- get_session ;;
           key <- match groq_client_api_key s with
                  | Some k => ret k
                  | None => raise AttributeError
                  end ;;
           log <- get_messages ;;
           response <- requests_post gateway (completion_request key log) ;;
           response_data <- lift (Json.loads (snd response)) ;;
           if (fst response =? 200)%Z then
             assistant_message <- lift (first_choice_content response_data) ;;
             present (Markdown assistant_message) ;;
             create_visualization theme assistant_message ;;
             append {| role := Assistant; content := assistant_message |}
           else
             detail <- lift (py_get response_data (py "error")
                               (PyStr (py "Unknown error"))) ;;
             present (Error (ErrorStatus (fst response) detail)))
          (fun e => emit (Error (ErrorException e)))
      else ret tt
  end.

(** Lines 189-191: the button keeps the first message and reruns. *)
Definition clear_chat_history : M unit :=
  l <- get_messages ;;
  match l with
  | first :: _ => set_messages [first]
  | [] => raise IndexError
  end ;;
  raise RerunException.

(** Lines 220-242: the manual chart, from the two text areas.  It is
    the one chart of a run that has no layout and is built from what
    the user typed, so the page holds no chart like it and takes it. *)
Definition canvas (categories amounts : str) : M unit :=
  if Str.truthy categories && Str.truthy amounts then
    try_except is_ValueError
      (let categories := map Str.strip (Str.split categories comma) in
       let amounts := map Str.strip (Str.split amounts comma) in
       amounts <- lift (Float.of_strs amounts) ;;
       if Nat.eqb (length categories) (length amounts) then
         df <- lift (Pandas.from_columns (PyList (map PyStr categories))
                       (PyList (map PyFloat amounts))) ;;
         fig <- lift (Plotly.bar df (PyStr (py "Custom Financial Chart"))) ;;
         emit (PlotlyChart fig false)
       else emit (Error ErrorCountMismatch))
      (fun e => emit (Error (ErrorNotNumeric e)))
  else ret tt.

(** The widget values of one run of the script. *)
Record Inputs : Type := {
  theme : Theme;
  api_key : str;
  prompt : option str;
  clear_pressed : bool;
  canvas_mode : bool;
  categories : str;
  amounts : str
}.

(** Lines 80-86: without a key the run stops here. *)
Definition require_api_key (api_key : str) : M unit :=
  if Str.truthy api_key then
    s <- get_session ;;
    put_session {| messages := messages s;
                   groq_client_api_key := Some api_key |}
  else emit Info ;; raise StopException.

(** One run of the script, top to bottom. *)
Definition script (gateway : Gateway) (i : Inputs) : M unit :=
  require_api_key (api_key i) ;;
  initialize_chat_history ;;
  display_chat_history (theme i) ;;
  chat_input gateway (theme i) (prompt i) ;;
  (if clear_pressed i then clear_chat_history else ret tt) ;;
  (if canvas_mode i then canvas (categories i) (amounts i) else ret tt).

(** A rerun executes the script again with the one-shot widgets (the
    chat input, the button) back to rest. *)
Definition at_rest (i : Inputs) : Inputs :=
  {| theme := theme i; api_key := api_key i; prompt := None;
     clear_pressed := false; canvas_mode := canvas_mode i;
     categories := categories i; amounts := amounts i |}.

(** A run starts on an empty page. *)
Definition blank (surface : Surface) (s : SessionState) : world :=
  {| session := s; page := []; surface := surface |}.

(** What one user interaction leaves behind: the session state, and the
    page as drawn by the last run. *)
Definition interaction (surface : Surface) (gateway : Gateway) (i : Inputs)
    (s : SessionState) : SessionState * list effect :=
  match script gateway i (blank surface s) with
  | (Raise RerunException, w) =>
      let w' := snd (script gateway (at_rest i)
                       (blank surface (session w))) in
      (session w', page w')
  | (_, w) => (session w, page w)
  end.

(** [history()]: what is shown, the log without the system message. *)
Definition history (s : SessionState) : list Message :=
  match messages s with
  | Some l => skipn 1 l
  | None => []
  end.

Definition fresh : SessionState :=
  {| messages := None; groq_client_api_key := None |}.

(* ===================================================================== *)
(** ** Vocabulary of the properties *)
(* ===================================================================== *)

(** The text has no opening brace, or no closing brace after the first
    opening brace. *)
Definition no_brace_pair (text : str) : Prop :=
  ~ In lbrace text \/
  exists pre post,
    text = pre ++ lbrace :: post /\ ~ In lbrace pre /\ ~ In rbrace post.

(** [span] is the part of [text] from its first opening brace to its
    last closing brace, both included. *)
Definition brace_span (text span : str) : Prop :=
  exists pre mid post,
    text = pre ++ lbrace :: mid ++ rbrace :: post /\
    ~ In lbrace pre /\ ~ In rbrace post /\
    span = lbrace :: mid ++ [rbrace].

(** The world after the effects [l] have been added to the page. *)
Definition shown (w : world) (l : list effect) : world :=
  {| session := session w; page := page w ++ l; surface := surface w |}.

(** The surface takes the elements [l] one after the other, on a page
    that holds [pg]. *)
Fixpoint taken (surface : Surface) (pg l : list effect) : Prop :=
  match l with
  | [] => True
  | x :: r => surface (drawn pg) x = None /\ taken surface (pg ++ [x]) r
  end.

(** The page of [w] accepts the elements [l], one after the other. *)
Definition accepts (w : world) (l : list effect) : Prop :=
  taken (surface w) (page w) l.

(** The chart shape a decoded payload asks for: ["pie"] and ["line"]
    are recognised, anything else and no [chart_type] at all is a bar
    chart. *)
Definition requested_trace (d : Dict.t) : trace :=
  match Dict.lookup (py "chart_type") d with
  | Some t =>
      if py_eq_str t (py "pie") then Pie
      else if py_eq_str t (py "line") then Line
      else Bar
  | None => Bar
  end.

(** The title a decoded payload asks for. *)
Definition requested_title (d : Dict.t) : pyobj :=
  match Dict.lookup (py "title") d with
  | Some t => t
  | None => PyStr (py "Financial Analysis")
  end.

(** [data.labels] and [data.values] of a decoded payload, when [data]
    is a dict that has both keys. *)
Definition labels_and_values (d : Dict.t) : option (pyobj * pyobj) :=
  match Dict.lookup (py "data") d with
  | Some (PyDict cd) =>
      match Dict.lookup (py "labels") cd, Dict.lookup (py "values") cd with
      | Some l, Some v => Some (l, v)
      | _, _ => None
      end
  | _ => None
  end.

(** The two effects of a chart that is drawn from a payload. *)
Definition chart_effects (theme : Theme) (d : Dict.t) (fig : Figure)
  : list effect :=
  [Subheader (requested_title d);
   PlotlyChart (Plotly.update_layout fig (plotly_template theme)) true].

(** A statement that leaves the session state alone (it only draws on
    the page) and raises nothing but exceptions accepted by [P]. *)
Definition page_only {A} (P : exn -> bool) (c : M A) : Prop :=
  forall w,
    session (snd (c w)) = session w /\
    forall e, fst (c w) = Raise e -> P e = true.

(** An expression that raises nothing but exceptions accepted by [P]. *)
Definition raises_only {A} (P : exn -> bool) (o : outcome A) : Prop :=
  forall e, o = Raise e -> P e = true.

Definition nothing : exn -> bool := fun _ => false.

(** The log starts with the system message and holds no other system
    message. *)
Definition log_ok (s : SessionState) : Prop :=
  exists rest,
    messages s = Some (system_preamble :: rest) /\
    Forall (fun m => role m <> System) rest.

(** From [s] to [s']: an existing log is only extended at its end, by
    messages that are not system messages; a log that did not exist is
    still absent or has been created with the system message first. *)
Definition evolves (s s' : SessionState) : Prop :=
  match messages s with
  | Some l =>
      exists added,
        messages s' = Some (l ++ added) /\
        Forall (fun m => role m <> System) added
  | None =>
      messages s' = None \/ log_ok s'
  end.

(** A statement whose effect on the session state is within [R]. *)
Definition step {A} (R : SessionState -> SessionState -> Prop) (c : M A)
  : Prop :=
  forall w, R (session w) (session (snd (c w))).

Definition keeps (I : SessionState -> Prop) (s s' : SessionState) : Prop :=
  I s -> I s'.

Definition absent_or_ok (s : SessionState) : Prop :=
  messages s = None \/ log_ok s.

(** The session states that sequences of interactions lead to. *)
Inductive reachable (surface : Surface) : SessionState -> Prop :=
| reachable_fresh : reachable surface fresh
| reachable_next gateway i s :
    reachable surface s ->
    reachable surface (fst (interaction surface gateway i s)).

Definition user_message (prompt : str) : Message :=
  {| role := User; content := PyStr prompt |}.

Definition assistant_message (reply : pyobj) : Message :=
  {| role := Assistant; content := reply |}.

(** The world once a prompt has been taken and the request sent. *)
Definition awaiting (w : world) (l : list Message) (key prompt : str)
  : world :=
  {| session := {| messages := Some (l ++ [user_message prompt]);
                   groq_client_api_key := Some key |};
     page := page w ++
             [ChatMessage User; Markdown (PyStr prompt);
              ChatMessage Assistant;
              Post (completion_request key (l ++ [user_message prompt]))];
     surface := surface w |}.

(** A reply that is a failure for the handler: no connection, a status
    other than 200, a body that does not decode, or a decoded body in
    which [['choices'][0]['message']['content']] cannot be looked up. *)
Definition gateway_failure (r : Reply) : Prop :=
  match r with
  | ConnectionFailed => True
  | Response status_code body =>
      status_code <> 200%Z \/
      (exists e, Json.loads body = Raise e) \/
      (exists data e, Json.loads body = Ok data /\
                      first_choice_content data = Raise e)
  end.

(** The two kinds of field the manual path reads. *)
Definition fields (text : str) : list str :=
  map Str.strip (Str.split text comma).

(** The chart of the manual path. *)
Definition custom_chart (categories : list str) (amounts : list pyfloat)
  : effect :=
  PlotlyChart
    {| fig_trace := Bar;
       fig_frame := {| Category := series_of (map PyStr categories);
                       Amount := series_of (map PyFloat amounts) |};
       fig_title := PyStr (py "Custom Financial Chart");
       fig_layout := None |}
    false.

(** A gateway that always gives the same reply. *)
Definition always (r : Reply) : Gateway := fun _ => r.

(** The code points that are half of a surrogate pair.  [json.loads]
    produces one from an escape such as [\ud800] that has no partner;
    a text that holds one cannot be encoded. *)
Definition lone_surrogate (c : char) : bool :=
  ((55296 <=? c) && (c <=? 57343))%N.

Definition encodable (body : pyobj) : bool :=
  match body with
  | PyStr s => negb (existsb lone_surrogate s)
  | _ => true
  end.

Definition pyfloat_eqb (x y : pyfloat) : bool :=
  match x, y with
  | FNaN, FNaN => true
  | FInf a, FInf b => Bool.eqb a b
  | FDec a n e, FDec b m f => Bool.eqb a b && (n =? m)%N && (e =? f)%Z
  | _, _ => false
  end.

(** Two objects with the same description. *)
Fixpoint pyobj_eqb (a b : pyobj) {struct a} : bool :=
  match a, b with
  | PyNone, PyNone => true
  | PyBool x, PyBool y => Bool.eqb x y
  | PyInt x, PyInt y => (x =? y)%Z
  | PyFloat x, PyFloat y => pyfloat_eqb x y
  | PyStr x, PyStr y => Str.eqb x y
  | PyList l, PyList m =>
      (fix all2 (l m : list pyobj) {struct l} : bool :=
         match l, m with
         | [], [] => true
         | x :: l', y :: m' => pyobj_eqb x y && all2 l' m'
         | _, _ => false
         end) l m
  | PyDict d, PyDict e =>
      (fix all2 (d e : list (str * pyobj)) {struct d} : bool :=
         match d, e with
         | [], [] => true
         | (k, x) :: d', (k', y) :: e' =>
             Str.eqb k k' && pyobj_eqb x y && all2 d' e'
         | _, _ => false
         end) d e
  | _, _ => false
  end.

Fixpoint objects_eqb (l m : list pyobj) : bool :=
  match l, m with
  | [], [] => true
  | x :: l', y :: m' => pyobj_eqb x y && objects_eqb l' m'
  | _, _ => false
  end.

Definition series_eqb (a b : Series) : bool :=
  match a, b with series_of l, series_of m => objects_eqb l m end.

Definition trace_eqb (a b : trace) : bool :=
  match a, b with
  | Pie, Pie | Line, Line | Bar, Bar => true
  | _, _ => false
  end.

Definition layout_eqb (a b : option Layout) : bool :=
  match a, b with
  | None, None => true
  | Some x, Some y =>
      Str.eqb (template x) (template y)
      && (title_font_size x =? title_font_size y)%Z
      && Str.eqb (xaxis_title x) (xaxis_title y)
      && Str.eqb (yaxis_title x) (yaxis_title y)
  | _, _ => false
  end.

Definition figure_eqb (a b : Figure) : bool :=
  trace_eqb (fig_trace a) (fig_trace b)
  && series_eqb (Category (fig_frame a)) (Category (fig_frame b))
  && series_eqb (Amount (fig_frame a)) (Amount (fig_frame b))
  && pyobj_eqb (fig_title a) (fig_title b)
  && layout_eqb (fig_layout a) (fig_layout b).

(** [x] is the chart [fig], drawn with the same width setting. *)
Definition same_chart (fig : Figure) (wide : bool) (x : effect) : bool :=
  match x with
  | PlotlyChart fig' wide' => figure_eqb fig fig' && Bool.eqb wide wide'
  | _ => false
  end.

(** The surface of the examples: Streamlit's page as this script meets
    it.  It refuses a text that cannot be encoded and a chart that it
    holds already, and takes everything else.  Two charts are compared
    by their descriptions, so two charts built from different lists
    that pandas converts to the same cells count as different here.
    No property rests on this definition: the properties are proved for
    every surface, and this one serves in their instances. *)
Definition streamlit_page : Surface :=
  fun pg x =>
    match x with
    | Markdown body | Subheader body =>
        if encodable body then None
        else Some (exist _ UnicodeEncodeError eq_refl)
    | PlotlyChart fig wide =>
        if existsb (same_chart fig wide) pg
        then Some (exist _ StreamlitDuplicateElementId eq_refl)
        else None
    | _ => None
    end.

(** A surface that takes everything. *)
Definition accepting : Surface := fun _ _ => None.

(** A session right after its first run, and its world with an empty
    page: the starting point of the examples. *)
Definition session0 : SessionState :=
  {| messages := Some [system_preamble];
     groq_client_api_key := Some (py "gsk") |}.

Definition world0 : world := blank streamlit_page session0.

(** What [create_visualization] does with the one text it decodes. *)
Definition decode_and_chart (theme : Theme) (span : str) : M bool :=
  try_except is_Exception
    (data <- lift (Json.loads span) ;; chart_from_data theme data)
    (fun e => emit (Error (ErrorCreatingVisualization e)) ;; ret false).

(* ===================================================================== *)
(** ** Vocabulary of the further properties *)
(* ===================================================================== *)

(** What the manual path puts on an empty page; it never asks the
    surface. *)
Definition canvas_output (categories amounts : str) : list effect :=
  page (snd (canvas categories amounts (blank accepting fresh))).

(** What [create_visualization] has made up its mind to do by the time
    it turns to the page: nothing; to give up on an exception; to show
    the heading and give up on an exception of [plotly.express]; to
    show the heading and the chart. *)
Inductive attempt : Type :=
| nothing_to_draw
| gives_up (e : exn)
| heading_then_gives_up (title : pyobj) (e : exn)
| heading_then_chart (title : pyobj) (fig : Figure).

Definition carry_out (a : attempt) : M bool :=
  match a with
  | nothing_to_draw => ret false
  | gives_up e => raise e
  | heading_then_gives_up title e => present (Subheader title) ;; raise e
  | heading_then_chart title fig =>
      present (Subheader title) ;;
      present (PlotlyChart fig true) ;;
      ret true
  end.

(** Lines 138-140: what is raised on the way is shown and the function
    returns [False]. *)
Definition reported (body : M bool) : M bool :=
  try_except is_Exception body
    (fun e => emit (Error (ErrorCreatingVisualization e)) ;; ret false).

(** The exceptions of an attempt are of class [Exception], and the
    frame of its chart has two columns of the same size. *)
Definition sound (a : attempt) : Prop :=
  match a with
  | nothing_to_draw => True
  | gives_up e => is_Exception e = true
  | heading_then_gives_up _ e => is_Exception e = true
  | heading_then_chart _ fig =>
      Pandas.size (Category (fig_frame fig))
      = Pandas.size (Amount (fig_frame fig))
  end.

(** A statement that completes with [o] after adding [l] to the page,
    in every world, and changes nothing else. *)
Definition draws {A} (c : M A) (o : outcome A) (l : list effect) : Prop :=
  forall w, c w = (o, shown w l).

(** The four things [create_visualization] can leave on the page, with
    the value it returns. *)
Inductive chart_outcome : bool -> list effect -> Prop :=
| nothing_shown : chart_outcome false []
| error_shown e :
    chart_outcome false [Error (ErrorCreatingVisualization e)]
| subheader_then_error title e :
    chart_outcome false
      [Subheader title; Error (ErrorCreatingVisualization e)]
| chart_shown title fig :
    Pandas.size (Category (fig_frame fig))
    = Pandas.size (Amount (fig_frame fig)) ->
    chart_outcome true [Subheader title; PlotlyChart fig true].

(** What the history display shows of a message itself. *)
Definition said (m : Message) : list effect :=
  [ChatMessage (role m); Markdown (content m)].

(** What the history display can put on the page for a list of
    messages: each message in turn, and after an assistant message
    what [create_visualization] leaves there. *)
Inductive history_of : list Message -> list effect -> Prop :=
| history_end : history_of [] []
| history_other m l out :
    role m <> Assistant -> history_of l out ->
    history_of (m :: l) (said m ++ out)
| history_assistant m l b extra out :
    role m = Assistant -> chart_outcome b extra -> history_of l out ->
    history_of (m :: l) (said m ++ extra ++ out).

(** One message of the history display: what follows its role and content: for
    an assistant message the chart function, for another nothing. *)
Definition after_message (theme : Theme) (m : Message) : M unit :=
  match role m with
  | Assistant => create_visualization theme (content m) ;; ret tt
  | _ => ret tt
  end.

(** What the history display draws for [l] at the start of a run, on
    the empty page. *)
Definition history_page (surface : Surface) (theme : Theme)
    (l : list Message) : list effect :=
  page (snd (display_messages theme l (blank surface fresh))).

(** The same figure with another layout template. *)
Definition set_template (tpl : str) (fig : Figure) : Figure :=
  {| fig_trace := fig_trace fig; fig_frame := fig_frame fig;
     fig_title := fig_title fig;
     fig_layout :=
       match fig_layout fig with
       | Some lay =>
           Some {| template := tpl;
                   title_font_size := title_font_size lay;
                   xaxis_title := xaxis_title lay;
                   yaxis_title := yaxis_title lay |}
       | None => None
       end |}.

(** The same attempt with another layout template on its figure. *)
Definition with_template (tpl : str) (a : attempt) : attempt :=
  match a with
  | heading_then_chart title fig =>
      heading_then_chart title (set_template tpl fig)
  | a => a
  end.

(** The messages that turns add to the log: each turn adds the user's
    non-empty prompt, followed or not by the assistant's reply. *)
Inductive turns : list Message -> Prop :=
| turns_none : turns []
| turns_failed l prompt :
    turns l -> Str.truthy prompt = true ->
    turns (l ++ [user_message prompt])
| turns_completed l prompt reply :
    turns l -> Str.truthy prompt = true ->
    turns (l ++ [user_message prompt; assistant_message reply]).

(** From [s] to [s']: whole turns have been added to an existing log; a
    log that did not exist is absent or is the system message followed
    by whole turns. *)
Definition grows_by_turns (s s' : SessionState) : Prop :=
  match messages s with
  | Some l => exists added, messages s' = Some (l ++ added) /\ turns added
  | None =>
      messages s' = None \/
      exists rest, messages s' = Some (system_preamble :: rest) /\ turns rest
  end.

Definition conversation (s : SessionState) : Prop :=
  messages s = None \/
  exists rest, messages s = Some (system_preamble :: rest) /\ turns rest.

(** Whether a [data] that is not a dict makes the two membership tests
    of line 113 succeed or raise: a text does when both words occur in
    it, a list when both words are among its elements, and any other
    object because it cannot be searched at all. *)
Definition passes_the_gate (v : pyobj) : bool :=
  match v with
  | PyStr s => Str.contains s (py "labels") && Str.contains s (py "values")
  | PyList l =>
      existsb (fun x => py_eq_str x (py "labels")) l &&
      existsb (fun x => py_eq_str x (py "values")) l
  | _ => true
  end.

Definition is_dict (v : pyobj) : bool :=
  match v with PyDict _ => true | _ => false end.

(** The log a run works on: the one of the session state, or the one
    the run creates. *)
Definition log_of (s : SessionState) : list Message :=
  match messages s with
  | Some l => l
  | None => [system_preamble]
  end.

(** The world after the first three statements of a run that has a
    key: the key is stored, the log exists, the history is shown. *)
Definition opened (i : Inputs) (w : world) : world :=
  snd (display_messages (theme i) (skipn 1 (log_of (session w)))
         {| session := {| messages := Some (log_of (session w));
                          groq_client_api_key := Some (api_key i) |};
            page := page w; surface := surface w |}).

(** The manual chart of a run, when the box is ticked. *)
Definition canvas_part (i : Inputs) : list effect :=
  if canvas_mode i then canvas_output (categories i) (amounts i) else [].

(** No prompt was submitted, or an empty one. *)
Definition no_prompt (p : option str) : bool :=
  match p with
  | Some (_ :: _) => false
  | _ => true
  end.

(** The four things the manual path can leave on the page. *)
Inductive canvas_outcome (categories amounts : str) : list effect -> Prop :=
| canvas_idle :
    categories = [] \/ amounts = [] ->
    canvas_outcome categories amounts []
| canvas_not_a_number :
    categories <> [] -> amounts <> [] ->
    Float.of_strs (fields amounts) = Raise ValueError ->
    canvas_outcome categories amounts [Error (ErrorNotNumeric ValueError)]
| canvas_counts_differ xs :
    categories <> [] -> amounts <> [] ->
    Float.of_strs (fields amounts) = Ok xs ->
    length (fields categories) <> length (fields amounts) ->
    canvas_outcome categories amounts [Error ErrorCountMismatch]
| canvas_drawn xs :
    categories <> [] -> amounts <> [] ->
    Float.of_strs (fields amounts) = Ok xs ->
    length (fields categories) = length xs ->
    canvas_outcome categories amounts [custom_chart (fields categories) xs].

Definition is_chat_message (x : effect) : bool :=
  match x with ChatMessage _ => true | _ => false end.

(** The decoder's number scanner, stage by stage: the sign, the integer
    part, the fraction, the exponent; and the characters that can follow
    a value inside an object or an array. *)
Module JsonParts.

Import Json.

(** Whitespace, a comma, a closing bracket or a closing brace. *)
Definition is_stop (c : char) : bool :=
  (is_ws c || (c =? 44) || (c =? 93) || (c =? 125))%N.

Definition head_stop (s : str) : Prop :=
  match s with c :: _ => is_stop c = true | [] => False end.

Definition sign_part (s : str) : bool * str :=
  match s with
  | c :: r => if (c =? 45)%N then (true, r) else (false, s)
  | [] => (false, s)
  end.

Definition int_part (d : char) (r : str) : str * str :=
  if (d =? 48)%N then ([d], r)
  else let (ds, r') := span_digits r in (d :: ds, r').

Definition frac_part (s2 : str) : str * str :=
  match s2 with
  | c :: r2 =>
      if (c =? 46)%N then
        match span_digits r2 with
        | ([], _) => ([], s2)
        | (fs, r3) => (fs, r3)
        end
      else ([], s2)
  | [] => ([], s2)
  end.

Definition exp_sign (r3 : str) : bool * str :=
  match r3 with
  | g :: r4 =>
      if (g =? 45)%N then (true, r4)
      else if (g =? 43)%N then (false, r4)
      else (false, r3)
  | [] => (false, r3)
  end.

Definition exp_part (s3 : str) : option Z * str :=
  match s3 with
  | c :: r3 =>
      if ((c =? 101) || (c =? 69))%N then
        let (eneg, r4) := exp_sign r3 in
        match span_digits r4 with
        | ([], _) => (None, s3)
        | (es, r5) => (Some (signed eneg (digits_value es)), r5)
        end
      else (None, s3)
  | [] => (None, s3)
  end.

Definition number_of (neg : bool) (ip fp : str) (ex : option Z) : pyobj :=
  match fp, ex with
  | [], None => PyInt (signed neg (digits_value ip))
  | _, None => PyFloat (decimal neg ip fp 0)
  | _, Some e => PyFloat (decimal neg ip fp e)
  end.

(** The text starts a string, an object or an array. *)
Definition opens (s : str) : Prop :=
  match s with
  | c :: _ => (c =? 34)%N = true \/ (c =? 123)%N = true \/ (c =? 91)%N = true
  | [] => False
  end.

End JsonParts.

Arguments py : simpl never.
Arguments jq : simpl never.

(* ===================================================================== *)
(** ** Facts about the text operations *)
(* ===================================================================== *)

Section TextFacts.

Variable c : char.

Lemma find_from_absent (s : str) (i : Z) :
  ~ In c s -> Str.find_from c s i = (-1)%Z.
Proof.
  revert i; induction s as [|x r IH]; intros i Hnot; simpl.
  - reflexivity.
  - destruct (N.eqb_spec x c) as [->|Hne].
    + exfalso; apply Hnot; now left.
    + apply IH. intros Hin; apply Hnot; now right.
Qed.

Lemma find_from_first (pre post : str) (i : Z) :
  ~ In c pre ->
  Str.find_from c (pre ++ c :: post) i = (i + Z.of_nat (length pre))%Z.
Proof.
  revert i; induction pre as [|x r IH]; intros i Hnot; simpl.
  - rewrite N.eqb_refl. lia.
  - destruct (N.eqb_spec x c) as [->|Hne].
    + exfalso; apply Hnot; now left.
    + rewrite IH by (intros Hin; apply Hnot; now right). lia.
Qed.

Lemma rfind_from_absent (s : str) (i last : Z) :
  ~ In c s -> Str.rfind_from c s i last = last.
Proof.
  revert i last; induction s as [|x r IH]; intros i last Hnot; simpl.
  - reflexivity.
  - destruct (N.eqb_spec x c) as [->|Hne].
    + exfalso; apply Hnot; now left.
    + apply IH. intros Hin; apply Hnot; now right.
Qed.

Lemma rfind_from_app (a b : str) (i last : Z) :
  Str.rfind_from c (a ++ b) i last =
  Str.rfind_from c b (i + Z.of_nat (length a))%Z (Str.rfind_from c a i last).
Proof.
  revert i last; induction a as [|x r IH]; intros i last.
  - simpl. f_equal. lia.
  - cbn [app Str.rfind_from length]. rewrite IH. f_equal. lia.
Qed.

Lemma rfind_from_bound (s : str) (i last : Z) :
  (last < i)%Z ->
  (Str.rfind_from c s i last < i + Z.of_nat (length s))%Z.
Proof.
  revert i last; induction s as [|x r IH]; intros i last Hlt.
  - simpl. lia.
  - cbn [Str.rfind_from length].
    specialize (IH (i + 1)%Z (if N.eqb x c then i else last)).
    destruct (N.eqb x c); lia.
Qed.

Lemma rfind_from_last (pre post : str) (i last : Z) :
  ~ In c post ->
  Str.rfind_from c (pre ++ c :: post) i last
  = (i + Z.of_nat (length pre))%Z.
Proof.
  intros Hnot. rewrite rfind_from_app. cbn [Str.rfind_from].
  rewrite N.eqb_refl. now apply rfind_from_absent.
Qed.

End TextFacts.

Lemma find_absent (s : str) (c : char) : ~ In c s -> Str.find s c = (-1)%Z.
Proof. apply find_from_absent. Qed.

Lemma find_first (pre post : str) (c : char) :
  ~ In c pre -> Str.find (pre ++ c :: post) c = Z.of_nat (length pre).
Proof. intros H. unfold Str.find. now rewrite find_from_first. Qed.

Lemma rfind_last (pre post : str) (c : char) :
  ~ In c post -> Str.rfind (pre ++ c :: post) c = Z.of_nat (length pre).
Proof. intros H. unfold Str.rfind. now rewrite rfind_from_last. Qed.

(** When nothing after position [n] is [c], the last [c] is before [n]. *)
Lemma rfind_before (pre post : str) (c : char) :
  ~ In c post ->
  (Str.rfind (pre ++ post) c < Z.of_nat (length pre))%Z.
Proof.
  intros H. unfold Str.rfind. rewrite rfind_from_app.
  rewrite rfind_from_absent by assumption.
  pose proof (@rfind_from_bound c pre 0 (-1)). lia.
Qed.

Lemma slice_middle (pre mid post : str) :
  Str.slice (pre ++ mid ++ post) (Z.of_nat (length pre))
    (Z.of_nat (length pre) + Z.of_nat (length mid))
  = mid.
Proof.
  unfold Str.slice, Str.clip. rewrite !length_app.
  destruct (Z.ltb_spec (Z.of_nat (length pre)) 0); [lia|].
  destruct (Z.ltb_spec (Z.of_nat (length pre) + Z.of_nat (length mid)) 0);
    [lia|].
  replace (Z.to_nat (Z.min (Z.of_nat (length pre))
                       (Z.of_nat (length pre + (length mid + length post)))))
    with (length pre) by lia.
  replace (Z.to_nat _) with (length mid) by lia.
  rewrite skipn_app, skipn_all, Nat.sub_diag. simpl.
  rewrite firstn_app, firstn_all, Nat.sub_diag. simpl.
  now rewrite app_nil_r.
Qed.

(** Every text either lacks [c] or splits at its first [c]. *)
Lemma split_first (c : char) (s : str) :
  ~ In c s \/
  exists pre post, s = pre ++ c :: post /\ ~ In c pre.
Proof.
  induction s as [|x r [IH | (pre & post & -> & Hpre)]].
  - left. intros [].
  - destruct (N.eq_dec x c) as [->|Hne].
    + right. exists [], r. split; [reflexivity | intros []].
    + left. intros [H|H]; [now apply Hne | now apply IH].
  - destruct (N.eq_dec x c) as [->|Hne].
    + right. exists [], (pre ++ c :: post). split; [reflexivity | intros []].
    + right. exists (x :: pre), post. split; [reflexivity|].
      intros [H|H]; [now apply Hne | now apply Hpre].
Qed.

(** Every text either lacks [c] or splits at its last [c]. *)
Lemma split_last (c : char) (s : str) :
  ~ In c s \/
  exists pre post, s = pre ++ c :: post /\ ~ In c post.
Proof.
  induction s as [|x r [IH | (pre & post & -> & Hpost)]].
  - left. intros [].
  - destruct (N.eq_dec x c) as [->|Hne].
    + right. exists [], r. split; [reflexivity | exact IH].
    + left. intros [H|H]; [now apply Hne | now apply IH].
  - right. exists (x :: pre), post. split; [reflexivity | exact Hpost].
Qed.

(* ===================================================================== *)
(** ** Facts about the decoder *)
(* ===================================================================== *)

Module JsonFacts.

Import Json.

Lemma skip_ws_length (s : str) : length (skip_ws s) <= length s.
Proof.
  induction s as [|c r IH]; simpl; [lia|].
  destruct (is_ws c); simpl; lia.
Qed.

Lemma skip_ws_brace (s : str) : skip_ws (lbrace :: s) = lbrace :: s.
Proof. reflexivity. Qed.

Lemma drop_prefix_length (p s r : str) :
  Str.drop_prefix p s = Some r -> length s = length p + length r.
Proof.
  revert s; induction p as [|x p IH]; intros s H.
  - injection H as <-. reflexivity.
  - destruct s as [|y s]; simpl in H; [discriminate|].
    destruct (N.eqb x y); [|discriminate].
    simpl. now rewrite (IH _ H).
Qed.

Lemma span_digits_length (s ds r : str) :
  span_digits s = (ds, r) -> length s = length ds + length r.
Proof.
  revert ds r; induction s as [|c s IH]; intros ds r H; simpl in H.
  - injection H as <- <-. reflexivity.
  - destruct (is_digit c).
    + destruct (span_digits s) as [ds' r'] eqn:E.
      injection H as <- <-. simpl. now rewrite (IH _ _ eq_refl).
    + injection H as <- <-. reflexivity.
Qed.

Lemma scanpieces_shorter (s : str) :
  forall acc, scanpieces s acc <> Starved /\
    forall l r, scanpieces s acc = Scanned l r -> length r < length s.
Proof.
  induction s as [s IH] using (well_founded_induction
                                 (Wf_nat.well_founded_ltof _ (@length char))).
  unfold Wf_nat.ltof in IH.
  intros acc. destruct s as [|c r]; simpl; [split; congruence|].
  destruct (c =? 34)%N.
  { split; [congruence|]. intros l r' H. injection H as _ <-. simpl; lia. }
  destruct (c =? 92)%N.
  - destruct r as [|e r1]; [split; congruence|].
    destruct (e =? 117)%N.
    + destruct r1 as [|h1 [|h2 [|h3 [|h4 r2]]]]; try (split; congruence).
      destruct (hex4 h1 h2 h3 h4); [|split; congruence].
      destruct (IH r2 ltac:(simpl; lia) (U16 n :: acc)) as [H1 H2].
      split; [exact H1|]. intros l r' H. apply H2 in H. simpl; lia.
    + destruct (unescape e); [|split; congruence].
      destruct (IH r1 ltac:(simpl; lia) (Lit c0 :: acc)) as [H1 H2].
      split; [exact H1|]. intros l r' H. apply H2 in H. simpl; lia.
  - destruct (c <=? 31)%N; [split; congruence|].
    destruct (IH r ltac:(simpl; lia) (Lit c :: acc)) as [H1 H2].
    split; [exact H1|]. intros l r' H. apply H2 in H. simpl; lia.
Qed.

Lemma scanstring_shorter (s : str) :
  scanstring s <> Starved /\
  forall t r, scanstring s = Scanned t r -> length r < length s.
Proof.
  unfold scanstring. destruct (scanpieces_shorter s []) as [H1 H2].
  destruct (scanpieces s []) as [l r| |]; split; try congruence.
  intros t r' H. injection H as _ <-. now apply (H2 l).
Qed.

Lemma match_constant_shorter (s : str) (v : pyobj) (r : str) :
  match_constant s = Some (v, r) -> length r < length s.
Proof.
  unfold match_constant.
  repeat match goal with
  | |- context [Str.drop_prefix ?p s] =>
      let E := fresh "E" in
      destruct (Str.drop_prefix p s) eqn:E;
      [apply drop_prefix_length in E; intros H; injection H as _ <-;
       rewrite E; unfold py; simpl; lia|]
  end.
  discriminate.
Qed.

Lemma match_number_shorter (s : str) :
  match_number s <> Starved /\
  forall v r, match_number s = Scanned v r -> length r < length s.
Proof.
  unfold match_number.
  assert (Hsign : forall neg s1,
    match s with
    | c :: r => if (c =? 45)%N then (true, r) else (false, s)
    | [] => (false, s)
    end = (neg, s1) -> length s1 <= length s).
  { intros neg s1. destruct s as [|c r]; [intros [= _ <-]; lia|].
    destruct (c =? 45)%N; intros [= _ <-]; simpl; lia. }
  destruct (match s with
            | c :: r => if (c =? 45)%N then (true, r) else (false, s)
            | [] => (false, s)
            end) as [neg s1].
  specialize (Hsign neg s1 eq_refl).
  destruct s1 as [|d r]; [split; congruence|].
  destruct (is_digit d); [|split; congruence].
  assert (Hip : forall ip s2,
    (if (d =? 48)%N then ([d], r)
     else let (ds, r') := span_digits r in (d :: ds, r')) = (ip, s2) ->
    length s2 <= length r).
  { intros ip s2. destruct (d =? 48)%N; [intros [= _ <-]; lia|].
    destruct (span_digits r) as [ds r'] eqn:E. intros [= _ <-].
    apply span_digits_length in E. lia. }
  destruct (if (d =? 48)%N then ([d], r)
            else let (ds, r') := span_digits r in (d :: ds, r'))
    as [ip s2].
  specialize (Hip ip s2 eq_refl).
  assert (Hfp : forall fp s3,
    match s2 with
    | c :: r2 =>
        if (c =? 46)%N then
          match span_digits r2 with
          | ([], _) => ([], s2)
          | (fs, r3) => (fs, r3)
          end
        else ([], s2)
    | [] => ([], s2)
    end = (fp, s3) -> length s3 <= length s2).
  { intros fp s3. destruct s2 as [|c r2]; [intros [= _ <-]; lia|].
    destruct (c =? 46)%N; [|intros [= _ <-]; lia].
    destruct (span_digits r2) as [[|f fs] r3] eqn:E; intros [= _ <-];
      [lia|]. apply span_digits_length in E. simpl in *. lia. }
  destruct (match s2 with
            | c :: r2 =>
                if (c =? 46)%N then
                  match span_digits r2 with
                  | ([], _) => ([], s2)
                  | (fs, r3) => (fs, r3)
                  end
                else ([], s2)
            | [] => ([], s2)
            end) as [fp s3].
  specialize (Hfp fp s3 eq_refl).
  match goal with
  | |- context [let (ex, s4) := ?e in _] =>
      assert (Hex : forall ex s4, e = (ex, s4) -> length s4 <= length s3);
      [|destruct e as [ex s4]; specialize (Hex ex s4 eq_refl)]
  end.
  { intros ex s4. destruct s3 as [|c r3]; [intros [= _ <-]; lia|].
    destruct ((c =? 101) || (c =? 69))%N; [|intros [= _ <-]; lia].
    assert (Hs : forall eneg r4,
      match r3 with
      | g :: r4 =>
          if (g =? 45)%N then (true, r4)
          else if (g =? 43)%N then (false, r4)
          else (false, r3)
      | [] => (false, r3)
      end = (eneg, r4) -> length r4 <= length r3).
    { intros eneg r4. destruct r3 as [|g r3']; [intros [= _ <-]; lia|].
      destruct (g =? 45)%N; [intros [= _ <-]; simpl; lia|].
      destruct (g =? 43)%N; intros [= _ <-]; simpl; lia. }
    destruct (match r3 with
              | g :: r4 =>
                  if (g =? 45)%N then (true, r4)
                  else if (g =? 43)%N then (false, r4)
                  else (false, r3)
              | [] => (false, r3)
              end) as [eneg r4].
    specialize (Hs eneg r4 eq_refl).
    destruct (span_digits r4) as [[|e es] r5] eqn:E; intros [= _ <-];
      [lia|]. apply span_digits_length in E. simpl in *. lia. }
  simpl in Hsign.
  destruct fp, ex; (split; [congruence|]); intros v r' [= _ <-]; lia.
Qed.

(** Reading never runs out of fuel when given [enough], and a value
    that is read takes at least one character. *)
Lemma scanners_total (fuel : nat) :
  (forall s, 2 * length s + 1 <= fuel -> scan_once fuel s <> Starved) /\
  (forall acc s, 2 * length s + 2 <= fuel ->
     parse_pairs fuel acc s <> Starved) /\
  (forall acc s, 2 * length s + 2 <= fuel ->
     parse_items fuel acc s <> Starved) /\
  (forall s v r, scan_once fuel s = Scanned v r -> length r < length s) /\
  (forall acc s v r, parse_pairs fuel acc s = Scanned v r ->
     length r < length s) /\
  (forall acc s v r, parse_items fuel acc s = Scanned v r ->
     length r < length s).
Proof.
  induction fuel as [|f (IHs & IHp & IHi & IHs' & IHp' & IHi')].
  { repeat split; intros; simpl in *; try lia; discriminate. }
  assert (Hs' : forall s v r, scan_once (S f) s = Scanned v r ->
                length r < length s).
  { intros [|c r0] v r; cbn [scan_once]; [discriminate|].
    destruct (c =? 34)%N.
    { destruct (scanstring_shorter r0) as [_ H2].
      destruct (scanstring r0) as [t r'| |]; try discriminate.
      intros [= _ <-]. specialize (H2 t r' eq_refl). simpl; lia. }
    destruct (c =? 123)%N.
    { pose proof (skip_ws_length r0) as Hw.
      destruct (skip_ws r0) as [|c1 r1]; [discriminate|].
      destruct (c1 =? 125)%N; [intros [= _ <-]; simpl in *; lia|].
      intros H. apply IHp' in H. simpl in *; lia. }
    destruct (c =? 91)%N.
    { pose proof (skip_ws_length r0) as Hw.
      destruct (skip_ws r0) as [|c1 r1]; [discriminate|].
      destruct (c1 =? 93)%N; [intros [= _ <-]; simpl in *; lia|].
      intros H. apply IHi' in H. simpl in *; lia. }
    destruct (match_constant (c :: r0)) as [[v' r']|] eqn:E.
    { intros [= _ <-]. now apply match_constant_shorter in E. }
    intros H. now apply (proj2 (match_number_shorter (c :: r0))) in H. }
  assert (Hp' : forall acc s v r, parse_pairs (S f) acc s = Scanned v r ->
                length r < length s).
  { intros acc [|q r0] v r; cbn [parse_pairs]; [discriminate|].
    destruct (q =? 34)%N; [|discriminate].
    destruct (scanstring_shorter r0) as [_ H2].
    destruct (scanstring r0) as [key r1| |]; try discriminate.
    specialize (H2 key r1 eq_refl).
    pose proof (skip_ws_length r1) as Hw1.
    destruct (skip_ws r1) as [|c r2]; [discriminate|].
    destruct (c =? 58)%N; [|discriminate].
    pose proof (skip_ws_length r2) as Hw2.
    destruct (scan_once f (skip_ws r2)) as [v3 r3| |] eqn:E3;
      try discriminate.
    apply IHs' in E3.
    pose proof (skip_ws_length r3) as Hw3.
    destruct (skip_ws r3) as [|c4 r4]; [discriminate|].
    destruct (c4 =? 125)%N; [intros [= _ <-]; simpl in *; lia|].
    destruct (c4 =? 44)%N; [|discriminate].
    intros H. apply IHp' in H.
    pose proof (skip_ws_length r4). simpl in *; lia. }
  assert (Hi' : forall acc s v r, parse_items (S f) acc s = Scanned v r ->
                length r < length s).
  { intros acc s v r; cbn [parse_items].
    destruct (scan_once f s) as [v1 r1| |] eqn:E1; try discriminate.
    apply IHs' in E1.
    pose proof (skip_ws_length r1) as Hw1.
    destruct (skip_ws r1) as [|c r2]; [discriminate|].
    destruct (c =? 93)%N; [intros [= _ <-]; simpl in *; lia|].
    destruct (c =? 44)%N; [|discriminate].
    intros H. apply IHi' in H.
    pose proof (skip_ws_length r2). simpl in *; lia. }
  repeat split; try assumption.
  - intros [|c r0] Hf; cbn [scan_once]; [discriminate|].
    destruct (c =? 34)%N.
    { destruct (scanstring_shorter r0) as [H1 _].
      destruct (scanstring r0); congruence. }
    destruct (c =? 123)%N.
    { pose proof (skip_ws_length r0) as Hw.
      destruct (skip_ws r0) as [|c1 r1]; [discriminate|].
      destruct (c1 =? 125)%N; [discriminate|].
      apply IHp. simpl in *; lia. }
    destruct (c =? 91)%N.
    { pose proof (skip_ws_length r0) as Hw.
      destruct (skip_ws r0) as [|c1 r1]; [discriminate|].
      destruct (c1 =? 93)%N; [discriminate|].
      apply IHi. simpl in *; lia. }
    destruct (match_constant (c :: r0)) as [[v' r']|]; [discriminate|].
    apply match_number_shorter.
  - intros acc [|q r0] Hf; cbn [parse_pairs]; [discriminate|].
    destruct (q =? 34)%N; [|discriminate].
    destruct (scanstring_shorter r0) as [H1 H2].
    destruct (scanstring r0) as [key r1| |]; try congruence.
    specialize (H2 key r1 eq_refl).
    pose proof (skip_ws_length r1) as Hw1.
    destruct (skip_ws r1) as [|c r2]; [discriminate|].
    destruct (c =? 58)%N; [|discriminate].
    pose proof (skip_ws_length r2) as Hw2.
    destruct (scan_once f (skip_ws r2)) as [v3 r3| |] eqn:E3;
      [|discriminate|].
    + apply IHs' in E3.
      pose proof (skip_ws_length r3) as Hw3.
      destruct (skip_ws r3) as [|c4 r4]; [discriminate|].
      destruct (c4 =? 125)%N; [discriminate|].
      destruct (c4 =? 44)%N; [|discriminate].
      apply IHp. pose proof (skip_ws_length r4). simpl in *; lia.
    + exfalso. revert E3. apply IHs. simpl in *; lia.
  - intros acc s Hf; cbn [parse_items].
    destruct (scan_once f s) as [v1 r1| |] eqn:E1; [|discriminate|].
    + apply IHs' in E1.
      pose proof (skip_ws_length r1) as Hw1.
      destruct (skip_ws r1) as [|c r2]; [discriminate|].
      destruct (c =? 93)%N; [discriminate|].
      destruct (c =? 44)%N; [|discriminate].
      apply IHi. pose proof (skip_ws_length r2). simpl in *; lia.
    + exfalso. revert E1. apply IHs. lia.
Qed.

(** [loads] never gives up for lack of fuel. *)
Lemma loads_never_starved (s : str) :
  scan_once (enough (skip_ws s)) (skip_ws s) <> Starved.
Proof. apply scanners_total. unfold enough. lia. Qed.

(** The only exception of [loads] is [JSONDecodeError]. *)
Lemma loads_raises (s : str) (e : exn) :
  loads s = Raise e -> e = JSONDecodeError.
Proof.
  unfold loads.
  destruct (scan_once _ _) as [v r| |]; try congruence.
  destruct (skip_ws r); congruence.
Qed.

Lemma parse_pairs_dict (fuel : nat) :
  forall acc s v r, parse_pairs fuel acc s = Scanned v r ->
  exists d, v = PyDict d.
Proof.
  induction fuel as [|f IH]; intros acc s v r; [discriminate|].
  cbn [parse_pairs]. destruct s as [|q r0]; [discriminate|].
  destruct (q =? 34)%N; [|discriminate].
  destruct (scanstring r0) as [key r1| |]; try discriminate.
  destruct (skip_ws r1) as [|c r2]; [discriminate|].
  destruct (c =? 58)%N; [|discriminate].
  destruct (scan_once f (skip_ws r2)) as [v3 r3| |]; try discriminate.
  destruct (skip_ws r3) as [|c4 r4]; [discriminate|].
  destruct (c4 =? 125)%N; [intros [= <- _]; eauto|].
  destruct (c4 =? 44)%N; [|discriminate].
  apply IH.
Qed.

(** A text that starts with an opening brace decodes to a dict, if it
    decodes at all. *)
Lemma loads_brace_dict (s : str) (v : pyobj) :
  loads (lbrace :: s) = Ok v -> exists d, v = PyDict d.
Proof.
  unfold loads. rewrite skip_ws_brace.
  destruct (scan_once _ _) as [v' r| |] eqn:E; try discriminate.
  destruct (skip_ws r); [|discriminate]. intros [= <-].
  unfold enough in E. cbn [scan_once length Nat.mul Nat.add] in E.
  change (lbrace =? 34)%N with false in E.
  change (lbrace =? 123)%N with true in E. cbn iota in E.
  destruct (skip_ws s) as [|c1 r1]; [discriminate|].
  destruct (c1 =? 125)%N; [injection E as <- _; eauto|].
  now apply parse_pairs_dict in E.
Qed.

End JsonFacts.

(* ===================================================================== *)
(** ** Locating the payload *)
(* ===================================================================== *)

Lemma brace_condition (a b : Z) :
  (0 <= a)%Z -> (a < b)%Z -> negb (a =? -1)%Z && (b >? a)%Z = true.
Proof.
  intros Ha Hb.
  destruct (Z.eqb_spec a (-1)); [lia|].
  destruct (Z.gtb_spec b a); [reflexivity | lia].
Qed.

Lemma create_visualization_no_pair (theme : Theme) (text : str) (w : world) :
  no_brace_pair text ->
  create_visualization theme (PyStr text) w = (Ok false, w).
Proof.
  intros [Hnone | (pre & post & -> & Hpre & Hpost)];
    unfold create_visualization, try_except.
  - rewrite find_absent by assumption. reflexivity.
  - rewrite find_first by assumption.
    assert (Hr : (Str.rfind (pre ++ lbrace :: post) rbrace
                  < Z.of_nat (length pre))%Z).
    { apply rfind_before. intros [H|H]; [discriminate | now apply Hpost]. }
    destruct (Z.gtb_spec (Str.rfind (pre ++ lbrace :: post) rbrace + 1)
                (Z.of_nat (length pre))); [lia|].
    now rewrite andb_false_r.
Qed.

Lemma create_visualization_span (theme : Theme) (text span : str) (w : world) :
  brace_span text span ->
  create_visualization theme (PyStr text) w = decode_and_chart theme span w.
Proof.
  intros (pre & mid & post & -> & Hpre & Hpost & ->).
  unfold create_visualization, decode_and_chart.
  rewrite find_first by assumption.
  replace (pre ++ lbrace :: mid ++ rbrace :: post)
    with ((pre ++ lbrace :: mid) ++ rbrace :: post)
    by now rewrite <- app_assoc.
  rewrite rfind_last by assumption.
  rewrite brace_condition
    by (rewrite ?length_app; cbn [length]; lia).
  replace (Z.of_nat (length (pre ++ lbrace :: mid)) + 1)%Z
    with (Z.of_nat (length pre) + Z.of_nat (length (lbrace :: mid ++ [rbrace])))%Z
    by (rewrite !length_app; cbn [length]; rewrite length_app; cbn [length]; lia).
  replace ((pre ++ lbrace :: mid) ++ rbrace :: post)
    with (pre ++ (lbrace :: mid ++ [rbrace]) ++ post)
    by (rewrite <- !app_assoc; cbn [app]; now rewrite <- app_assoc).
  rewrite slice_middle. reflexivity.
Qed.

Lemma brace_cases (text : str) :
  no_brace_pair text \/ exists span, brace_span text span.
Proof.
  destruct (split_first lbrace text) as [Hnone | (pre & rest & -> & Hpre)].
  - left. now left.
  - destruct (split_last rbrace rest) as [Hnone | (mid & post & -> & Hpost)].
    + left. right. now exists pre, rest.
    + right. exists (lbrace :: mid ++ [rbrace]), pre, mid, post. auto.
Qed.

Lemma brace_span_intro (pre mid post : str) :
  ~ In lbrace pre -> ~ In rbrace post ->
  brace_span (pre ++ lbrace :: mid ++ rbrace :: post)
    (lbrace :: mid ++ [rbrace]).
Proof. intros Hpre Hpost. now exists pre, mid, post. Qed.

(** Concrete texts: the listed characters are not the one looked for. *)
Ltac absent := simpl; intuition discriminate.

(** [concrete_span pre mid post] proves [brace_span text span] for
    closed texts that compute to [pre ++ lbrace :: mid ++ rbrace :: post]
    and [lbrace :: mid ++ [rbrace]]. *)
Ltac concrete_span pre mid post :=
  let H := fresh in
  assert (H : brace_span (pre ++ lbrace :: mid ++ rbrace :: post)
                (lbrace :: mid ++ [rbrace]))
    by (apply brace_span_intro; absent);
  vm_compute in H |- *; exact H.

(** C1.  A text without an opening brace, or without a closing brace
    after its first opening brace, gives [False] and nothing else
    happens; otherwise the text from the first opening brace to the last
    closing brace, both included, is the one text that is decoded, and
    the result is the result of decoding and charting that text.  One
    of the two cases always applies. *)
Theorem C1_first_to_last_brace (theme : Theme) (text : str) (w : world) :
  (no_brace_pair text ->
   create_visualization theme (PyStr text) w = (Ok false, w)) /\
  (forall span, brace_span text span ->
   create_visualization theme (PyStr text) w
   = decode_and_chart theme span w) /\
  (no_brace_pair text \/ exists span, brace_span text span).
Proof.
  split; [apply create_visualization_no_pair|].
  split; [intros span; apply create_visualization_span|].
  apply brace_cases.
Qed.

(* ===================================================================== *)
(** ** Statements that only draw *)
(* ===================================================================== *)

Section PageOnly.

Context {A B : Type}.
Variable P : exn -> bool.

Lemma page_only_ret (a : A) : page_only P (ret a).
Proof. intros w. split; [reflexivity | discriminate]. Qed.

Lemma page_only_raise (e : exn) : P e = true -> page_only P (@raise A e).
Proof. intros H w. split; [reflexivity | now intros e' [= <-]]. Qed.

Lemma page_only_lift (o : outcome A) : raises_only P o -> page_only P (lift o).
Proof. intros H w. split; [reflexivity | exact H]. Qed.

Lemma page_only_emit (x : effect) : page_only P (emit x).
Proof. intros w. split; [reflexivity | discriminate]. Qed.

Lemma page_only_bind (c : M A) (k : A -> M B) :
  page_only P c -> (forall a, page_only P (k a)) -> page_only P (bind c k).
Proof.
  intros Hc Hk w. unfold bind. destruct (Hc w) as [Hs He].
  destruct (c w) as [[a|e] w']; simpl in *.
  - destruct (Hk a w') as [Hs' He']. split; [congruence | exact He'].
  - split; [exact Hs|]. intros e' [= <-]. now apply He.
Qed.

Lemma page_only_try (Q catches : exn -> bool) (body : M A)
    (handler : exn -> M A) :
  page_only Q body ->
  (forall e, page_only P (handler e)) ->
  (forall e, Q e = true -> catches e = false -> P e = true) ->
  page_only P (try_except catches body handler).
Proof.
  intros Hb Hh Hq w. unfold try_except. destruct (Hb w) as [Hs He].
  destruct (body w) as [[a|e] w']; simpl in *.
  - split; [exact Hs | discriminate].
  - destruct (catches e) eqn:Hc.
    + destruct (Hh e w') as [Hs' He']. split; [congruence | exact He'].
    + split; [exact Hs|]. intros e' [= <-]. apply Hq; auto.
Qed.

End PageOnly.

Lemma page_only_present (x : effect) : page_only is_Exception (present x).
Proof.
  intros w. unfold present.
  destruct (surface w (drawn (page w)) x) as [r|]; simpl.
  - split; [reflexivity|]. intros e [= <-]. apply (proj2_sig r).
  - split; [reflexivity | discriminate].
Qed.

Lemma page_only_returns {A} (c : M A) (w : world) :
  page_only nothing c -> exists a, fst (c w) = Ok a.
Proof.
  intros H. destruct (H w) as [_ He].
  destruct (fst (c w)) as [a|e]; [now exists a|].
  specialize (He e eq_refl). discriminate.
Qed.

Lemma py_get_raises obj key default :
  raises_only is_Exception (py_get obj key default).
Proof. intros e. destruct obj; simpl; now intros [= <-]. Qed.

Lemma py_in_raises key obj : raises_only is_Exception (py_in key obj).
Proof. intros e. destruct obj; simpl; now intros [= <-]. Qed.

Lemma py_getitem_str_raises obj key :
  raises_only is_Exception (py_getitem_str obj key).
Proof.
  intros e. destruct obj; simpl; try now intros [= <-].
  destruct (Dict.lookup key d); now intros [= <-].
Qed.

Lemma py_getitem_0_raises obj : raises_only is_Exception (py_getitem_0 obj).
Proof.
  intros e. destruct obj as [| | | | [|c s] | [|x l] | d]; simpl;
    now intros [= <-].
Qed.

Lemma loads_raises_Exception s : raises_only is_Exception (Json.loads s).
Proof. intros e H. now rewrite (JsonFacts.loads_raises _ H). Qed.

Lemma from_columns_raises l v :
  raises_only is_ValueError (Pandas.from_columns l v).
Proof.
  intros e. unfold Pandas.from_columns.
  destruct l as [| | | | |l|d], v as [| | | | |v|d']; try now intros [= <-].
  destruct (Nat.eqb _ _); now intros [= <-].
Qed.

Lemma express_raises t df title :
  raises_only is_ValueError (Plotly.express t df title).
Proof.
  intros e. unfold Plotly.express.
  destruct (title_ok title); now intros [= <-].
Qed.

Lemma of_str_ValueError (s : str) (e : exn) :
  Float.of_str s = Raise e -> e = ValueError.
Proof.
  unfold Float.of_str.
  destruct (Float.drop_underscores _ _); [|now intros [= <-]].
  destruct (Float.parse _); now intros [= <-].
Qed.

Lemma of_strs_ValueError (l : list str) (e : exn) :
  Float.of_strs l = Raise e -> e = ValueError.
Proof.
  induction l as [|s r IH]; simpl; [discriminate|].
  destruct (Float.of_str s) as [x|e'] eqn:E.
  - destruct (Float.of_strs r) as [xs|e'']; [discriminate|].
    intros [= <-]. now apply IH.
  - intros [= <-]. now apply of_str_ValueError in E.
Qed.

Lemma of_strs_raises l : raises_only is_ValueError (Float.of_strs l).
Proof. intros e H. now rewrite (of_strs_ValueError _ H). Qed.

Lemma ValueError_Exception (o : outcome DataFrame) :
  raises_only is_ValueError o -> raises_only is_Exception o.
Proof. intros H e He. apply H in He. now destruct e. Qed.

Lemma ValueError_Exception_fig (o : outcome Figure) :
  raises_only is_ValueError o -> raises_only is_Exception o.
Proof. intros H e He. apply H in He. now destruct e. Qed.

Ltac page_only_steps :=
  repeat first
    [ apply page_only_ret
    | apply page_only_emit
    | apply page_only_present
    | apply page_only_lift
    | apply page_only_bind; [|intros ?] ].

Lemma chart_from_data_page_only (theme : Theme) (data : pyobj) :
  page_only is_Exception (chart_from_data theme data).
Proof.
  unfold chart_from_data.
  apply page_only_bind; [apply page_only_lift, py_get_raises | intros ct].
  apply page_only_bind; [apply page_only_lift, py_get_raises | intros t].
  apply page_only_bind; [apply page_only_lift, py_get_raises | intros cd].
  apply page_only_bind; [apply page_only_lift, py_in_raises | intros hl].
  apply page_only_bind.
  { destruct hl; [apply page_only_lift, py_in_raises | apply page_only_ret]. }
  intros [|]; [|apply page_only_ret].
  apply page_only_bind;
    [apply page_only_lift, py_getitem_str_raises | intros l].
  apply page_only_bind;
    [apply page_only_lift, py_getitem_str_raises | intros v].
  apply page_only_bind;
    [apply page_only_lift, ValueError_Exception, from_columns_raises
    | intros df].
  apply page_only_bind; [apply page_only_present | intros _].
  apply page_only_bind.
  { apply page_only_lift, ValueError_Exception_fig.
    destruct (py_eq_str ct (py "pie")); [apply express_raises|].
    destruct (py_eq_str ct (py "line")); apply express_raises. }
  intros fig. page_only_steps.
Qed.

(** [create_visualization] never raises and never touches the session
    state, whatever object it is given. *)
Lemma create_visualization_page_only (theme : Theme) (text : pyobj) :
  page_only nothing (create_visualization theme text).
Proof.
  unfold create_visualization.
  apply page_only_try with (Q := is_Exception).
  - destruct text; try (now apply page_only_raise).
    destruct (negb _ && _); [|apply page_only_ret].
    apply page_only_bind;
      [apply page_only_lift, loads_raises_Exception | intros data].
    apply chart_from_data_page_only.
  - intros e. page_only_steps.
  - intros e He Hc. congruence.
Qed.

(* ===================================================================== *)
(** ** From the decoded payload to the chart *)
(* ===================================================================== *)

Ltac run :=
  unfold chart_from_data, bind, lift, ret, emit, raise, try_except, shown;
  cbn [py_get py_in py_getitem_str fst snd session page surface].

Lemma shown_nil (w : world) : shown w [] = w.
Proof. destruct w. unfold shown. simpl. now rewrite app_nil_r. Qed.

Lemma shown_shown (w : world) (a b : list effect) :
  shown (shown w a) b = shown w (a ++ b).
Proof. unfold shown. simpl. now rewrite app_assoc. Qed.

Lemma present_taken (x : effect) (w : world) :
  surface w (drawn (page w)) x = None ->
  present x w = (Ok tt, shown w [x]).
Proof. intros H. unfold present. now rewrite H. Qed.

Lemma present_refused (x : effect) (w : world) (r : refusal) :
  surface w (drawn (page w)) x = Some r ->
  present x w = (Raise (raised r), w).
Proof. intros H. unfold present. now rewrite H. Qed.

Lemma raised_Exception (r : refusal) : is_Exception (raised r) = true.
Proof. apply (proj2_sig r). Qed.

Lemma drawn_app (a b : list effect) : drawn (a ++ b) = drawn a ++ drawn b.
Proof. apply filter_app. Qed.

Lemma express_requested (d : Dict.t) (df : DataFrame) (title : pyobj) :
  (let chart_type := match Dict.lookup (py "chart_type") d with
                     | Some t => t
                     | None => PyStr (py "bar")
                     end in
   if py_eq_str chart_type (py "pie") then Plotly.pie df title
   else if py_eq_str chart_type (py "line") then Plotly.line df title
   else Plotly.bar df title)
  = Plotly.express (requested_trace d) df title.
Proof.
  unfold requested_trace. cbv zeta.
  destruct (Dict.lookup (py "chart_type") d) as [t|].
  - destruct (py_eq_str t (py "pie")); [reflexivity|].
    destruct (py_eq_str t (py "line")); reflexivity.
  - reflexivity.
Qed.

Lemma express_fields (t : trace) (df : DataFrame) (title : pyobj)
    (fig : Figure) :
  Plotly.express t df title = Ok fig ->
  fig_trace fig = t /\ fig_frame fig = df /\ fig_title fig = title /\
  title_ok title = true.
Proof.
  unfold Plotly.express. destruct (title_ok title); [|discriminate].
  intros [= <-]. auto.
Qed.

Lemma from_columns_balanced (l v : pyobj) (df : DataFrame) :
  Pandas.from_columns l v = Ok df ->
  Pandas.size (Category df) = Pandas.size (Amount df).
Proof.
  unfold Pandas.from_columns.
  destruct l as [| | | | |l|d], v as [| | | | |v|d'];
    try discriminate; try (intros [= <-]; simpl;
      rewrite ?repeat_length, ?length_map; reflexivity).
  destruct (Nat.eqb_spec (length l) (length v)); [|discriminate].
  now intros [= <-].
Qed.

(** The chart a decoded payload leads to, when its frame and its figure
    are built. *)
Lemma chart_from_data_figure (theme : Theme) (d : Dict.t) (w : world)
    (l v : pyobj) (df : DataFrame) (fig : Figure) :
  labels_and_values d = Some (l, v) ->
  Pandas.from_columns l v = Ok df ->
  Plotly.express (requested_trace d) df (requested_title d) = Ok fig ->
  chart_from_data theme (PyDict d) w
  = carry_out
      (heading_then_chart (requested_title d)
         (Plotly.update_layout fig (plotly_template theme))) w.
Proof.
  unfold labels_and_values.
  intros Hlv Hdf Hfig. unfold carry_out. run.
  pose proof (express_requested d df (requested_title d)) as Hx.
  cbv zeta in Hx. unfold requested_title in Hx, Hfig |- *.
  destruct (Dict.lookup (py "data") d) as [[| | | | | |cd]|];
    try discriminate.
  destruct (Dict.lookup (py "labels") cd) as [l'|] eqn:El; try discriminate.
  destruct (Dict.lookup (py "values") cd) as [v'|] eqn:Ev; try discriminate.
  injection Hlv as -> ->.
  cbn [py_in py_getitem_str]. unfold Dict.mem. rewrite El, Ev.
  rewrite Hdf.
  destruct (present _ w) as [[[]|e] w1]; [|reflexivity].
  now rewrite Hx, Hfig.
Qed.

(** What a decoded dict leads to: the attempt is made up before the
    page is asked, and the theme only sets the template of its figure. *)
Lemma chart_from_data_attempt (d : Dict.t) :
  exists a : Theme -> attempt,
    (forall theme, sound (a theme)) /\
    (forall theme theme',
       a theme' = with_template (plotly_template theme') (a theme)) /\
    (forall theme w, chart_from_data theme (PyDict d) w = carry_out (a theme) w) /\
    (forall theme title fig,
       a theme = heading_then_chart title fig ->
       title = requested_title d /\
       exists l v df fig0,
         labels_and_values d = Some (l, v) /\
         Pandas.from_columns l v = Ok df /\
         Plotly.express (requested_trace d) df (requested_title d) = Ok fig0 /\
         fig = Plotly.update_layout fig0 (plotly_template theme)).
Proof.
  destruct (labels_and_values d) as [[l v]|] eqn:Hlv.
  - destruct (Pandas.from_columns l v) as [df|e] eqn:Hdf.
    + destruct (Plotly.express (requested_trace d) df (requested_title d))
        as [fig|e] eqn:Hfig.
      * exists (fun theme =>
                  heading_then_chart (requested_title d)
                    (Plotly.update_layout fig (plotly_template theme))).
        split; [|split; [|split]].
        -- intros theme. simpl.
           apply express_fields in Hfig as (_ & -> & _).
           eapply from_columns_balanced; eassumption.
        -- reflexivity.
        -- intros theme w. eapply chart_from_data_figure; eassumption.
        -- intros theme title fig' [= <- <-]. split; [reflexivity|].
           now exists l, v, df, fig.
      * exists (fun _ => heading_then_gives_up (requested_title d) e).
        split; [|split; [|split]]; try discriminate; try reflexivity.
        { intros _. simpl.
          apply ValueError_Exception_fig
            with (o := Plotly.express (requested_trace d) df
                         (requested_title d));
            [apply express_raises | assumption]. }
        intros theme w. revert Hlv Hdf Hfig. unfold labels_and_values.
        unfold carry_out. run.
        pose proof (express_requested d df (requested_title d)) as Hx.
        cbv zeta in Hx. unfold requested_title in Hx |- *.
        destruct (Dict.lookup (py "data") d) as [[| | | | | |cd]|];
          try discriminate.
        destruct (Dict.lookup (py "labels") cd) as [l'|] eqn:El;
          try discriminate.
        destruct (Dict.lookup (py "values") cd) as [v'|] eqn:Ev;
          try discriminate.
        intros [= -> ->] Hdf Hfig.
        cbn [py_in py_getitem_str]. unfold Dict.mem. rewrite El, Ev.
        rewrite Hdf.
        destruct (present _ w) as [[[]|e'] w1]; [|reflexivity].
        now rewrite Hx, Hfig.
    + exists (fun _ => gives_up e).
      split; [|split; [|split]]; try discriminate; try reflexivity.
      { intros _. simpl.
        apply ValueError_Exception with (o := Pandas.from_columns l v);
          [apply from_columns_raises | assumption]. }
      intros theme w.
      revert Hlv Hdf. unfold labels_and_values. unfold carry_out. run.
      destruct (Dict.lookup (py "data") d) as [[| | | | | |cd]|];
        try discriminate.
      destruct (Dict.lookup (py "labels") cd) as [l'|] eqn:El;
        try discriminate.
      destruct (Dict.lookup (py "values") cd) as [v'|] eqn:Ev;
        try discriminate.
      intros [= -> ->] Hdf.
      cbn [py_in py_getitem_str]. unfold Dict.mem. rewrite El, Ev.
      now rewrite Hdf.
  - assert (H : (forall theme w,
                   chart_from_data theme (PyDict d) w = (Ok false, w)) \/
                (forall theme w,
                   chart_from_data theme (PyDict d) w
                   = (Raise TypeError, w))).
    { revert Hlv. unfold labels_and_values. run.
      destruct (Dict.lookup (py "data") d) as [[| | | | s|items|cd]|];
        cbn [py_in py_getitem_str]; intros Hlv;
        try (left; reflexivity); try (right; reflexivity).
      + destruct (Str.contains s (py "labels")); [|left; reflexivity].
        destruct (Str.contains s (py "values")); [|left; reflexivity].
        right; reflexivity.
      + destruct (existsb _ items); [|left; reflexivity].
        destruct (existsb _ items); [|left; reflexivity].
        right; reflexivity.
      + unfold Dict.mem.
        destruct (Dict.lookup (py "labels") cd) as [l|];
          [|left; reflexivity].
        destruct (Dict.lookup (py "values") cd) as [v|];
          [|left; reflexivity].
        discriminate. }
    destruct H as [H | H].
    + exists (fun _ => nothing_to_draw).
      split; [exact (fun _ => I)|]. split; [reflexivity|].
      split; [exact H | discriminate].
    + exists (fun _ => gives_up TypeError).
      split; [reflexivity|]. split; [reflexivity|].
      split; [exact H | discriminate].
Qed.

(** Without both keys nothing is drawn and nothing is reported. *)
Lemma chart_from_data_absent (theme : Theme) (d : Dict.t) (w : world) :
  match Dict.lookup (py "data") d with
  | Some (PyDict cd) =>
      Dict.mem (py "labels") cd && Dict.mem (py "values") cd = false
  | Some _ => False
  | None => True
  end ->
  chart_from_data theme (PyDict d) w = (Ok false, w).
Proof.
  run.
  destruct (Dict.lookup (py "data") d) as [[| | | | s|items|cd]|];
    cbn [py_in py_getitem_str fst]; try contradiction; try reflexivity.
  destruct (Dict.mem (py "labels") cd); [|reflexivity].
  destruct (Dict.mem (py "values") cd); [discriminate|reflexivity].
Qed.

(** Carrying out an attempt on a page that takes its elements. *)
Lemma carry_out_chart (title : pyobj) (fig : Figure) (w : world) :
  accepts w [Subheader title; PlotlyChart fig true] ->
  carry_out (heading_then_chart title fig) w
  = (Ok true, shown w [Subheader title; PlotlyChart fig true]).
Proof.
  intros (H1 & H2 & _). unfold carry_out, bind.
  rewrite (present_taken _ _ H1).
  rewrite present_taken by exact H2.
  unfold ret. now rewrite shown_shown.
Qed.

(** On a page that refuses the chart: the heading is shown, then the
    error. *)
Lemma carry_out_chart_refused (title : pyobj) (fig : Figure) (w : world)
    (r : refusal) :
  accepts w [Subheader title] ->
  surface w (drawn (page w ++ [Subheader title])) (PlotlyChart fig true)
  = Some r ->
  reported (carry_out (heading_then_chart title fig)) w
  = (Ok false,
     shown w [Subheader title; Error (ErrorCreatingVisualization (raised r))]).
Proof.
  intros (H1 & _) H2. unfold reported, try_except, carry_out, bind.
  rewrite (present_taken _ _ H1).
  rewrite (@present_refused _ (shown w [Subheader title]) r) by exact H2.
  rewrite raised_Exception. unfold emit, ret, shown. simpl.
  now rewrite <- app_assoc.
Qed.

(** On a page that refuses the heading: the error alone. *)
Lemma carry_out_heading_refused (title : pyobj) (fig : Figure) (w : world)
    (r : refusal) :
  surface w (drawn (page w)) (Subheader title) = Some r ->
  reported (carry_out (heading_then_chart title fig)) w
  = (Ok false, shown w [Error (ErrorCreatingVisualization (raised r))]).
Proof.
  intros H1. unfold reported, try_except, carry_out, bind.
  rewrite (present_refused _ _ H1).
  now rewrite raised_Exception.
Qed.

(** What carrying out an attempt leaves on the page, whatever the page
    answers. *)
Lemma reported_outcome (a : attempt) (w : world) :
  sound a ->
  exists b extra,
    reported (carry_out a) w = (Ok b, shown w extra) /\
    chart_outcome b extra /\
    (b = true -> exists title fig,
       a = heading_then_chart title fig /\
       extra = [Subheader title; PlotlyChart fig true]).
Proof.
  intros Ha. unfold reported, try_except.
  destruct a as [|e|title e|title fig]; simpl in Ha |- *.
  - exists false, []. rewrite shown_nil. repeat split;
      [constructor | discriminate].
  - exists false, [Error (ErrorCreatingVisualization e)].
    unfold raise. rewrite Ha. repeat split; [constructor | discriminate].
  - unfold bind, present.
    destruct (surface w (drawn (page w)) (Subheader title)) as [r|].
    + exists false, [Error (ErrorCreatingVisualization (raised r))].
      rewrite raised_Exception. repeat split; [constructor | discriminate].
    + exists false, [Subheader title; Error (ErrorCreatingVisualization e)].
      unfold raise. rewrite Ha. unfold emit, ret, shown. simpl.
      rewrite <- app_assoc. repeat split; [constructor | discriminate].
  - unfold bind, present at 1.
    destruct (surface w (drawn (page w)) (Subheader title)) as [r|].
    + exists false, [Error (ErrorCreatingVisualization (raised r))].
      rewrite raised_Exception. repeat split; [constructor | discriminate].
    + unfold present. cbn [page surface session].
      destruct (surface w (drawn (page w ++ [Subheader title]))
                  (PlotlyChart fig true)) as [r|].
      * exists false, [Subheader title;
                       Error (ErrorCreatingVisualization (raised r))].
        rewrite raised_Exception. unfold emit, ret, shown. simpl.
        rewrite <- app_assoc. repeat split; [constructor | discriminate].
      * exists true, [Subheader title; PlotlyChart fig true].
        unfold ret, shown. simpl. rewrite <- app_assoc.
        repeat split; [now constructor | eauto].
Qed.

(** Carrying out an attempt asks the surface about what is drawn on
    the page, and about nothing else of the world. *)
Lemma reported_local (a : attempt) (w1 w2 : world) :
  sound a ->
  surface w1 = surface w2 -> drawn (page w1) = drawn (page w2) ->
  exists b extra,
    reported (carry_out a) w1 = (Ok b, shown w1 extra) /\
    reported (carry_out a) w2 = (Ok b, shown w2 extra).
Proof.
  intros Ha Hs Hp. unfold reported, try_except.
  destruct w1 as [s1 p1 sf], w2 as [s2 p2 sf2]. simpl in Hs, Hp. subst sf2.
  destruct a as [|e|title e|title fig]; simpl in Ha |- *.
  - exists false, []. now rewrite !shown_nil.
  - exists false, [Error (ErrorCreatingVisualization e)].
    unfold raise. now rewrite Ha.
  - unfold bind, present. cbn [page surface session]. rewrite <- Hp.
    destruct (sf (drawn p1) (Subheader title)) as [r|].
    + exists false, [Error (ErrorCreatingVisualization (raised r))].
      now rewrite raised_Exception.
    + exists false, [Subheader title; Error (ErrorCreatingVisualization e)].
      unfold raise. rewrite Ha. unfold emit, ret, shown. simpl.
      now rewrite <- !app_assoc.
  - unfold bind, present. cbn [page surface session]. rewrite <- Hp.
    destruct (sf (drawn p1) (Subheader title)) as [r|].
    + exists false, [Error (ErrorCreatingVisualization (raised r))].
      now rewrite raised_Exception.
    + cbn [page surface session]. rewrite !drawn_app, <- Hp.
      destruct (sf (drawn p1 ++ drawn [Subheader title])
                  (PlotlyChart fig true)) as [r|].
      * exists false, [Subheader title;
                       Error (ErrorCreatingVisualization (raised r))].
        rewrite raised_Exception. unfold emit, ret, shown. simpl.
        now rewrite <- !app_assoc.
      * exists true, [Subheader title; PlotlyChart fig true].
        unfold ret, shown. simpl. now rewrite <- !app_assoc.
Qed.

(** What [create_visualization] does with any object: an attempt,
    carried out and reported. *)
Lemma create_visualization_attempt (text : pyobj) :
  exists a : Theme -> attempt,
    (forall theme, sound (a theme)) /\
    (forall theme theme',
       a theme' = with_template (plotly_template theme') (a theme)) /\
    (forall theme w,
       create_visualization theme text w = reported (carry_out (a theme)) w).
Proof.
  assert (Hobj : (forall s, text <> PyStr s) ->
            exists a : Theme -> attempt,
              (forall theme, sound (a theme)) /\
              (forall theme theme',
                 a theme' = with_template (plotly_template theme') (a theme)) /\
              (forall theme w,
                 create_visualization theme text w
                 = reported (carry_out (a theme)) w)).
  { intros Hn. exists (fun _ => gives_up AttributeError).
    split; [reflexivity|]. split; [reflexivity|].
    intros theme w. destruct text; try reflexivity. now destruct (Hn s). }
  destruct text as [| | | | text | |]; try (apply Hobj; discriminate).
  clear Hobj.
  destruct (brace_cases text) as [Hno | (span & Hspan)].
  - exists (fun _ => nothing_to_draw).
    split; [exact (fun _ => I)|]. split; [reflexivity|].
    intros theme w. now apply create_visualization_no_pair.
  - destruct (Json.loads span) as [data|e] eqn:Hd.
    + assert (exists d, data = PyDict d) as (d & ->).
      { destruct Hspan as (pre & mid & post & _ & _ & _ & ->).
        eapply JsonFacts.loads_brace_dict; eassumption. }
      destruct (chart_from_data_attempt d) as (a & Hsound & Htpl & Hrun & _).
      exists a. split; [exact Hsound|]. split; [exact Htpl|].
      intros theme w. rewrite (create_visualization_span theme w Hspan).
      unfold decode_and_chart, reported, try_except, bind at 1, lift.
      rewrite Hd. now rewrite Hrun.
    + exists (fun _ => gives_up JSONDecodeError).
      split; [reflexivity|]. split; [reflexivity|].
      intros theme w. rewrite (create_visualization_span theme w Hspan).
      unfold decode_and_chart, reported, try_except, bind at 1, lift.
      rewrite Hd. now rewrite (JsonFacts.loads_raises _ Hd).
Qed.

(** [create_visualization] completes, whatever the page answers, with
    one of the four outcomes. *)
Lemma create_visualization_outcome (theme : Theme) (text : pyobj)
    (w : world) :
  exists b extra,
    create_visualization theme text w = (Ok b, shown w extra) /\
    chart_outcome b extra.
Proof.
  destruct (create_visualization_attempt text) as (a & Hsound & _ & Hrun).
  destruct (reported_outcome (a theme) w (Hsound theme)) as (b & extra & H & Hc & _).
  exists b, extra. now rewrite Hrun.
Qed.

(** The decoded dict of a text that is charted. *)
Lemma decode_and_chart_dict (theme : Theme) (span : str) (d : Dict.t)
    (w : world) :
  Json.loads span = Ok (PyDict d) ->
  decode_and_chart theme span w
  = reported (chart_from_data theme (PyDict d)) w.
Proof.
  intros Hd. unfold decode_and_chart, reported, try_except, bind at 1, lift.
  now rewrite Hd.
Qed.

(** The function returns [True] only on the path that draws. *)
Lemma decode_and_chart_true (theme : Theme) (span : str) (d : Dict.t)
    (w : world) :
  Json.loads span = Ok (PyDict d) ->
  fst (decode_and_chart theme span w) = Ok true ->
  exists l v df fig,
    labels_and_values d = Some (l, v) /\
    Pandas.from_columns l v = Ok df /\
    Plotly.express (requested_trace d) df (requested_title d) = Ok fig /\
    snd (decode_and_chart theme span w) = shown w (chart_effects theme d fig).
Proof.
  intros Hd. rewrite (@decode_and_chart_dict theme span d w Hd).
  destruct (chart_from_data_attempt d) as (a & Hsound & _ & Hrun & Hfig).
  replace (reported (chart_from_data theme (PyDict d)) w)
    with (reported (carry_out (a theme)) w)
    by (unfold reported, try_except; now rewrite Hrun).
  destruct (reported_outcome (a theme) w (Hsound theme)) as (b & extra & H & _ & Hb).
  rewrite H. simpl. intros [= ->].
  destruct (Hb eq_refl) as (title & fig & Ha & ->).
  destruct (Hfig theme title fig Ha) as (-> & l & v & df & fig0 & H1 & H2 & H3 & ->).
  now exists l, v, df, fig0.
Qed.

Lemma decode_and_chart_undecodable (theme : Theme) (span : str) (e : exn)
    (w : world) :
  Json.loads span = Raise e ->
  decode_and_chart theme span w
  = (Ok false, shown w [Error (ErrorCreatingVisualization e)]).
Proof.
  intros Hd. unfold decode_and_chart, try_except, bind, lift. rewrite Hd.
  now rewrite (JsonFacts.loads_raises _ Hd).
Qed.

Lemma Str_eqb_eq (a b : str) : Str.eqb a b = true -> a = b.
Proof.
  revert b; induction a as [|x a IH]; intros [|y b]; simpl;
    try discriminate; [reflexivity|].
  intros H. apply andb_prop in H as [Hx Hab].
  apply N.eqb_eq in Hx. now rewrite Hx, (IH _ Hab).
Qed.

Lemma Str_eqb_refl (a : str) : Str.eqb a a = true.
Proof.
  induction a as [|x a IH]; simpl; [reflexivity|].
  now rewrite N.eqb_refl, IH.
Qed.

Lemma py_eq_str_false (t : pyobj) (s : str) :
  t <> PyStr s -> py_eq_str t s = false.
Proof.
  intros H. destruct t; simpl; try reflexivity.
  destruct (Str.eqb s0 s) eqn:E; [|reflexivity].
  apply Str_eqb_eq in E. congruence.
Qed.

(** Two lists of the same length are charted, on a page that takes the
    heading and the chart. *)
Lemma chart_of_equal_lists (theme : Theme) (text span : str) (d cd : Dict.t)
    (labels values : list pyobj) (w : world) :
  brace_span text span ->
  Json.loads span = Ok (PyDict d) ->
  Dict.lookup (py "data") d = Some (PyDict cd) ->
  Dict.lookup (py "labels") cd = Some (PyList labels) ->
  Dict.lookup (py "values") cd = Some (PyList values) ->
  length labels = length values ->
  title_ok (requested_title d) = true ->
  accepts w (chart_effects theme d
               {| fig_trace := requested_trace d;
                  fig_frame := {| Category := series_of labels;
                                  Amount := series_of values |};
                  fig_title := requested_title d;
                  fig_layout := None |}) ->
  create_visualization theme (PyStr text) w
  = (Ok true,
     shown w (chart_effects theme d
                {| fig_trace := requested_trace d;
                   fig_frame := {| Category := series_of labels;
                                   Amount := series_of values |};
                   fig_title := requested_title d;
                   fig_layout := None |})).
Proof.
  intros Hspan Hd Hdata Hl Hv Hlen Ht Hacc.
  rewrite (create_visualization_span theme w Hspan).
  rewrite (@decode_and_chart_dict theme span d w Hd).
  unfold reported, try_except.
  erewrite chart_from_data_figure
    with (l := PyList labels) (v := PyList values)
         (df := {| Category := series_of labels;
                   Amount := series_of values |}).
  - unfold chart_effects in Hacc |- *. now rewrite (carry_out_chart Hacc).
  - unfold labels_and_values. now rewrite Hdata, Hl, Hv.
  - unfold Pandas.from_columns. now rewrite Hlen, Nat.eqb_refl.
  - unfold Plotly.express. now rewrite Ht.
Qed.

(* ===================================================================== *)
(** ** The chart payload: claims C2, C5, C6, C9, C10 *)
(* ===================================================================== *)

(** Concrete pages: the surface of the examples takes the elements. *)
Ltac taken_here := vm_compute; repeat split.

(** C2 (as amended).  For a text whose span decodes, the function
    returns [True] only if [data] is a dict with both [labels] and
    [values]; the chart it has then drawn has the requested shape and
    title.  Without both keys the result is [False].  The shape is a
    bar chart when [chart_type] is absent or is neither ["pie"] nor
    ["line"], the title is ["Financial Analysis"] when absent.  A text
    whose span is the payload with only a title gives [False] and
    nothing is shown. *)
Theorem C2_chart_only_with_both_keys :
  (forall theme text span d w,
     brace_span text span ->
     Json.loads span = Ok (PyDict d) ->
     (fst (create_visualization theme (PyStr text) w) = Ok true ->
      exists l v df fig,
        labels_and_values d = Some (l, v) /\
        Pandas.from_columns l v = Ok df /\
        Plotly.express (requested_trace d) df (requested_title d) = Ok fig /\
        fig_trace fig = requested_trace d /\
        fig_title fig = requested_title d /\
        fig_frame fig = df /\
        snd (create_visualization theme (PyStr text) w)
        = shown w (chart_effects theme d fig))
     /\
     (labels_and_values d = None ->
      fst (create_visualization theme (PyStr text) w) = Ok false)) /\
  (forall text span data,
     brace_span text span -> Json.loads span = Ok data ->
     exists d, data = PyDict d) /\
  (forall d,
     (Dict.lookup (py "chart_type") d = None -> requested_trace d = Bar) /\
     (forall t, Dict.lookup (py "chart_type") d = Some t ->
                t <> PyStr (py "pie") -> t <> PyStr (py "line") ->
                requested_trace d = Bar) /\
     (Dict.lookup (py "title") d = None ->
      requested_title d = PyStr (py "Financial Analysis"))) /\
  (forall theme pre post w,
     ~ In lbrace pre -> ~ In rbrace post ->
     create_visualization theme (PyStr (pre ++ jq "{'title':'T'}" ++ post)) w
     = (Ok false, w)).
Proof.
  split; [|split; [|split]].
  - intros theme text span d w Hspan Hd.
    rewrite (create_visualization_span theme w Hspan).
    assert (Htrue : fst (decode_and_chart theme span w) = Ok true ->
              exists l v df fig,
                labels_and_values d = Some (l, v) /\
                Pandas.from_columns l v = Ok df /\
                Plotly.express (requested_trace d) df (requested_title d)
                = Ok fig /\
                fig_trace fig = requested_trace d /\
                fig_title fig = requested_title d /\
                fig_frame fig = df /\
                snd (decode_and_chart theme span w)
                = shown w (chart_effects theme d fig)).
    { intros Hb.
      destruct (@decode_and_chart_true theme span d w Hd Hb)
        as (l & v & df & fig & Hlv & Hdf & Hfig & Hw).
      exists l, v, df, fig. do 3 (split; [assumption|]).
      apply express_fields in Hfig. tauto. }
    split; [exact Htrue|].
    intros Hnone.
    destruct (page_only_returns w (create_visualization_page_only theme (PyStr text)))
      as [[|] Hb].
    + rewrite (create_visualization_span theme w Hspan) in Hb.
      apply Htrue in Hb. destruct Hb as (l & v & _ & _ & Hlv & _).
      congruence.
    + now rewrite (create_visualization_span theme w Hspan) in Hb.
  - intros text span data (pre & mid & post & _ & _ & _ & ->).
    apply JsonFacts.loads_brace_dict.
  - intros d. unfold requested_trace, requested_title. repeat split.
    + now intros ->.
    + intros t -> Hpie Hline.
      now rewrite (py_eq_str_false Hpie), (py_eq_str_false Hline).
    + now intros ->.
  - intros theme pre post w Hpre Hpost.
    rewrite (@create_visualization_span theme _ (jq "{'title':'T'}") w).
    + unfold decode_and_chart, try_except, bind, lift.
      replace (Json.loads (jq "{'title':'T'}"))
        with (Ok (PyDict [(py "title", PyStr (py "T"))]))
        by (vm_compute; reflexivity).
      rewrite chart_from_data_absent; [reflexivity|].
      vm_compute. exact I.
    + exists pre, (py (String (Ascii.ascii_of_nat 34) "title"
                         ++ String (Ascii.ascii_of_nat 34) ":"
                         ++ String (Ascii.ascii_of_nat 34) "T"
                         ++ String (Ascii.ascii_of_nat 34) "")), post.
      repeat split; assumption || reflexivity.
Qed.

(** C2, counterexample to the claim as stated: the span decodes and
    [data] has both [labels] and [values], yet no chart is returned,
    because the two lists differ in length and the frame is refused. *)
Lemma C2_counterexample_unequal_lengths :
  let text := jq "{'data':{'labels':['A','B'],'values':[1]}}" in
  brace_span text text /\
  (exists d,
     Json.loads text = Ok (PyDict d) /\
     labels_and_values d
     = Some (PyList [PyStr (py "A"); PyStr (py "B")], PyList [PyInt 1])) /\
  create_visualization DayMode (PyStr text) world0
  = (Ok false, shown world0 [Error (ErrorCreatingVisualization ValueError)]).
Proof.
  cbv zeta. split; [|split].
  - concrete_span (@nil char)
      (removelast (tl (jq "{'data':{'labels':['A','B'],'values':[1]}}")))
      (@nil char).
  - eexists. split; vm_compute; reflexivity.
  - vm_compute. reflexivity.
Qed.

(** C2, an instance: the payload of the specification's own example,
    inside a sentence, is drawn as a pie chart titled [T]; it has both
    keys. *)
Lemma C2_witness :
  let span := jq "{'chart_type':'pie','title':'T','data':{'labels':['A','B'],'values':[1,2]}}" in
  let text := py "Chart: " ++ span ++ py " done." in
  let d := [(py "chart_type", PyStr (py "pie")); (py "title", PyStr (py "T"));
            (py "data",
             PyDict [(py "labels", PyList [PyStr (py "A"); PyStr (py "B")]);
                     (py "values", PyList [PyInt 1; PyInt 2])])] in
  exists l v df fig,
    labels_and_values d = Some (l, v) /\
    Pandas.from_columns l v = Ok df /\
    Plotly.express (requested_trace d) df (requested_title d) = Ok fig /\
    fig_trace fig = requested_trace d /\
    fig_title fig = requested_title d /\
    fig_frame fig = df /\
    snd (create_visualization NightMode (PyStr text) world0)
    = shown world0 (chart_effects NightMode d fig).
Proof.
  cbv zeta.
  set (span := jq "{'chart_type':'pie','title':'T','data':{'labels':['A','B'],'values':[1,2]}}").
  set (d := [(py "chart_type", PyStr (py "pie")); (py "title", PyStr (py "T"));
             (py "data",
              PyDict [(py "labels", PyList [PyStr (py "A"); PyStr (py "B")]);
                      (py "values", PyList [PyInt 1; PyInt 2])])]).
  assert (Hspan : brace_span (py "Chart: " ++ span ++ py " done.") span).
  { concrete_span (py "Chart: ") (removelast (tl span)) (py " done."). }
  assert (Hd : Json.loads span = Ok (PyDict d)) by (vm_compute; reflexivity).
  assert (Htrue : fst (create_visualization NightMode
                         (PyStr (py "Chart: " ++ span ++ py " done.")) world0)
                  = Ok true) by (vm_compute; reflexivity).
  exact (proj1 (proj1 C2_chart_only_with_both_keys NightMode _ _ d world0
                  Hspan Hd) Htrue).
Defined.

(** C5 (as amended).  The entries of [values] are not inspected: when
    the span decodes and [data] holds, under [labels] and [values], two
    lists of the same length, the title is one the figure accepts, and
    the page takes the heading and the chart, the chart is drawn from
    the frame built from these two lists, whatever their entries are. *)
Theorem C5_values_not_inspected (theme : Theme) (text span : str)
    (d cd : Dict.t) (labels values : list pyobj) (w : world) :
  brace_span text span ->
  Json.loads span = Ok (PyDict d) ->
  Dict.lookup (py "data") d = Some (PyDict cd) ->
  Dict.lookup (py "labels") cd = Some (PyList labels) ->
  Dict.lookup (py "values") cd = Some (PyList values) ->
  length labels = length values ->
  title_ok (requested_title d) = true ->
  accepts w
    [Subheader (requested_title d);
     PlotlyChart
       (Plotly.update_layout
          {| fig_trace := requested_trace d;
             fig_frame := {| Category := series_of labels;
                             Amount := series_of values |};
             fig_title := requested_title d;
             fig_layout := None |}
          (plotly_template theme)) true] ->
  create_visualization theme (PyStr text) w
  = (Ok true,
     shown w
       [Subheader (requested_title d);
        PlotlyChart
          (Plotly.update_layout
             {| fig_trace := requested_trace d;
                fig_frame := {| Category := series_of labels;
                                Amount := series_of values |};
                fig_title := requested_title d;
                fig_layout := None |}
             (plotly_template theme)) true]).
Proof. apply chart_of_equal_lists. Qed.

(** C5, counterexample to the claim as stated: [values] holds a text,
    the span decodes all the same, and the chart is drawn. *)
Lemma C5_counterexample_text_value :
  let text := jq "{'data':{'labels':['A'],'values':['x']}}" in
  Json.loads text
  = Ok (PyDict [(py "data",
                 PyDict [(py "labels", PyList [PyStr (py "A")]);
                         (py "values", PyList [PyStr (py "x")])])]) /\
  create_visualization DayMode (PyStr text) world0
  = (Ok true,
     shown world0
       [Subheader (PyStr (py "Financial Analysis"));
        PlotlyChart
          (Plotly.update_layout
             {| fig_trace := Bar;
                fig_frame := {| Category := series_of [PyStr (py "A")];
                                Amount := series_of [PyStr (py "x")] |};
                fig_title := PyStr (py "Financial Analysis");
                fig_layout := None |}
             (py "plotly_white")) true]).
Proof. cbv zeta. split; vm_compute; reflexivity. Qed.

(** C5, an instance of the amended statement, on the same text and on
    an empty page. *)
Lemma C5_witness :
  let text := jq "{'data':{'labels':['A'],'values':['x']}}" in
  fst (create_visualization DayMode (PyStr text) world0) = Ok true.
Proof.
  cbv zeta.
  rewrite (@C5_values_not_inspected DayMode _
             (jq "{'data':{'labels':['A'],'values':['x']}}")
             [(py "data",
               PyDict [(py "labels", PyList [PyStr (py "A")]);
                       (py "values", PyList [PyStr (py "x")])])]
             [(py "labels", PyList [PyStr (py "A")]);
              (py "values", PyList [PyStr (py "x")])]
             [PyStr (py "A")] [PyStr (py "x")] world0).
  - reflexivity.
  - concrete_span (@nil char)
      (removelast (tl (jq "{'data':{'labels':['A'],'values':['x']}}")))
      (@nil char).
  - vm_compute. reflexivity.
  - vm_compute. reflexivity.
  - vm_compute. reflexivity.
  - vm_compute. reflexivity.
  - reflexivity.
  - reflexivity.
  - taken_here.
Defined.

(** C6 (as amended).  When the span does not decode, the function
    returns [False], draws no chart and raises nothing; it does show an
    error message on the page, built from the decoding error. *)
Theorem C6_undecodable_span_is_reported (theme : Theme) (text span : str)
    (e : exn) (w : world) :
  brace_span text span ->
  Json.loads span = Raise e ->
  e = JSONDecodeError /\
  create_visualization theme (PyStr text) w
  = (Ok false, shown w [Error (ErrorCreatingVisualization JSONDecodeError)]).
Proof.
  intros Hspan Hd.
  pose proof (JsonFacts.loads_raises _ Hd) as ->.
  split; [reflexivity|].
  rewrite (create_visualization_span theme w Hspan).
  now apply decode_and_chart_undecodable.
Qed.

(** C6, counterexample to the claim as stated: a reply with braces that
    are not a payload puts an error message on the page. *)
Lemma C6_counterexample_error_shown :
  let text := py "Your budget {rent: 500} looks fine." in
  brace_span text (py "{rent: 500}") /\
  Json.loads (py "{rent: 500}") = Raise JSONDecodeError /\
  page (snd (create_visualization DayMode (PyStr text) world0))
  = [Error (ErrorCreatingVisualization JSONDecodeError)].
Proof.
  cbv zeta. split; [|split; vm_compute; reflexivity].
  concrete_span (py "Your budget ") (py "rent: 500") (py " looks fine.").
Qed.

(** C6, an instance of the amended statement, on the same text. *)
Lemma C6_witness :
  create_visualization DayMode
    (PyStr (py "Your budget {rent: 500} looks fine.")) world0
  = (Ok false, shown world0 [Error (ErrorCreatingVisualization JSONDecodeError)]).
Proof.
  apply (@C6_undecodable_span_is_reported DayMode _ (py "{rent: 500}")
           JSONDecodeError world0).
  - concrete_span (py "Your budget ") (py "rent: 500") (py " looks fine.").
  - vm_compute. reflexivity.
Defined.

(** C10 (as amended).  Presence of the two keys decides, not what they
    hold: when the span decodes and [data] holds an empty list under
    [labels] and an empty list under [values], the title is one the
    figure accepts and the page takes the heading and the chart, the
    function returns [True] and a chart with no rows is drawn. *)
Theorem C10_empty_lists_are_charted (theme : Theme) (text span : str)
    (d cd : Dict.t) (w : world) :
  brace_span text span ->
  Json.loads span = Ok (PyDict d) ->
  Dict.lookup (py "data") d = Some (PyDict cd) ->
  Dict.lookup (py "labels") cd = Some (PyList []) ->
  Dict.lookup (py "values") cd = Some (PyList []) ->
  title_ok (requested_title d) = true ->
  accepts w
    [Subheader (requested_title d);
     PlotlyChart
       (Plotly.update_layout
          {| fig_trace := requested_trace d;
             fig_frame := {| Category := series_of [];
                             Amount := series_of [] |};
             fig_title := requested_title d;
             fig_layout := None |}
          (plotly_template theme)) true] ->
  create_visualization theme (PyStr text) w
  = (Ok true,
     shown w
       [Subheader (requested_title d);
        PlotlyChart
          (Plotly.update_layout
             {| fig_trace := requested_trace d;
                fig_frame := {| Category := series_of [];
                                Amount := series_of [] |};
                fig_title := requested_title d;
                fig_layout := None |}
             (plotly_template theme)) true]).
Proof.
  intros Hspan Hd Hdata Hl Hv Ht Hacc.
  now apply (@chart_of_equal_lists theme text span d cd [] [] w).
Qed.

(** C10, counterexample to the claim as stated: the payload decodes and
    holds the two empty lists, yet no chart is produced, because its
    title is a list and the figure refuses it; the heading and an error
    are shown and the function returns [False]. *)
Lemma C10_counterexample_list_title :
  let text := jq "{'title':['a'],'data':{'labels':[],'values':[]}}" in
  Json.loads text
  = Ok (PyDict [(py "title", PyList [PyStr (py "a")]);
                (py "data", PyDict [(py "labels", PyList []);
                                    (py "values", PyList [])])]) /\
  create_visualization DayMode (PyStr text) world0
  = (Ok false,
     shown world0
       [Subheader (PyList [PyStr (py "a")]);
        Error (ErrorCreatingVisualization ValueError)]).
Proof. cbv zeta. split; vm_compute; reflexivity. Qed.

(** C10, an instance: the payload with two empty lists, on an empty
    page. *)
Lemma C10_witness :
  let text := jq "{'data':{'labels':[],'values':[]}}" in
  create_visualization DayMode (PyStr text) world0
  = (Ok true,
     shown world0
       [Subheader (PyStr (py "Financial Analysis"));
        PlotlyChart
          (Plotly.update_layout
             {| fig_trace := Bar;
                fig_frame := {| Category := series_of [];
                                Amount := series_of [] |};
                fig_title := PyStr (py "Financial Analysis");
                fig_layout := None |}
             (py "plotly_white")) true]).
Proof.
  cbv zeta.
  apply (@C10_empty_lists_are_charted DayMode _
           (jq "{'data':{'labels':[],'values':[]}}")
           [(py "data", PyDict [(py "labels", PyList []);
                                (py "values", PyList [])])]
           [(py "labels", PyList []); (py "values", PyList [])] world0).
  - concrete_span (@nil char)
      (removelast (tl (jq "{'data':{'labels':[],'values':[]}}")))
      (@nil char).
  - vm_compute. reflexivity.
  - vm_compute. reflexivity.
  - vm_compute. reflexivity.
  - vm_compute. reflexivity.
  - reflexivity.
  - taken_here.
Defined.

Lemma canvas_page_only (categories amounts : str) :
  page_only nothing (canvas categories amounts).
Proof.
  unfold canvas.
  destruct (Str.truthy categories && Str.truthy amounts);
    [|apply page_only_ret].
  apply page_only_try with (Q := is_ValueError).
  - apply page_only_bind; [apply page_only_lift, of_strs_raises | intros xs].
    destruct (Nat.eqb _ _); [|apply page_only_emit].
    apply page_only_bind;
      [apply page_only_lift, from_columns_raises | intros df].
    apply page_only_bind; [apply page_only_lift, express_raises | intros fig].
    apply page_only_emit.
  - intros e. apply page_only_emit.
  - intros e He Hc. congruence.
Qed.

(** C9.  Drawing a chart never changes the message log: after
    [create_visualization], on any object and under any theme, and
    after the manual path, on any two texts, the session state is the
    one before, and so are the log, the history and its length. *)
Theorem C9_rendering_keeps_the_log :
  (forall theme text w,
     let w' := snd (create_visualization theme text w) in
     session w' = session w /\
     messages (session w') = messages (session w) /\
     history (session w') = history (session w) /\
     length (history (session w')) = length (history (session w))) /\
  (forall categories amounts w,
     let w' := snd (canvas categories amounts w) in
     session w' = session w /\
     messages (session w') = messages (session w) /\
     history (session w') = history (session w) /\
     length (history (session w')) = length (history (session w))).
Proof.
  split.
  - intros theme text w w'.
    destruct (create_visualization_page_only theme text w) as [Hs _].
    fold w' in Hs. now rewrite Hs.
  - intros categories amounts w w'.
    destruct (canvas_page_only categories amounts w) as [Hs _].
    fold w' in Hs. now rewrite Hs.
Qed.

(* ===================================================================== *)
(** ** Statements and the session state *)
(* ===================================================================== *)

Section Steps.

Variable R : SessionState -> SessionState -> Prop.
Hypothesis R_refl : forall s, R s s.
Hypothesis R_trans : forall s1 s2 s3, R s1 s2 -> R s2 s3 -> R s1 s3.

Lemma step_unchanged {A} (c : M A) :
  (forall w, session (snd (c w)) = session w) -> step R c.
Proof. intros H w. rewrite H. apply R_refl. Qed.

Lemma step_page_only {A} (P : exn -> bool) (c : M A) :
  page_only P c -> step R c.
Proof. intros H. apply step_unchanged. intros w. apply H. Qed.

Lemma step_bind {A B} (c : M A) (k : A -> M B) :
  step R c -> (forall a, step R (k a)) -> step R (bind c k).
Proof.
  intros Hc Hk w. unfold bind. specialize (Hc w).
  destruct (c w) as [[a|e] w']; simpl in *; [|exact Hc].
  eapply R_trans; [exact Hc | apply Hk].
Qed.

Lemma step_try {A} (catches : exn -> bool) (body : M A)
    (handler : exn -> M A) :
  step R body -> (forall e, step R (handler e)) ->
  step R (try_except catches body handler).
Proof.
  intros Hb Hh w. unfold try_except. specialize (Hb w).
  destruct (body w) as [[a|e] w']; simpl in *; [exact Hb|].
  destruct (catches e); [|exact Hb].
  eapply R_trans; [exact Hb | apply Hh].
Qed.

End Steps.

Lemma evolves_refl (s : SessionState) : evolves s s.
Proof.
  unfold evolves. destruct (messages s) as [l|] eqn:E; [|now left].
  exists []. now rewrite app_nil_r.
Qed.

Lemma log_ok_extended (s s' : SessionState) (l added : list Message) :
  log_ok s -> messages s = Some l -> messages s' = Some (l ++ added) ->
  Forall (fun m => role m <> System) added -> log_ok s'.
Proof.
  intros (rest & Hm & Hrest) Hl Hs' Hadded.
  exists (rest ++ added). split.
  - rewrite Hs'. rewrite Hm in Hl. injection Hl as <-. reflexivity.
  - apply Forall_app. now split.
Qed.

Lemma evolves_trans (s1 s2 s3 : SessionState) :
  evolves s1 s2 -> evolves s2 s3 -> evolves s1 s3.
Proof.
  unfold evolves. intros H12 H23.
  destruct (messages s1) as [l|].
  - destruct H12 as (a1 & H2 & Ha1). rewrite H2 in H23.
    destruct H23 as (a2 & H3 & Ha2). exists (a1 ++ a2). split.
    + now rewrite app_assoc.
    + apply Forall_app. now split.
  - destruct H12 as [H2 | Hok].
    + now rewrite H2 in H23.
    + right. destruct Hok as (rest & H2 & Hrest).
      rewrite H2 in H23. destruct H23 as (a2 & H3 & Ha2).
      exists (rest ++ a2). split; [exact H3|].
      apply Forall_app. now split.
Qed.

Lemma evolves_keeps_ok (s s' : SessionState) :
  evolves s s' -> log_ok s -> log_ok s'.
Proof.
  intros He Hok. pose proof Hok as (rest & Hm & Hrest).
  unfold evolves in He. rewrite Hm in He.
  destruct He as (added & Hs' & Hadded).
  eapply log_ok_extended; eauto.
Qed.

Lemma evolves_keeps_absent_or_ok (s s' : SessionState) :
  evolves s s' -> absent_or_ok s -> absent_or_ok s'.
Proof.
  intros He [Hnone | Hok].
  - unfold evolves in He. now rewrite Hnone in He.
  - right. eapply evolves_keeps_ok; eauto.
Qed.

Lemma keeps_refl (I : SessionState -> Prop) (s : SessionState) : keeps I s s.
Proof. now intros H. Qed.

Lemma keeps_trans (I : SessionState -> Prop) (s1 s2 s3 : SessionState) :
  keeps I s1 s2 -> keeps I s2 s3 -> keeps I s1 s3.
Proof. unfold keeps. auto. Qed.

Lemma step_evolves_keeps {A} (c : M A) :
  step evolves c -> step (keeps log_ok) c /\ step (keeps absent_or_ok) c.
Proof.
  intros H. split; intros w Hw.
  - eapply evolves_keeps_ok; [apply H | exact Hw].
  - eapply evolves_keeps_absent_or_ok; [apply H | exact Hw].
Qed.

Lemma get_session_unchanged (w : world) :
  get_session w = (Ok (session w), w).
Proof. reflexivity. Qed.

Lemma get_messages_unchanged (w : world) :
  session (snd (get_messages w)) = session w.
Proof.
  unfold get_messages, bind, get_session.
  now destruct (messages (session w)).
Qed.

Lemma append_run (m : Message) (w : world) (l : list Message) :
  messages (session w) = Some l ->
  append m w
  = (Ok tt, {| session := {| messages := Some (l ++ [m]);
                             groq_client_api_key :=
                               groq_client_api_key (session w) |};
               page := page w; surface := surface w |}).
Proof.
  intros H. unfold append, get_messages, set_messages, bind, get_session,
    put_session, ret. now rewrite H.
Qed.

Lemma append_evolves (m : Message) :
  role m <> System -> step evolves (append m).
Proof.
  intros Hm w. unfold evolves.
  destruct (messages (session w)) as [l|] eqn:E.
  - erewrite append_run by eassumption. simpl. exists [m]. split; [reflexivity|].
    now constructor.
  - left. unfold append, get_messages, bind, get_session. now rewrite E.
Qed.

Lemma initialize_evolves : step evolves initialize_chat_history.
Proof.
  intros w. unfold evolves, initialize_chat_history, bind, get_session.
  destruct (messages (session w)) as [l|] eqn:E.
  - simpl. rewrite E. exists []. now rewrite app_nil_r.
  - right. exists []. split; [reflexivity | constructor].
Qed.

Lemma require_api_key_evolves (k : str) : step evolves (require_api_key k).
Proof.
  intros w. unfold require_api_key.
  destruct (Str.truthy k); [|apply evolves_refl].
  unfold evolves, bind, get_session, put_session. simpl.
  destruct (messages (session w)) as [l|] eqn:E.
  - exists []. now rewrite app_nil_r.
  - now left.
Qed.

Lemma display_messages_page_only (theme : Theme) (l : list Message) :
  page_only nothing (display_messages theme l).
Proof.
  induction l as [|m r IH]; [apply page_only_ret|].
  cbn [display_messages].
  apply page_only_bind; [apply page_only_emit | intros _].
  apply page_only_bind; [apply page_only_emit | intros _].
  apply page_only_bind; [|intros _; exact IH].
  destruct (role m); try apply page_only_ret.
  apply page_only_bind; [|intros _; apply page_only_ret].
  apply create_visualization_page_only.
Qed.

Lemma display_chat_history_unchanged (theme : Theme) (w : world) :
  session (snd (display_chat_history theme w)) = session w.
Proof.
  unfold display_chat_history, get_messages, bind, get_session.
  destruct (messages (session w)); [|reflexivity].
  apply display_messages_page_only.
Qed.

Lemma requests_post_unchanged (gateway : Gateway) (req : Request) (w : world) :
  session (snd (requests_post gateway req w)) = session w.
Proof.
  unfold requests_post, bind, emit. simpl. now destruct (gateway req).
Qed.

Lemma chat_input_evolves (gateway : Gateway) (theme : Theme)
    (prompt : option str) :
  step evolves (chat_input gateway theme prompt).
Proof.
  pose proof evolves_refl as Hr. pose proof evolves_trans as Ht.
  unfold chat_input. destruct prompt as [p|];
    [|now apply step_unchanged].
  destruct (Str.truthy p); [|now apply step_unchanged].
  apply step_bind; auto. { now apply append_evolves. } intros _.
  apply step_bind; auto. { now apply step_unchanged. } intros _.
  apply step_bind; auto. { now apply step_unchanged. } intros _.
  apply step_bind; auto. { now apply step_unchanged. } intros _.
  apply step_try; auto; [|intros e; now apply step_unchanged].
  apply step_bind; auto. { now apply step_unchanged. } intros s.
  apply step_bind; auto.
  { destruct (groq_client_api_key s); now apply step_unchanged. }
  intros key.
  apply step_bind; auto.
  { apply step_unchanged; auto. apply get_messages_unchanged. }
  intros log.
  apply step_bind; auto.
  { apply step_unchanged; auto. apply requests_post_unchanged. }
  intros response.
  apply step_bind; auto. { now apply step_unchanged. } intros data.
  destruct (fst response =? 200)%Z.
  - apply step_bind; auto. { now apply step_unchanged. } intros reply.
    apply step_bind; auto.
    { apply step_page_only with (P := is_Exception); auto.
      apply page_only_present. }
    intros _.
    apply step_bind; auto.
    { apply step_page_only with (P := nothing); auto.
      apply create_visualization_page_only. }
    intros _. now apply append_evolves.
  - apply step_bind; auto. { now apply step_unchanged. } intros detail.
    apply step_page_only with (P := is_Exception); auto.
    apply page_only_present.
Qed.

Lemma clear_run (w : world) (first : Message) (rest : list Message) :
  messages (session w) = Some (first :: rest) ->
  clear_chat_history w
  = (Raise RerunException,
     {| session := {| messages := Some [first];
                      groq_client_api_key :=
                        groq_client_api_key (session w) |};
        page := page w; surface := surface w |}).
Proof.
  intros H. unfold clear_chat_history, get_messages, set_messages, bind,
    get_session, put_session, raise, ret. now rewrite H.
Qed.

Lemma clear_keeps_ok : step (keeps log_ok) clear_chat_history.
Proof.
  intros w (rest & Hm & Hrest). erewrite clear_run by eassumption.
  exists []. split; [reflexivity | constructor].
Qed.

Lemma clear_keeps_absent_or_ok : step (keeps absent_or_ok) clear_chat_history.
Proof.
  intros w [Hnone | Hok].
  - left. unfold clear_chat_history, get_messages, bind, get_session.
    now rewrite Hnone.
  - right. now apply clear_keeps_ok.
Qed.

Lemma canvas_unchanged (categories amounts : str) (w : world) :
  session (snd (canvas categories amounts w)) = session w.
Proof. apply canvas_page_only. Qed.

(** A run in which the button is not pressed only extends the log. *)
Lemma script_evolves (gateway : Gateway) (i : Inputs) :
  clear_pressed i = false -> step evolves (script gateway i).
Proof.
  intros Hc. pose proof evolves_refl as Hr. pose proof evolves_trans as Ht.
  unfold script. rewrite Hc.
  apply step_bind; auto. { apply require_api_key_evolves. } intros _.
  apply step_bind; auto. { apply initialize_evolves. } intros _.
  apply step_bind; auto.
  { apply step_unchanged; auto. apply display_chat_history_unchanged. }
  intros _.
  apply step_bind; auto. { apply chat_input_evolves. } intros _.
  apply step_bind; auto. { now apply step_unchanged. } intros _.
  destruct (canvas_mode i); [|now apply step_unchanged].
  apply step_unchanged; auto. apply canvas_unchanged.
Qed.

(** Whatever the widgets, a run keeps an invariant that the button
    keeps and that extending the log keeps. *)
Lemma script_keeps (I : SessionState -> Prop) (gateway : Gateway)
    (i : Inputs) :
  (forall s s', evolves s s' -> I s -> I s') ->
  step (keeps I) clear_chat_history ->
  step (keeps I) (script gateway i).
Proof.
  intros He Hclear.
  pose proof (keeps_refl I) as Hr. pose proof (@keeps_trans I) as Ht.
  assert (Hev : forall A (c : M A), step evolves c -> step (keeps I) c).
  { intros A c Hc w Hw. eapply He; [apply Hc | exact Hw]. }
  unfold script.
  apply step_bind; auto. { apply Hev, require_api_key_evolves. } intros _.
  apply step_bind; auto. { apply Hev, initialize_evolves. } intros _.
  apply step_bind; auto.
  { apply step_unchanged; auto. apply display_chat_history_unchanged. }
  intros _.
  apply step_bind; auto. { apply Hev, chat_input_evolves. } intros _.
  apply step_bind; auto.
  { destruct (clear_pressed i); [exact Hclear | now apply step_unchanged]. }
  intros _.
  destruct (canvas_mode i); [|now apply step_unchanged].
  apply step_unchanged; auto. apply canvas_unchanged.
Qed.

Lemma interaction_session (R : SessionState -> SessionState -> Prop)
    (surface : Surface) (gateway : Gateway) (i : Inputs) (s : SessionState) :
  (forall s1 s2 s3, R s1 s2 -> R s2 s3 -> R s1 s3) ->
  step R (script gateway i) ->
  step R (script gateway (at_rest i)) ->
  R s (fst (interaction surface gateway i s)).
Proof.
  intros Ht H1 H2. unfold interaction.
  specialize (H1 (blank surface s)). simpl in H1.
  destruct (script gateway i (blank surface s)) as [[[]|e] w];
    simpl in *; try exact H1.
  destruct e; simpl; try exact H1.
  eapply Ht; [exact H1|].
  exact (H2 (blank surface (session w))).
Qed.

(* ===================================================================== *)
(** ** The message log: claim C3 *)
(* ===================================================================== *)

(** C3.  The log is created with the system message alone; [append]
    adds its message at the end and changes nothing else of the log; an
    interaction in which the clear button is not pressed leaves the
    existing log as a prefix of the new one and adds no system message;
    every interaction keeps the system message first and alone of its
    kind, so this holds in every reachable session state that has a
    log; and the clear button leaves exactly the system message, so the
    history is empty. *)
Theorem C3_system_message_stays_first :
  (forall w, messages (session w) = None ->
     messages (session (snd (initialize_chat_history w)))
     = Some [system_preamble]) /\
  (forall m w l, messages (session w) = Some l ->
     messages (session (snd (append m w))) = Some (l ++ [m])) /\
  (forall surface gateway i s l,
     clear_pressed i = false -> messages s = Some l ->
     exists added,
       messages (fst (interaction surface gateway i s)) = Some (l ++ added) /\
       Forall (fun m => role m <> System) added) /\
  (forall surface gateway i s,
     log_ok s -> log_ok (fst (interaction surface gateway i s))) /\
  (forall surface s, reachable surface s -> messages s = None \/ log_ok s) /\
  (forall w, log_ok (session w) ->
     let w' := snd (clear_chat_history w) in
     messages (session w') = Some [system_preamble] /\
     history (session w') = []).
Proof.
  repeat split.
  - intros w Hnone.
    unfold initialize_chat_history, bind, get_session. now rewrite Hnone.
  - intros m w l Hl. now erewrite append_run by eassumption.
  - intros surface gateway i s l Hc Hl.
    assert (He : evolves s (fst (interaction surface gateway i s))).
    { apply interaction_session.
      - apply evolves_trans.
      - now apply script_evolves.
      - now apply script_evolves. }
    unfold evolves in He. now rewrite Hl in He.
  - intros surface gateway i s.
    apply (@interaction_session (keeps log_ok) surface gateway i s).
    + apply keeps_trans.
    + apply script_keeps; [apply evolves_keeps_ok | apply clear_keeps_ok].
    + apply script_keeps; [apply evolves_keeps_ok | apply clear_keeps_ok].
  - intros surface s Hs. induction Hs as [|gateway i s Hs IH]; [now left|].
    revert IH.
    apply (@interaction_session (keeps absent_or_ok) surface gateway i s).
    + apply keeps_trans.
    + apply script_keeps;
        [apply evolves_keeps_absent_or_ok | apply clear_keeps_absent_or_ok].
    + apply script_keeps;
        [apply evolves_keeps_absent_or_ok | apply clear_keeps_absent_or_ok].
  - destruct H as (rest & Hm & _). now erewrite clear_run by eassumption.
  - destruct H as (rest & Hm & _). now erewrite clear_run by eassumption.
Qed.

(* ===================================================================== *)
(** ** The chat turn: claims C4 and C7 *)
(* ===================================================================== *)

Lemma first_choice_content_raises (data : pyobj) :
  raises_only is_Exception (first_choice_content data).
Proof.
  intros e. unfold first_choice_content.
  destruct (py_getitem_str data (py "choices")) as [choices|e1] eqn:E1;
    [|intros [= <-]; now apply (@py_getitem_str_raises data (py "choices"))].
  destruct (py_getitem_0 choices) as [choice|e2] eqn:E2;
    [|intros [= <-]; now apply (@py_getitem_0_raises choices)].
  destruct (py_getitem_str choice (py "message")) as [message|e3] eqn:E3;
    [|intros [= <-]; now apply (@py_getitem_str_raises choice (py "message"))].
  apply py_getitem_str_raises.
Qed.

Ltac same_page :=
  cbn [page session]; repeat rewrite <- app_assoc; reflexivity.

(** A turn whose reply is a failure: the user's message is in the log,
    the request was sent, an error is shown, and that is all. *)
Lemma chat_input_failure (gateway : Gateway) (theme : Theme) (prompt : str)
    (w : world) (l : list Message) (key : str) :
  Str.truthy prompt = true ->
  messages (session w) = Some l ->
  groq_client_api_key (session w) = Some key ->
  gateway_failure
    (gateway (completion_request key (l ++ [user_message prompt]))) ->
  exists msg,
    chat_input gateway theme (Some prompt) w
    = (Ok tt, shown (awaiting w l key prompt) [Error msg]).
Proof.
  intros Hp Hl Hk Hfail. unfold chat_input. rewrite Hp.
  unfold bind at 1. erewrite append_run by eassumption.
  unfold requests_post, get_messages.
  unfold bind, emit, try_except, get_session, lift, ret, raise, shown,
    awaiting.
  simpl. rewrite Hk. simpl. fold (user_message prompt).
  destruct (gateway (completion_request key (l ++ [user_message prompt])))
    as [|status_code body]; simpl in *.
  { exists (ErrorException RequestException). f_equal. f_equal. same_page. }
  destruct (Json.loads body) as [data|e] eqn:Ed.
  - destruct (Z.eqb_spec status_code 200) as [->|Hne].
    + destruct (first_choice_content data) as [reply|e] eqn:Ec.
      * exfalso. destruct Hfail as [H | [(e & He) | (d' & e & Hd & He)]];
          congruence.
      * assert (Hx : is_Exception e = true)
          by (eapply first_choice_content_raises; eassumption).
        rewrite Hx.
        exists (ErrorException e). f_equal. f_equal. same_page.
    + destruct (py_get data (py "error") (PyStr (py "Unknown error")))
        as [detail|e] eqn:Eg.
      * unfold present. cbn [page surface session].
        destruct (surface w _ (Error (ErrorStatus status_code detail)))
          as [r|].
        -- rewrite raised_Exception.
           exists (ErrorException (raised r)). f_equal. f_equal. same_page.
        -- exists (ErrorStatus status_code detail).
           f_equal. f_equal. same_page.
      * assert (Hx : is_Exception e = true)
          by (eapply py_get_raises; eassumption).
        rewrite Hx.
        exists (ErrorException e). f_equal. f_equal. same_page.
  - assert (Hx : is_Exception e = true)
      by (eapply loads_raises_Exception; eassumption).
    rewrite Hx.
    exists (ErrorException e). f_equal. f_equal. same_page.
Qed.

(** C4 (as amended).  In a turn (a non-empty prompt, with the log and
    the key in the session state) whose reply is a failure -- the
    connection fails, the status is not 200, the body does not decode,
    or [choices[0].message.content] cannot be looked up in it -- the
    handler completes, the log is the former log followed by the user's
    message and nothing else, and the page ends with an error message,
    after the request. *)
Theorem C4_failed_turn_keeps_only_the_prompt (gateway : Gateway)
    (theme : Theme) (prompt : str) (w : world) (l : list Message)
    (key : str) :
  Str.truthy prompt = true ->
  messages (session w) = Some l ->
  groq_client_api_key (session w) = Some key ->
  gateway_failure
    (gateway (completion_request key (l ++ [user_message prompt]))) ->
  let r := chat_input gateway theme (Some prompt) w in
  fst r = Ok tt /\
  messages (session (snd r)) = Some (l ++ [user_message prompt]) /\
  exists msg,
    page (snd r)
    = page w ++
      [ChatMessage User; Markdown (PyStr prompt); ChatMessage Assistant;
       Post (completion_request key (l ++ [user_message prompt]));
       Error msg].
Proof.
  intros Hp Hl Hk Hfail r.
  destruct (chat_input_failure gateway theme prompt w Hp Hl Hk Hfail)
    as (msg & Hrun).
  subst r. rewrite Hrun. simpl. repeat split.
  exists msg. same_page.
Qed.

(** C4, counterexample to the claim as stated: the status is 200 and
    the body lacks a content that is a text (a number in the first
    body, [null] in the second); the assistant message is appended all
    the same, with that content, and the error shown is the one of
    [create_visualization]. *)
Lemma C4_counterexample_content_not_text :
  let body1 := jq "{'choices':[{'message':{'role':'assistant','content':42}}]}" in
  let body2 := jq "{'choices':[{'message':{'role':'assistant','content':null}}]}" in
  let r1 := chat_input (always (Response 200 body1)) DayMode
              (Some (py "hi")) world0 in
  let r2 := chat_input (always (Response 200 body2)) DayMode
              (Some (py "hi")) world0 in
  messages (session (snd r1))
  = Some [system_preamble; user_message (py "hi");
          assistant_message (PyInt 42)] /\
  messages (session (snd r2))
  = Some [system_preamble; user_message (py "hi");
          assistant_message PyNone] /\
  In (Error (ErrorCreatingVisualization AttributeError)) (page (snd r1)) /\
  In (Error (ErrorCreatingVisualization AttributeError)) (page (snd r2)).
Proof.
  cbv zeta. repeat split; vm_compute; try reflexivity; tauto.
Qed.

(** C4, an instance: a 401 reply leaves the user's message as the last
    message of the log. *)
Lemma C4_witness :
  let gateway := always (Response 401 (jq "{'error':{'message':'Invalid API Key'}}")) in
  let r := chat_input gateway DayMode (Some (py "hi")) world0 in
  fst r = Ok tt /\
  messages (session (snd r)) = Some [system_preamble; user_message (py "hi")] /\
  exists msg,
    page (snd r)
    = [ChatMessage User; Markdown (PyStr (py "hi")); ChatMessage Assistant;
       Post (completion_request (py "gsk")
               [system_preamble; user_message (py "hi")]);
       Error msg].
Proof.
  cbv zeta.
  apply (@C4_failed_turn_keeps_only_the_prompt
           (always (Response 401 (jq "{'error':{'message':'Invalid API Key'}}")))
           DayMode (py "hi") world0 [system_preamble] (py "gsk"));
    try reflexivity.
  left. discriminate.
Defined.

(** C7 (as amended).  When nothing is submitted, or the submitted text
    is empty, the handler does nothing: no message is appended, no
    request is sent, nothing is shown. *)
Theorem C7_empty_prompt_is_ignored (gateway : Gateway) (theme : Theme)
    (prompt : option str) (w : world) :
  prompt = None \/ prompt = Some [] ->
  chat_input gateway theme prompt w = (Ok tt, w).
Proof. intros [-> | ->]; reflexivity. Qed.

(** C7, counterexample to the claim as stated: a prompt of three spaces
    is appended to the log and sent to the gateway. *)
Lemma C7_counterexample_whitespace_prompt :
  let prompt := py "   " in
  let gateway := always (Response 401 (jq "{'error':{'message':'Invalid API Key'}}")) in
  let r := chat_input gateway DayMode (Some prompt) world0 in
  Str.strip prompt = [] /\
  messages (session (snd r)) = Some [system_preamble; user_message prompt] /\
  In (Post (completion_request (py "gsk")
              [system_preamble; user_message prompt]))
     (page (snd r)).
Proof.
  cbv zeta. repeat split; vm_compute; try reflexivity; tauto.
Qed.

(** C7, an instance: the empty prompt. *)
Lemma C7_witness :
  chat_input (always ConnectionFailed) DayMode (Some []) world0
  = (Ok tt, world0).
Proof.
  apply (@C7_empty_prompt_is_ignored (always ConnectionFailed) DayMode
           (Some []) world0).
  right. reflexivity.
Defined.

(** C3, an instance: the button on a log of three messages. *)
Lemma C3_witness :
  let w := {| session := {| messages := Some [system_preamble;
                                             user_message (py "hi");
                                             assistant_message (PyStr (py "hello"))];
                            groq_client_api_key := Some (py "gsk") |};
              page := []; surface := streamlit_page |} in
  messages (session (snd (clear_chat_history w))) = Some [system_preamble] /\
  history (session (snd (clear_chat_history w))) = [].
Proof.
  cbv zeta.
  apply (proj2 (proj2 (proj2 (proj2 (proj2 C3_system_message_stays_first))))).
  exists [user_message (py "hi"); assistant_message (PyStr (py "hello"))].
  split; [reflexivity|].
  repeat constructor; discriminate.
Defined.

(** C1, instances: a reply without braces, a reply whose only closing
    brace precedes the opening one, and a reply with a span. *)
Lemma C1_witness :
  create_visualization DayMode (PyStr (py "Save 10% of your income.")) world0
  = (Ok false, world0) /\
  create_visualization DayMode (PyStr (py "a } b { c")) world0
  = (Ok false, world0) /\
  create_visualization DayMode (PyStr (py "see {x} and {y}.")) world0
  = decode_and_chart DayMode (py "{x} and {y}") world0.
Proof.
  split; [|split].
  - apply (proj1 (C1_first_to_last_brace DayMode
                    (py "Save 10% of your income.") world0)).
    left. vm_compute. intuition discriminate.
  - apply (proj1 (C1_first_to_last_brace DayMode (py "a } b { c") world0)).
    right. exists (py "a } b "), (py " c").
    split; [reflexivity|]. split; vm_compute; intuition discriminate.
  - apply (proj1 (proj2 (C1_first_to_last_brace DayMode
                           (py "see {x} and {y}.") world0))).
    concrete_span (py "see ") (py "x} and {y") (py ".").
Defined.

(* ===================================================================== *)
(** ** The manual chart: claim C8 *)
(* ===================================================================== *)

Lemma of_strs_length (l : list str) (xs : list pyfloat) :
  Float.of_strs l = Ok xs -> length xs = length l.
Proof.
  revert xs; induction l as [|s r IH]; intros xs; simpl.
  - now intros [= <-].
  - destruct (Float.of_str s); [|discriminate].
    destruct (Float.of_strs r) as [ys|]; [|discriminate].
    intros [= <-]. simpl. now rewrite (IH ys).
Qed.

Lemma canvas_not_numeric (categories amounts : str) (w : world) (e : exn) :
  Str.truthy categories = true -> Str.truthy amounts = true ->
  Float.of_strs (fields amounts) = Raise e ->
  canvas categories amounts w = (Ok tt, shown w [Error (ErrorNotNumeric e)]).
Proof.
  intros Hc Ha He. unfold canvas. rewrite Hc, Ha.
  unfold try_except, bind, lift. fold (fields amounts). rewrite He.
  assert (Hx : is_ValueError e = true)
    by (eapply of_strs_raises; eassumption).
  now rewrite Hx.
Qed.

Lemma canvas_count_mismatch (categories amounts : str) (w : world)
    (xs : list pyfloat) :
  Str.truthy categories = true -> Str.truthy amounts = true ->
  Float.of_strs (fields amounts) = Ok xs ->
  length (fields categories) <> length (fields amounts) ->
  canvas categories amounts w = (Ok tt, shown w [Error ErrorCountMismatch]).
Proof.
  intros Hc Ha Hx Hne. unfold canvas. rewrite Hc, Ha.
  unfold try_except, bind, lift.
  fold (fields amounts). fold (fields categories). rewrite Hx.
  rewrite <- (of_strs_length _ Hx) in Hne.
  destruct (Nat.eqb_spec (length (fields categories)) (length xs));
    [contradiction | reflexivity].
Qed.

Lemma canvas_chart (categories amounts : str) (w : world)
    (xs : list pyfloat) :
  Str.truthy categories = true -> Str.truthy amounts = true ->
  Float.of_strs (fields amounts) = Ok xs ->
  length (fields categories) = length (fields amounts) ->
  canvas categories amounts w
  = (Ok tt, shown w [custom_chart (fields categories) xs]).
Proof.
  intros Hc Ha Hx Heq. unfold canvas. rewrite Hc, Ha.
  unfold try_except, bind, lift.
  fold (fields amounts). fold (fields categories). rewrite Hx.
  rewrite <- (of_strs_length _ Hx) in Heq.
  rewrite Heq, Nat.eqb_refl.
  unfold Pandas.from_columns. rewrite !length_map, Heq, Nat.eqb_refl.
  reflexivity.
Qed.

(** C8.  On the manual path, the categories [Rent], [Food] with the
    amounts [500], [300] give one bar chart whose rows are the two
    pairs in that order; with the amounts [500], [abc] an error about
    the amounts is shown and no chart.  In general (two non-empty
    texts): when some amount is not a number, that error is shown and
    no chart; when all amounts are numbers and the counts of categories
    and amounts differ, the count error is shown and no chart; when all
    amounts are numbers and the counts agree, the chart of the
    categories and amounts, in their order, is shown. *)
Theorem C8_manual_chart :
  (forall w,
     fields (py "Rent,Food") = [py "Rent"; py "Food"] /\
     fields (py "500,300") = [py "500"; py "300"] /\
     canvas (py "Rent,Food") (py "500,300") w
     = (Ok tt,
        shown w [custom_chart [py "Rent"; py "Food"]
                   [FDec false 500 0; FDec false 300 0]])) /\
  (forall w,
     fields (py "500,abc") = [py "500"; py "abc"] /\
     canvas (py "Rent,Food") (py "500,abc") w
     = (Ok tt, shown w [Error (ErrorNotNumeric ValueError)])) /\
  (forall categories amounts w e,
     Str.truthy categories = true -> Str.truthy amounts = true ->
     Float.of_strs (fields amounts) = Raise e ->
     e = ValueError /\
     canvas categories amounts w
     = (Ok tt, shown w [Error (ErrorNotNumeric ValueError)])) /\
  (forall categories amounts w xs,
     Str.truthy categories = true -> Str.truthy amounts = true ->
     Float.of_strs (fields amounts) = Ok xs ->
     length (fields categories) <> length (fields amounts) ->
     canvas categories amounts w
     = (Ok tt, shown w [Error ErrorCountMismatch])) /\
  (forall categories amounts w xs,
     Str.truthy categories = true -> Str.truthy amounts = true ->
     Float.of_strs (fields amounts) = Ok xs ->
     length (fields categories) = length (fields amounts) ->
     canvas categories amounts w
     = (Ok tt, shown w [custom_chart (fields categories) xs])).
Proof.
  split; [|split; [|split; [|split]]].
  - intros w. split; [vm_compute; reflexivity|].
    split; [vm_compute; reflexivity|].
    now apply canvas_chart.
  - intros w. split; [vm_compute; reflexivity|].
    now apply canvas_not_numeric.
  - intros categories amounts w e Hc Ha He.
    pose proof (of_strs_ValueError _ He) as ->.
    split; [reflexivity|]. now apply canvas_not_numeric.
  - intros. now apply canvas_count_mismatch with (xs := xs).
  - intros. now apply canvas_chart.
Qed.

(** C8, instances of the general cases: a missing amount, and an amount
    that is not a number together with a missing one. *)
Lemma C8_witness :
  canvas (py "Rent, Food, Fun") (py "500, 300") world0
  = (Ok tt, shown world0 [Error ErrorCountMismatch]) /\
  canvas (py "Rent, Food, Fun") (py "500, n/a") world0
  = (Ok tt, shown world0 [Error (ErrorNotNumeric ValueError)]) /\
  canvas (py "Rent, Food") (py " 500 ,3e2") world0
  = (Ok tt,
     shown world0 [custom_chart [py "Rent"; py "Food"]
                     [FDec false 500 0; FDec false 3 2]]).
Proof.
  split; [|split].
  - apply (proj1 (proj2 (proj2 (proj2 C8_manual_chart)))
             (py "Rent, Food, Fun") (py "500, 300") world0
             [FDec false 500 0; FDec false 300 0]);
      try reflexivity.
    vm_compute. discriminate.
  - apply (proj1 (proj2 (proj2 C8_manual_chart))
             (py "Rent, Food, Fun") (py "500, n/a") world0 ValueError);
      reflexivity.
  - apply (proj2 (proj2 (proj2 (proj2 C8_manual_chart)))
             (py "Rent, Food") (py " 500 ,3e2") world0
             [FDec false 500 0; FDec false 3 2]);
      reflexivity.
Defined.

(* ===================================================================== *)
(** ** Further properties of the chart function *)
(* ===================================================================== *)

Lemma create_visualization_local (theme : Theme) (text : pyobj)
    (w1 w2 : world) :
  surface w1 = surface w2 -> drawn (page w1) = drawn (page w2) ->
  exists b extra,
    create_visualization theme text w1 = (Ok b, shown w1 extra) /\
    create_visualization theme text w2 = (Ok b, shown w2 extra) /\
    chart_outcome b extra.
Proof.
  intros Hs Hp.
  destruct (create_visualization_attempt text) as (a & Hsound & _ & Hrun).
  destruct (reported_local (a theme) w1 w2 (Hsound theme) Hs Hp)
    as (b & extra & H1 & H2).
  exists b, extra. rewrite !Hrun. split; [exact H1|]. split; [exact H2|].
  destruct (reported_outcome (a theme) w1 (Hsound theme))
    as (b' & extra' & H1' & Hc & _).
  rewrite H1 in H1'. injection H1' as -> Hw.
  assert (extra = extra') as ->; [|exact Hc].
  now apply app_inv_head in Hw.
Qed.

Lemma chart_outcome_no_post (b : bool) (extra : list effect) :
  chart_outcome b extra ->
  forallb (fun x => negb (is_post x)) extra = true /\
  forallb (fun x => negb (is_chat_message x)) extra = true.
Proof. intros H. destruct H; split; reflexivity. Qed.

(** X1.  Whatever object it is given, and whatever the page answers,
    [create_visualization] completes and adds to the page one of four
    things: nothing; one error message; a subheader and an error
    message; a subheader and one chart whose two columns have the same
    length.  It returns [True] exactly in the last case. *)
Theorem X1_chart_function_outcomes (theme : Theme) (text : pyobj)
    (w : world) :
  exists b extra,
    create_visualization theme text w = (Ok b, shown w extra) /\
    chart_outcome b extra /\
    (b = true <->
     exists title fig, extra = [Subheader title; PlotlyChart fig true]).
Proof.
  destruct (create_visualization_outcome theme text w)
    as (b & extra & Hd & Hc).
  exists b, extra. split; [apply Hd|]. split; [exact Hc|].
  destruct Hc; split; try discriminate; eauto;
    intros (t' & f' & H); discriminate.
Qed.

(** X2.  What [create_visualization] returns and adds to the page
    depends on the theme, on the text and on what is drawn on the page,
    and on nothing else: in two worlds with the same surface and the
    same elements on the page -- whatever their session states and the
    requests sent -- it returns the same value and adds the same
    elements. *)
Theorem X2_chart_function_is_local (theme : Theme) (text : pyobj)
    (w1 w2 : world) :
  surface w1 = surface w2 -> drawn (page w1) = drawn (page w2) ->
  exists b extra,
    create_visualization theme text w1 = (Ok b, shown w1 extra) /\
    create_visualization theme text w2 = (Ok b, shown w2 extra).
Proof.
  intros Hs Hp.
  destruct (create_visualization_local theme text w1 w2 Hs Hp)
    as (b & extra & H1 & H2 & _).
  now exists b, extra.
Qed.

(** X2, an instance: the same payload on the empty page of two worlds,
    one of which has another session state and has sent a request. *)
Lemma X2_witness :
  let text := PyStr (jq "{'data':{'labels':['A'],'values':[1]}}") in
  let w2 := {| session := fresh;
               page := [Post (completion_request (py "gsk") [])];
               surface := streamlit_page |} in
  exists b extra,
    create_visualization DayMode text world0 = (Ok b, shown world0 extra) /\
    create_visualization DayMode text w2 = (Ok b, shown w2 extra).
Proof.
  cbv zeta.
  apply (@X2_chart_function_is_local DayMode
           (PyStr (jq "{'data':{'labels':['A'],'values':[1]}}")) world0
           {| session := fresh;
              page := [Post (completion_request (py "gsk") [])];
              surface := streamlit_page |});
    reflexivity.
Defined.


(** X4.  When the payload's [data] is not a dict, no chart is drawn and
    [False] is returned.  A number, a boolean or [null] is reported as
    an error; a text is reported when it contains both words [labels]
    and [values], a list when it has both among its elements, and
    otherwise nothing is shown. *)
Theorem X4_data_that_is_not_a_dict (theme : Theme) (text span : str)
    (d : Dict.t) (v : pyobj) (w : world) :
  brace_span text span ->
  Json.loads span = Ok (PyDict d) ->
  Dict.lookup (py "data") d = Some v ->
  is_dict v = false ->
  create_visualization theme (PyStr text) w
  = (Ok false,
     shown w (if passes_the_gate v
              then [Error (ErrorCreatingVisualization TypeError)]
              else [])).
Proof.
  intros Hspan Hd Hv Hnot.
  rewrite (create_visualization_span theme w Hspan).
  unfold decode_and_chart, try_except, bind at 1, lift. rewrite Hd.
  run. rewrite Hv.
  destruct v as [| | | | s|items|cd]; try discriminate;
    cbn [py_in py_getitem_str passes_the_gate]; try reflexivity.
  - destruct (Str.contains s (py "labels")); cbn [andb];
      [|now rewrite <- (shown_nil w) at 1].
    destruct (Str.contains s (py "values")); cbn [andb];
      [reflexivity | now rewrite <- (shown_nil w) at 1].
  - destruct (existsb _ items); cbn [andb];
      [|now rewrite <- (shown_nil w) at 1].
    destruct (existsb _ items); cbn [andb];
      [reflexivity | now rewrite <- (shown_nil w) at 1].
Qed.

(** X4, an instance: a [data] that is a sentence naming both keys. *)
Lemma X4_witness :
  create_visualization DayMode
    (PyStr (jq "{'data':'no labels, no values'}")) world0
  = (Ok false, shown world0 [Error (ErrorCreatingVisualization TypeError)]).
Proof.
  apply (@X4_data_that_is_not_a_dict DayMode _
           (jq "{'data':'no labels, no values'}")
           [(py "data", PyStr (py "no labels, no values"))]
           (PyStr (py "no labels, no values")) world0);
    try (vm_compute; reflexivity).
  concrete_span (@nil char)
    (removelast (tl (jq "{'data':'no labels, no values'}")))
    (@nil char).
Defined.

(** X5.  When the payload has no [data], or its [data] is a dict that
    lacks [labels] or lacks [values], the function returns [False] and
    shows nothing at all, not even an error. *)
Theorem X5_missing_keys_are_silent (theme : Theme) (text span : str)
    (d : Dict.t) (w : world) :
  brace_span text span ->
  Json.loads span = Ok (PyDict d) ->
  (Dict.lookup (py "data") d = None \/
   exists cd,
     Dict.lookup (py "data") d = Some (PyDict cd) /\
     (Dict.lookup (py "labels") cd = None \/
      Dict.lookup (py "values") cd = None)) ->
  create_visualization theme (PyStr text) w = (Ok false, w).
Proof.
  intros Hspan Hd Hmiss.
  rewrite (create_visualization_span theme w Hspan).
  unfold decode_and_chart, try_except, bind at 1, lift. rewrite Hd.
  rewrite chart_from_data_absent; [reflexivity|].
  destruct Hmiss as [-> | (cd & -> & [Hl | Hv])]; [exact I | |];
    unfold Dict.mem.
  - now rewrite Hl.
  - rewrite Hv. now destruct (Dict.lookup (py "labels") cd).
Qed.

(** X5, an instance: a payload with labels and no values. *)
Lemma X5_witness :
  create_visualization DayMode
    (PyStr (jq "{'title':'Rent','data':{'labels':['A','B']}}")) world0
  = (Ok false, world0).
Proof.
  apply (@X5_missing_keys_are_silent DayMode _
           (jq "{'title':'Rent','data':{'labels':['A','B']}}")
           [(py "title", PyStr (py "Rent"));
            (py "data",
             PyDict [(py "labels", PyList [PyStr (py "A"); PyStr (py "B")])])]
           world0).
  - concrete_span (@nil char)
      (removelast (tl (jq "{'title':'Rent','data':{'labels':['A','B']}}")))
      (@nil char).
  - vm_compute. reflexivity.
  - right. eexists. split; [vm_compute; reflexivity|].
    right. vm_compute. reflexivity.
Defined.

(* ===================================================================== *)
(** ** Further properties of the history display *)
(* ===================================================================== *)

Lemma display_messages_cons (theme : Theme) (m : Message)
    (r : list Message) (w : world) :
  display_messages theme (m :: r) w
  = match after_message theme m (shown w (said m)) with
    | (Ok _, w') => display_messages theme r w'
    | (Raise e, w') => (Raise e, w')
    end.
Proof.
  cbn [display_messages]. unfold bind at 1, emit at 1.
  unfold bind at 1, emit at 1. unfold bind at 1.
  unfold after_message, shown, said. cbn [session page surface].
  now rewrite <- app_assoc.
Qed.

Lemma after_message_run (theme : Theme) (m : Message) (w : world) :
  exists extra,
    after_message theme m w = (Ok tt, shown w extra) /\
    match role m with
    | Assistant => exists b, chart_outcome b extra
    | _ => extra = []
    end.
Proof.
  unfold after_message.
  destruct (role m); try (exists []; unfold ret; now rewrite shown_nil).
  unfold bind.
  destruct (create_visualization_outcome theme (content m) w)
    as (b & extra & -> & Hc).
  exists extra. split; [reflexivity | now exists b].
Qed.

Lemma after_message_local (theme : Theme) (m : Message) (w1 w2 : world) :
  surface w1 = surface w2 -> drawn (page w1) = drawn (page w2) ->
  exists extra,
    after_message theme m w1 = (Ok tt, shown w1 extra) /\
    after_message theme m w2 = (Ok tt, shown w2 extra).
Proof.
  intros Hs Hp. unfold after_message.
  destruct (role m); try (exists []; unfold ret; now rewrite !shown_nil).
  unfold bind.
  destruct (create_visualization_local theme (content m) w1 w2 Hs Hp)
    as (b & extra & -> & -> & _).
  now exists extra.
Qed.

Lemma display_messages_run (theme : Theme) (l : list Message) (w : world) :
  exists out,
    display_messages theme l w = (Ok tt, shown w out) /\
    history_of l out /\
    forallb (fun x => negb (is_post x)) out = true.
Proof.
  revert w; induction l as [|m r IH]; intros w.
  - exists []. simpl. rewrite shown_nil. repeat split. constructor.
  - rewrite display_messages_cons.
    destruct (after_message_run theme m (shown w (said m)))
      as (extra & -> & Hx).
    destruct (IH (shown (shown w (said m)) extra)) as (out & -> & Hh & Hn).
    rewrite !shown_shown.
    destruct (role m) eqn:Hr.
    + subst extra. exists (said m ++ out). split; [reflexivity|]. split.
      * apply history_other; [congruence | exact Hh].
      * rewrite forallb_app, Hn. reflexivity.
    + subst extra. exists (said m ++ out). split; [reflexivity|]. split.
      * apply history_other; [congruence | exact Hh].
      * rewrite forallb_app, Hn. reflexivity.
    + destruct Hx as (b & Hc). exists (said m ++ extra ++ out).
      split; [reflexivity|]. split.
      * eapply history_assistant; eassumption.
      * rewrite !forallb_app, Hn.
        rewrite (proj1 (chart_outcome_no_post Hc)). reflexivity.
Qed.

(** The history display asks the surface about what is drawn on the
    page, and about nothing else of the world. *)
Lemma display_messages_local (theme : Theme) (l : list Message) :
  forall w1 w2,
    surface w1 = surface w2 -> drawn (page w1) = drawn (page w2) ->
    exists out,
      display_messages theme l w1 = (Ok tt, shown w1 out) /\
      display_messages theme l w2 = (Ok tt, shown w2 out).
Proof.
  induction l as [|m r IH]; intros w1 w2 Hs Hp.
  - exists []. simpl. now rewrite !shown_nil.
  - rewrite !display_messages_cons.
    destruct (after_message_local theme m (shown w1 (said m))
                (shown w2 (said m))) as (extra & -> & ->).
    { exact Hs. }
    { unfold shown. cbn [page]. rewrite !drawn_app. now rewrite Hp. }
    destruct (IH (shown (shown w1 (said m)) extra)
                (shown (shown w2 (said m)) extra)) as (out & -> & ->).
    { exact Hs. }
    { unfold shown. cbn [page]. rewrite !drawn_app. now rewrite Hp. }
    exists (said m ++ extra ++ out). rewrite !shown_shown. now split.
Qed.

(** At the start of a run the history display draws [history_page]. *)
Lemma display_messages_start (theme : Theme) (l : list Message) (w : world) :
  page w = [] ->
  display_messages theme l w
  = (Ok tt, shown w (history_page (surface w) theme l)).
Proof.
  intros Hw.
  destruct (display_messages_local theme l w (blank (surface w) fresh))
    as (out & H1 & H2).
  - reflexivity.
  - now rewrite Hw.
  - unfold history_page. rewrite H2, H1. reflexivity.
Qed.

Lemma display_messages_app (theme : Theme) (l1 l2 : list Message)
    (w : world) :
  display_messages theme (l1 ++ l2) w
  = display_messages theme l2 (snd (display_messages theme l1 w)).
Proof.
  revert w; induction l1 as [|m r IH]; intros w; [reflexivity|].
  cbn [app]. rewrite !display_messages_cons.
  destruct (after_message_run theme m (shown w (said m)))
    as (extra & -> & _).
  apply IH.
Qed.

Lemma display_chat_history_run (theme : Theme) (w : world) :
  (forall l, messages (session w) = Some l ->
     exists out,
       display_chat_history theme w = (Ok tt, shown w out) /\
       history_of (skipn 1 l) out /\
       forallb (fun x => negb (is_post x)) out = true) /\
  (messages (session w) = None ->
     display_chat_history theme w = (Raise AttributeError, w)).
Proof.
  unfold display_chat_history, get_messages, bind, get_session.
  split; [intros l Hl | intros Hl]; rewrite Hl; [|reflexivity].
  apply display_messages_run.
Qed.



(* ===================================================================== *)
(** ** Further properties of the chat turn *)
(* ===================================================================== *)

Lemma reply_cases (r : Reply) :
  gateway_failure r \/
  exists body data reply,
    r = Response 200 body /\ Json.loads body = Ok data /\
    first_choice_content data = Ok reply.
Proof.
  destruct r as [|status_code body]; [now left|]. simpl.
  destruct (Z.eq_dec status_code 200) as [->|Hne]; [|now left; left].
  destruct (Json.loads body) as [data|e] eqn:Hd;
    [|left; right; left; now exists e].
  destruct (first_choice_content data) as [reply|e] eqn:Hc.
  - right. now exists body, data, reply.
  - left. right. right. now exists data, e.
Qed.

(** The handler up to the reply: the user's message is appended and
    shown, and the request is sent. *)
Lemma chat_input_replied (gateway : Gateway) (theme : Theme) (prompt : str)
    (w : world) (l : list Message) (key body : str) (data reply : pyobj) :
  Str.truthy prompt = true ->
  messages (session w) = Some l ->
  groq_client_api_key (session w) = Some key ->
  gateway (completion_request key (l ++ [user_message prompt]))
  = Response 200 body ->
  Json.loads body = Ok data ->
  first_choice_content data = Ok reply ->
  chat_input gateway theme (Some prompt) w
  = try_except is_Exception
      (present (Markdown reply) ;;
       create_visualization theme reply ;;
       append {| role := Assistant; content := reply |})
      (fun e => emit (Error (ErrorException e)))
      (awaiting w l key prompt).
Proof.
  intros Hp Hl Hk Hg Hd Hc. unfold chat_input. rewrite Hp.
  unfold bind at 1. erewrite append_run by eassumption.
  unfold bind at 1, emit at 1. unfold bind at 1, emit at 1.
  unfold bind at 1, emit at 1. cbn [session page surface].
  unfold try_except.
  unfold bind at 1, get_session at 1. cbn [session groq_client_api_key].
  unfold bind at 1, ret at 1.
  unfold bind at 1, get_messages at 1, bind at 1, get_session at 1.
  cbn [session messages]. unfold ret at 1.
  unfold bind at 1, requests_post at 1, bind at 1, emit at 1.
  cbn [session page surface]. rewrite Hk. cbv beta iota.
  cbn [session messages]. cbv beta iota. cbn [session page surface].
  fold (user_message prompt). rewrite Hg.
  unfold ret at 1. cbv beta iota. unfold bind at 1, lift at 1.
  cbn [snd fst]. rewrite Hd.
  change (200 =? 200)%Z with true. cbv iota.
  unfold bind at 1, lift at 1. rewrite Hc.
  unfold awaiting. rewrite <- !app_assoc. reflexivity.
Qed.

(** A turn whose reply is well formed and taken by the page: the reply
    is shown, charted and appended. *)
Lemma chat_input_success (gateway : Gateway) (theme : Theme) (prompt : str)
    (w : world) (l : list Message) (key body : str) (data reply : pyobj) :
  Str.truthy prompt = true ->
  messages (session w) = Some l ->
  groq_client_api_key (session w) = Some key ->
  gateway (completion_request key (l ++ [user_message prompt]))
  = Response 200 body ->
  Json.loads body = Ok data ->
  first_choice_content data = Ok reply ->
  accepts (awaiting w l key prompt) [Markdown reply] ->
  exists b extra,
    create_visualization theme reply
      (shown (awaiting w l key prompt) [Markdown reply])
    = (Ok b, shown (shown (awaiting w l key prompt) [Markdown reply]) extra) /\
    chart_outcome b extra /\
    chat_input gateway theme (Some prompt) w
    = (Ok tt,
       {| session :=
            {| messages := Some (l ++ [user_message prompt;
                                       assistant_message reply]);
               groq_client_api_key := Some key |};
          page := page (awaiting w l key prompt) ++ Markdown reply :: extra;
          surface := surface w |}).
Proof.
  intros Hp Hl Hk Hg Hd Hc (Hacc & _).
  destruct (create_visualization_outcome theme reply
              (shown (awaiting w l key prompt) [Markdown reply]))
    as (b & extra & Hcv & Hout).
  exists b, extra. split; [exact Hcv|]. split; [exact Hout|].
  rewrite (chat_input_replied gateway theme prompt w Hp Hl Hk Hg Hd Hc).
  unfold try_except, bind at 1.
  rewrite (present_taken _ _ Hacc).
  unfold bind at 1. rewrite Hcv.
  erewrite append_run by (simpl; reflexivity).
  unfold assistant_message, shown, awaiting. cbn [session page surface
    messages groq_client_api_key]. f_equal. f_equal.
  - f_equal. now rewrite <- app_assoc.
  - now rewrite <- !app_assoc.
Qed.

(** A turn whose reply is well formed and refused by the page: the
    error is shown and nothing is appended. *)
Lemma chat_input_refused (gateway : Gateway) (theme : Theme) (prompt : str)
    (w : world) (l : list Message) (key body : str) (data reply : pyobj)
    (r : refusal) :
  Str.truthy prompt = true ->
  messages (session w) = Some l ->
  groq_client_api_key (session w) = Some key ->
  gateway (completion_request key (l ++ [user_message prompt]))
  = Response 200 body ->
  Json.loads body = Ok data ->
  first_choice_content data = Ok reply ->
  surface w (drawn (page (awaiting w l key prompt))) (Markdown reply)
  = Some r ->
  chat_input gateway theme (Some prompt) w
  = (Ok tt,
     shown (awaiting w l key prompt) [Error (ErrorException (raised r))]).
Proof.
  intros Hp Hl Hk Hg Hd Hc Href.
  rewrite (chat_input_replied gateway theme prompt w Hp Hl Hk Hg Hd Hc).
  unfold try_except, bind at 1.
  rewrite (@present_refused _ (awaiting w l key prompt) r) by exact Href.
  now rewrite raised_Exception.
Qed.

(** A turn without a key in the session state: nothing is sent. *)
Lemma chat_input_no_key (gateway : Gateway) (theme : Theme) (prompt : str)
    (w : world) (l : list Message) :
  Str.truthy prompt = true ->
  messages (session w) = Some l ->
  groq_client_api_key (session w) = None ->
  chat_input gateway theme (Some prompt) w
  = (Ok tt,
     {| session := {| messages := Some (l ++ [user_message prompt]);
                      groq_client_api_key := None |};
        page := page w ++
                [ChatMessage User; Markdown (PyStr prompt);
                 ChatMessage Assistant;
                 Error (ErrorException AttributeError)];
        surface := surface w |}).
Proof.
  intros Hp Hl Hk. unfold chat_input. rewrite Hp.
  unfold bind at 1. erewrite append_run by eassumption.
  unfold bind, emit, try_except, get_session, lift, ret, raise.
  simpl. rewrite Hk. simpl. fold (user_message prompt).
  f_equal. f_equal. same_page.
Qed.

(** What a call of the handler does to an existing log. *)
Lemma chat_input_log (gateway : Gateway) (theme : Theme)
    (prompt : option str) (w : world) (l : list Message) :
  messages (session w) = Some l ->
  let r := chat_input gateway theme prompt w in
  fst r = Ok tt /\
  groq_client_api_key (session (snd r)) = groq_client_api_key (session w) /\
  match prompt with
  | Some ((_ :: _) as p) =>
      messages (session (snd r)) = Some (l ++ [user_message p]) \/
      exists reply,
        messages (session (snd r))
        = Some (l ++ [user_message p; assistant_message reply])
  | _ => snd r = w
  end.
Proof.
  intros Hl r. subst r.
  destruct prompt as [[|c p]|]; try (repeat split; reflexivity).
  assert (Hq : Str.truthy (c :: p) = true) by reflexivity.
  destruct (groq_client_api_key (session w)) as [key|] eqn:Hk.
  - destruct (reply_cases
                (gateway (completion_request key
                            (l ++ [user_message (c :: p)]))))
      as [Hfail | (body & data & reply & Hg & Hd & Hc)].
    + destruct (chat_input_failure gateway theme (c :: p) w Hq Hl Hk Hfail)
        as (msg & ->).
      cbn [fst snd session shown awaiting messages groq_client_api_key].
      split; [reflexivity|]. split; [reflexivity|]. now left.
    + destruct (surface w (drawn (page (awaiting w l key (c :: p))))
                  (Markdown reply)) as [r|] eqn:Hs.
      * rewrite (@chat_input_refused gateway theme (c :: p) w l key body
                   data reply r Hq Hl Hk Hg Hd Hc Hs).
        cbn [fst snd session shown awaiting messages groq_client_api_key].
        split; [reflexivity|]. split; [reflexivity|]. now left.
      * destruct (@chat_input_success gateway theme (c :: p) w l key body
                    data reply Hq Hl Hk Hg Hd Hc)
          as (b & extra & _ & _ & ->).
        { split; [exact Hs | exact I]. }
        cbn [fst snd session messages groq_client_api_key].
        split; [reflexivity|]. split; [reflexivity|].
        right. now exists reply.
  - rewrite (chat_input_no_key gateway theme (c :: p) w Hq Hl Hk).
    cbn [fst snd session messages groq_client_api_key].
    split; [reflexivity|]. split; [reflexivity|]. now left.
Qed.

(** X7.  In a turn whose reply has status 200, decodes, and has a
    [choices[0].message.content], whatever object that content is, and
    whose content the page takes: it is shown, [create_visualization]
    is run on it and leaves one of its four outcomes on the page, and
    the log becomes the former log followed by the user's message and
    by the assistant's message holding that content, in this order. *)
Theorem X7_completed_turn (gateway : Gateway) (theme : Theme)
    (prompt : str) (w : world) (l : list Message) (key body : str)
    (data reply : pyobj) :
  Str.truthy prompt = true ->
  messages (session w) = Some l ->
  groq_client_api_key (session w) = Some key ->
  gateway (completion_request key (l ++ [user_message prompt]))
  = Response 200 body ->
  Json.loads body = Ok data ->
  first_choice_content data = Ok reply ->
  accepts (awaiting w l key prompt) [Markdown reply] ->
  let r := chat_input gateway theme (Some prompt) w in
  fst r = Ok tt /\
  messages (session (snd r))
  = Some (l ++ [user_message prompt; assistant_message reply]) /\
  exists b extra,
    create_visualization theme reply
      (shown (awaiting w l key prompt) [Markdown reply])
    = (Ok b, shown (shown (awaiting w l key prompt) [Markdown reply]) extra) /\
    chart_outcome b extra /\
    page (snd r)
    = page w ++
      [ChatMessage User; Markdown (PyStr prompt); ChatMessage Assistant;
       Post (completion_request key (l ++ [user_message prompt]));
       Markdown reply] ++ extra.
Proof.
  intros Hp Hl Hk Hg Hd Hc Hacc r. subst r.
  destruct (@chat_input_success gateway theme prompt w l key body data
              reply Hp Hl Hk Hg Hd Hc Hacc)
    as (b & extra & Hcv & Hout & ->).
  cbn [fst snd session messages page]. split; [reflexivity|].
  split; [reflexivity|]. exists b, extra.
  split; [exact Hcv|]. split; [exact Hout|].
  unfold awaiting. cbn [page]. now rewrite <- !app_assoc.
Qed.

(** X7, an instance: a reply that is a plain sentence. *)
Lemma X7_witness :
  let body := jq "{'choices':[{'message':{'role':'assistant','content':'ok'}}]}" in
  let r := chat_input (always (Response 200 body)) DayMode
             (Some (py "hi")) world0 in
  fst r = Ok tt /\
  messages (session (snd r))
  = Some ([system_preamble] ++ [user_message (py "hi");
                                 assistant_message (PyStr (py "ok"))]) /\
  exists b extra,
    create_visualization DayMode (PyStr (py "ok"))
      (shown (awaiting world0 [system_preamble] (py "gsk") (py "hi"))
         [Markdown (PyStr (py "ok"))])
    = (Ok b,
       shown (shown (awaiting world0 [system_preamble] (py "gsk") (py "hi"))
                [Markdown (PyStr (py "ok"))]) extra) /\
    chart_outcome b extra /\
    page (snd r)
    = page world0 ++
      [ChatMessage User; Markdown (PyStr (py "hi")); ChatMessage Assistant;
       Post (completion_request (py "gsk")
               ([system_preamble] ++ [user_message (py "hi")]));
       Markdown (PyStr (py "ok"))] ++ extra.
Proof.
  cbv zeta.
  apply (@X7_completed_turn
           (always (Response 200 (jq "{'choices':[{'message':{'role':'assistant','content':'ok'}}]}")))
           DayMode (py "hi") world0 [system_preamble] (py "gsk")
           (jq "{'choices':[{'message':{'role':'assistant','content':'ok'}}]}")
           (PyDict [(py "choices",
                     PyList [PyDict [(py "message",
                                      PyDict [(py "role", PyStr (py "assistant"));
                                              (py "content", PyStr (py "ok"))])]])])
           (PyStr (py "ok"))).
  - reflexivity.
  - reflexivity.
  - reflexivity.
  - reflexivity.
  - vm_compute. reflexivity.
  - vm_compute. reflexivity.
  - taken_here.
Defined.

(** X8.  In every turn (a non-empty prompt, with the log and the key
    in the session state), whatever the gateway replies, exactly one
    request is sent; it is sent after the user's message has been
    appended and shown, and carries the key and the whole log with
    that message last. *)
Theorem X8_one_request_per_turn (gateway : Gateway) (theme : Theme)
    (prompt : str) (w : world) (l : list Message) (key : str) :
  Str.truthy prompt = true ->
  messages (session w) = Some l ->
  groq_client_api_key (session w) = Some key ->
  exists rest,
    page (snd (chat_input gateway theme (Some prompt) w))
    = page w ++
      [ChatMessage User; Markdown (PyStr prompt); ChatMessage Assistant;
       Post {| authorization := py "Bearer " ++ key;
               model := py "llama-3.3-70b-versatile";
               request_messages := l ++ [user_message prompt];
               temperature := FDec false 7 (-1);
               max_tokens := 1024 |}] ++ rest /\
    forallb (fun x => negb (is_post x)) rest = true.
Proof.
  intros Hp Hl Hk.
  destruct (reply_cases
              (gateway (completion_request key (l ++ [user_message prompt]))))
    as [Hfail | (body & data & reply & Hg & Hd & Hc)].
  - destruct (chat_input_failure gateway theme prompt w Hp Hl Hk Hfail)
      as (msg & ->).
    exists [Error msg]. split; [|reflexivity].
    unfold shown, awaiting. cbn [snd page session].
    repeat rewrite <- app_assoc. reflexivity.
  - destruct (surface w (drawn (page (awaiting w l key prompt)))
                (Markdown reply)) as [r|] eqn:Hs.
    + rewrite (@chat_input_refused gateway theme prompt w l key body
                 data reply r Hp Hl Hk Hg Hd Hc Hs).
      exists [Error (ErrorException (raised r))]. split; [|reflexivity].
      unfold shown, awaiting. cbn [snd page session].
      repeat rewrite <- app_assoc. reflexivity.
    + destruct (@chat_input_success gateway theme prompt w l key body
                  data reply Hp Hl Hk Hg Hd Hc)
        as (b & extra & _ & Hout & ->).
      { split; [exact Hs | exact I]. }
      exists (Markdown reply :: extra).
      split; [|simpl; apply (chart_outcome_no_post Hout)].
      unfold awaiting. cbn [snd page session].
      repeat rewrite <- app_assoc. reflexivity.
Qed.

(** X8, an instance: a gateway that cannot be reached. *)
Lemma X8_witness :
  exists rest,
    page (snd (chat_input (always ConnectionFailed) DayMode
                 (Some (py "hi")) world0))
    = [ChatMessage User; Markdown (PyStr (py "hi")); ChatMessage Assistant;
       Post {| authorization := py "Bearer gsk";
               model := py "llama-3.3-70b-versatile";
               request_messages := [system_preamble; user_message (py "hi")];
               temperature := FDec false 7 (-1);
               max_tokens := 1024 |}] ++ rest /\
    forallb (fun x => negb (is_post x)) rest = true.
Proof.
  apply (@X8_one_request_per_turn (always ConnectionFailed) DayMode
           (py "hi") world0 [system_preamble] (py "gsk")); reflexivity.
Defined.

(** X9.  A call of the chat handler on a session that has a log never
    raises, whatever the gateway does.  Without a prompt, or with an
    empty one, it changes nothing.  With a non-empty prompt it adds to
    the end of the log either the user's message alone or the user's
    message followed by one assistant message, and nothing else; in
    particular never an assistant message alone. *)
Theorem X9_what_a_turn_adds (gateway : Gateway) (theme : Theme)
    (prompt : option str) (w : world) (l : list Message) :
  messages (session w) = Some l ->
  let r := chat_input gateway theme prompt w in
  fst r = Ok tt /\
  match prompt with
  | Some ((_ :: _) as p) =>
      messages (session (snd r)) = Some (l ++ [user_message p]) \/
      exists reply,
        messages (session (snd r))
        = Some (l ++ [user_message p; assistant_message reply])
  | _ => snd r = w
  end.
Proof.
  intros Hl r.
  destruct (chat_input_log gateway theme prompt w Hl) as (H1 & _ & H3).
  split; assumption.
Qed.

(** X9, an instance: a reply that does not decode. *)
Lemma X9_witness :
  let r := chat_input (always (Response 200 (py "<html>"))) NightMode
             (Some (py "hi")) world0 in
  fst r = Ok tt /\
  (messages (session (snd r))
   = Some ([system_preamble] ++ [user_message (py "hi")]) \/
   exists reply,
     messages (session (snd r))
     = Some ([system_preamble] ++ [user_message (py "hi");
                                    assistant_message reply])).
Proof.
  cbv zeta.
  apply (@X9_what_a_turn_adds (always (Response 200 (py "<html>")))
           NightMode (Some (py "hi")) world0 [system_preamble]).
  reflexivity.
Defined.

(* ===================================================================== *)
(** ** Further properties of the log *)
(* ===================================================================== *)

Lemma turns_app (a b : list Message) : turns a -> turns b -> turns (a ++ b).
Proof.
  intros Ha Hb. induction Hb as [|l p Hl IH Hp|l p reply Hl IH Hp].
  - now rewrite app_nil_r.
  - rewrite app_assoc. now constructor.
  - rewrite app_assoc. now constructor.
Qed.

Lemma grows_refl (s : SessionState) : grows_by_turns s s.
Proof.
  unfold grows_by_turns. destruct (messages s) as [l|] eqn:E; [|now left].
  exists []. split; [now rewrite app_nil_r | constructor].
Qed.

Lemma grows_trans (s1 s2 s3 : SessionState) :
  grows_by_turns s1 s2 -> grows_by_turns s2 s3 -> grows_by_turns s1 s3.
Proof.
  unfold grows_by_turns. intros H12 H23.
  destruct (messages s1) as [l|].
  - destruct H12 as (a1 & H2 & Ha1). rewrite H2 in H23.
    destruct H23 as (a2 & H3 & Ha2). exists (a1 ++ a2). split.
    + now rewrite app_assoc.
    + now apply turns_app.
  - destruct H12 as [H2 | (rest & H2 & Hrest)].
    + now rewrite H2 in H23.
    + right. rewrite H2 in H23. destruct H23 as (a2 & H3 & Ha2).
      exists (rest ++ a2). split; [exact H3 | now apply turns_app].
Qed.

Lemma grows_keeps_conversation (s s' : SessionState) :
  grows_by_turns s s' -> conversation s -> conversation s'.
Proof.
  unfold grows_by_turns, conversation.
  intros Hg [Hnone | (rest & Hm & Hrest)].
  - now rewrite Hnone in Hg.
  - right. rewrite Hm in Hg. destruct Hg as (added & Hs' & Hadded).
    exists (rest ++ added). split; [exact Hs' | now apply turns_app].
Qed.

Lemma chat_input_grows (gateway : Gateway) (theme : Theme)
    (prompt : option str) :
  step grows_by_turns (chat_input gateway theme prompt).
Proof.
  intros w. unfold grows_by_turns.
  destruct (messages (session w)) as [l|] eqn:Hl.
  - destruct (chat_input_log gateway theme prompt w Hl) as (_ & _ & H).
    destruct prompt as [[|c p]|].
    + rewrite H, Hl. exists []. split; [now rewrite app_nil_r | constructor].
    + destruct H as [-> | (reply & ->)].
      * exists [user_message (c :: p)]. split; [reflexivity|].
        now apply (turns_failed (l := [])); [constructor|].
      * exists [user_message (c :: p); assistant_message reply].
        split; [reflexivity|].
        now apply (turns_completed (l := [])); [constructor|].
    + rewrite H, Hl. exists []. split; [now rewrite app_nil_r | constructor].
  - left. unfold chat_input. destruct prompt as [p|]; [|exact Hl].
    destruct (Str.truthy p); [|exact Hl].
    unfold bind at 1, append, get_messages, bind, get_session.
    now rewrite Hl.
Qed.

Lemma initialize_grows : step grows_by_turns initialize_chat_history.
Proof.
  intros w. unfold grows_by_turns, initialize_chat_history, bind,
    get_session.
  destruct (messages (session w)) as [l|] eqn:E.
  - simpl. rewrite E. exists []. split; [now rewrite app_nil_r | constructor].
  - right. exists []. split; [reflexivity | constructor].
Qed.

Lemma require_api_key_grows (k : str) :
  step grows_by_turns (require_api_key k).
Proof.
  intros w. unfold require_api_key.
  destruct (Str.truthy k); [|apply grows_refl].
  unfold grows_by_turns, bind, get_session, put_session. simpl.
  destruct (messages (session w)) as [l|] eqn:E.
  - exists []. split; [now rewrite app_nil_r | constructor].
  - now left.
Qed.

Lemma clear_keeps_conversation :
  step (keeps conversation) clear_chat_history.
Proof.
  intros w [Hnone | (rest & Hm & Hrest)].
  - left. unfold clear_chat_history, get_messages, bind, get_session.
    now rewrite Hnone.
  - right. erewrite clear_run by eassumption.
    exists []. split; [reflexivity | constructor].
Qed.

(** A run of the script, from what its parts do to the session state. *)
Lemma script_step_by (R : SessionState -> SessionState -> Prop)
    (gateway : Gateway) (i : Inputs) :
  (forall s, R s s) ->
  (forall s1 s2 s3, R s1 s2 -> R s2 s3 -> R s1 s3) ->
  step R (require_api_key (api_key i)) ->
  step R initialize_chat_history ->
  step R (chat_input gateway (theme i) (prompt i)) ->
  (clear_pressed i = true -> step R clear_chat_history) ->
  step R (script gateway i).
Proof.
  intros Hr Ht Hkey Hinit Hchat Hclear. unfold script.
  apply step_bind; auto. intros _.
  apply step_bind; auto. intros _.
  apply step_bind; auto.
  { apply step_unchanged; auto. apply display_chat_history_unchanged. }
  intros _.
  apply step_bind; auto. intros _.
  apply step_bind; auto.
  { destruct (clear_pressed i); [now apply Hclear | now apply step_unchanged]. }
  intros _.
  destruct (canvas_mode i); [|now apply step_unchanged].
  apply step_unchanged; auto. apply canvas_unchanged.
Qed.

Lemma step_grows_keeps {A} (c : M A) :
  step grows_by_turns c -> step (keeps conversation) c.
Proof.
  intros H w Hw. eapply grows_keeps_conversation; [apply H | exact Hw].
Qed.

Lemma script_keeps_conversation (gateway : Gateway) (i : Inputs) :
  step (keeps conversation) (script gateway i).
Proof.
  apply script_step_by.
  - apply keeps_refl.
  - apply keeps_trans.
  - apply step_grows_keeps, require_api_key_grows.
  - apply step_grows_keeps, initialize_grows.
  - apply step_grows_keeps, chat_input_grows.
  - intros _. apply clear_keeps_conversation.
Qed.

(** X10.  In every session state that interactions lead to, the log,
    once it exists, is the system message followed by whole turns: each
    turn is a user message with a non-empty prompt, alone or directly
    followed by one assistant message.  So an assistant message always
    directly follows the user message it answers. *)
Theorem X10_log_is_made_of_turns (surface : Surface) (s : SessionState) :
  reachable surface s ->
  messages s = None \/
  exists rest, messages s = Some (system_preamble :: rest) /\ turns rest.
Proof.
  intros Hs. induction Hs as [|gateway i s Hs IH]; [now left|].
  revert IH. fold (conversation s).
  fold (conversation (fst (interaction surface gateway i s))).
  apply (@interaction_session (keeps conversation) surface gateway i s).
  - apply keeps_trans.
  - apply script_keeps_conversation.
  - apply script_keeps_conversation.
Qed.

(** X10, an instance: the state after a first run and a failed turn. *)
Lemma X10_witness :
  let i := {| theme := DayMode; api_key := py "gsk";
              prompt := Some (py "hi"); clear_pressed := false;
              canvas_mode := false; categories := []; amounts := [] |} in
  let s := fst (interaction streamlit_page (always ConnectionFailed) i fresh) in
  messages s = None \/
  exists rest, messages s = Some (system_preamble :: rest) /\ turns rest.
Proof.
  cbv zeta. apply (@X10_log_is_made_of_turns streamlit_page).
  apply reachable_next. apply reachable_fresh.
Defined.

(* ===================================================================== *)
(** ** Further properties of the manual chart *)
(* ===================================================================== *)

Lemma truthy_nonempty (s : str) : Str.truthy s = true <-> s <> [].
Proof. destruct s; simpl; split; congruence. Qed.

Lemma canvas_draws (categories amounts : str) :
  exists extra,
    draws (canvas categories amounts) (Ok tt) extra /\
    canvas_outcome categories amounts extra.
Proof.
  destruct categories as [|c cs].
  { exists []. split; [|constructor; now left].
    intros w. now rewrite shown_nil. }
  destruct amounts as [|a az].
  { exists []. split; [|constructor; now right].
    intros w. now rewrite shown_nil. }
  destruct (Float.of_strs (fields (a :: az))) as [xs|e] eqn:Hx.
  - destruct (Nat.eq_dec (length (fields (c :: cs)))
                (length (fields (a :: az)))) as [Heq | Hne].
    + exists [custom_chart (fields (c :: cs)) xs]. split.
      * intros w. now apply canvas_chart.
      * apply canvas_drawn; try discriminate; [assumption|].
        now rewrite (of_strs_length _ Hx).
    + exists [Error ErrorCountMismatch]. split.
      * intros w. now apply canvas_count_mismatch with (xs := xs).
      * now apply canvas_counts_differ with (xs := xs).
  - pose proof (of_strs_ValueError _ Hx) as ->.
    exists [Error (ErrorNotNumeric ValueError)]. split.
    + intros w. now apply canvas_not_numeric.
    + now apply canvas_not_a_number.
Qed.

Lemma canvas_run (categories amounts : str) (w : world) :
  canvas categories amounts w
  = (Ok tt, shown w (canvas_output categories amounts)).
Proof.
  destruct (canvas_draws categories amounts) as (extra & Hd & _).
  unfold canvas_output. now rewrite !Hd.
Qed.

(** X11.  The manual path never raises and adds at most one thing to
    the page, the same in every world: nothing, exactly when one of the
    two texts is empty; otherwise the error about the amounts, the
    error about the counts, or one chart with as many amounts as
    categories.  The session state is left as it was. *)
Theorem X11_manual_path_outcomes (categories amounts : str) (w : world) :
  exists extra,
    canvas categories amounts w = (Ok tt, shown w extra) /\
    canvas_outcome categories amounts extra /\
    length extra <= 1 /\
    (extra = [] <-> categories = [] \/ amounts = []).
Proof.
  destruct (canvas_draws categories amounts) as (extra & Hd & Hc).
  exists extra. split; [apply Hd|]. split; [exact Hc|].
  destruct Hc; simpl; (split; [lia|]); split; try discriminate;
    try tauto; intros [H' | H']; contradiction.
Qed.

Lemma of_strs_fails (l : list str) (s : str) :
  In s l -> Float.of_str s = Raise ValueError ->
  Float.of_strs l = Raise ValueError.
Proof.
  induction l as [|x r IH]; intros Hin Hs; [destruct Hin|]. simpl.
  destruct (Float.of_str x) as [v|e] eqn:Hx.
  - destruct Hin as [-> | Hin]; [congruence|].
    now rewrite (IH Hin Hs).
  - now rewrite (of_str_ValueError _ Hx).
Qed.

Lemma split_from_trailing (sep : char) (s field : str) :
  Str.split_from sep (s ++ [sep]) field
  = Str.split_from sep s field ++ [[]].
Proof.
  revert field; induction s as [|c r IH]; intros field; simpl.
  - now rewrite N.eqb_refl.
  - destruct (N.eqb c sep); [now rewrite IH | apply IH].
Qed.

Lemma split_from_count (sep : char) (s field : str) :
  length (Str.split_from sep s field) = S (count_occ N.eq_dec s sep).
Proof.
  revert field; induction s as [|c r IH]; intros field; simpl;
    [reflexivity|].
  destruct (N.eqb_spec c sep) as [->|Hne].
  - destruct (N.eq_dec sep sep); [|congruence]. simpl. now rewrite IH.
  - destruct (N.eq_dec c sep); [congruence|]. apply IH.
Qed.

Lemma fields_count (text : str) :
  length (fields text) = S (count_occ N.eq_dec text comma).
Proof. unfold fields, Str.split. now rewrite length_map, split_from_count. Qed.

(** X12.  An empty amount is not a number: when both texts are
    non-empty and some field of the amounts is empty or blank -- as
    after a comma at the end of the text, or between two commas -- the
    error about the amounts is shown and no chart, whatever the other
    amounts and the categories are. *)
Theorem X12_empty_amount_is_reported (categories amounts : str) (w : world) :
  Str.truthy categories = true ->
  (forall field,
     Str.truthy amounts = true ->
     In field (Str.split amounts comma) -> Str.strip field = [] ->
     canvas categories amounts w
     = (Ok tt, shown w [Error (ErrorNotNumeric ValueError)])) /\
  canvas categories (amounts ++ [comma]) w
  = (Ok tt, shown w [Error (ErrorNotNumeric ValueError)]).
Proof.
  intros Hc.
  assert (Hgen : forall a field,
            Str.truthy a = true ->
            In field (Str.split a comma) -> Str.strip field = [] ->
            canvas categories a w
            = (Ok tt, shown w [Error (ErrorNotNumeric ValueError)])).
  { intros a field Ha Hin Hstrip. apply canvas_not_numeric; auto.
    apply of_strs_fails with (s := []); [|reflexivity].
    unfold fields. rewrite <- Hstrip. now apply in_map. }
  split; [intros field; apply Hgen|].
  apply Hgen with (field := []); [| |reflexivity].
  - destruct amounts; reflexivity.
  - unfold Str.split. rewrite split_from_trailing.
    apply in_or_app. right. now left.
Qed.

(** X12, an instance: a comma after the last amount. *)
Lemma X12_witness :
  canvas (py "Rent,Food") (py "500,300,") world0
  = (Ok tt, shown world0 [Error (ErrorNotNumeric ValueError)]).
Proof.
  apply (proj2 (@X12_empty_amount_is_reported (py "Rent,Food")
                  (py "500,300") world0 eq_refl)).
Defined.

(** X13.  When both texts are non-empty and every amount is a number,
    what decides between the chart and the count error is the number
    of commas: the chart is drawn exactly when the two texts hold the
    same number of commas. *)
Theorem X13_commas_decide (categories amounts : str) (w : world)
    (xs : list pyfloat) :
  Str.truthy categories = true -> Str.truthy amounts = true ->
  Float.of_strs (fields amounts) = Ok xs ->
  canvas categories amounts w
  = (Ok tt,
     shown w
       [if Nat.eqb (count_occ N.eq_dec categories comma)
                   (count_occ N.eq_dec amounts comma)
        then custom_chart (fields categories) xs
        else Error ErrorCountMismatch]).
Proof.
  intros Hc Ha Hx.
  destruct (Nat.eqb_spec (count_occ N.eq_dec categories comma)
              (count_occ N.eq_dec amounts comma)) as [Heq | Hne].
  - apply canvas_chart; auto. now rewrite !fields_count, Heq.
  - apply canvas_count_mismatch with (xs := xs); auto.
    rewrite !fields_count. congruence.
Qed.

(** X13, an instance: one category with a comma missing. *)
Lemma X13_witness :
  canvas (py "Rent Food, Fun") (py "500, 300, 20") world0
  = (Ok tt, shown world0 [Error ErrorCountMismatch]).
Proof.
  apply (@X13_commas_decide (py "Rent Food, Fun") (py "500, 300, 20") world0
           [FDec false 500 0; FDec false 300 0; FDec false 20 0]);
    reflexivity.
Defined.

(* ===================================================================== *)
(** ** Further properties of whole runs *)
(* ===================================================================== *)

Lemma require_api_key_run (k : str) (w : world) :
  Str.truthy k = true ->
  require_api_key k w
  = (Ok tt, {| session := {| messages := messages (session w);
                             groq_client_api_key := Some k |};
               page := page w; surface := surface w |}).
Proof. intros Hk. unfold require_api_key. now rewrite Hk. Qed.

Lemma initialize_run (w : world) :
  initialize_chat_history w
  = (Ok tt, {| session := {| messages := Some (log_of (session w));
                             groq_client_api_key :=
                               groq_client_api_key (session w) |};
               page := page w; surface := surface w |}).
Proof.
  unfold initialize_chat_history, log_of, bind, get_session.
  destruct w as [[m k] pg]. simpl. now destruct m.
Qed.

Lemma chat_input_no_prompt (gateway : Gateway) (theme : Theme)
    (p : option str) (w : world) :
  no_prompt p = true -> chat_input gateway theme p w = (Ok tt, w).
Proof. destruct p as [[|c p]|]; [reflexivity | discriminate | reflexivity]. Qed.

Lemma display_chat_history_opened (theme : Theme) (w : world)
    (l : list Message) :
  messages (session w) = Some l ->
  display_chat_history theme w
  = (Ok tt, snd (display_messages theme (skipn 1 l) w)).
Proof.
  intros Hl.
  destruct (display_messages_run theme (skipn 1 l) w) as (out & Hrun & _).
  unfold display_chat_history, get_messages, bind, get_session.
  rewrite Hl. cbv beta iota. now rewrite Hrun.
Qed.

(** The history, once drawn: messages and charts, no request. *)
Lemma opened_shown (i : Inputs) (w : world) :
  exists out,
    opened i w
    = shown {| session := {| messages := Some (log_of (session w));
                             groq_client_api_key := Some (api_key i) |};
               page := page w; surface := surface w |} out /\
    history_of (skipn 1 (log_of (session w))) out /\
    forallb (fun x => negb (is_post x)) out = true.
Proof.
  unfold opened.
  match goal with
  | |- context [display_messages ?t ?l ?w0] =>
      destruct (display_messages_run t l w0) as (out & -> & Hh & Hn)
  end.
  now exists out.
Qed.

Lemma history_page_history (sf : Surface) (theme : Theme)
    (l : list Message) :
  history_of l (history_page sf theme l) /\
  forallb (fun x => negb (is_post x)) (history_page sf theme l) = true.
Proof.
  unfold history_page.
  destruct (display_messages_run theme l (blank sf fresh))
    as (out & -> & Hh & Hn).
  now split.
Qed.

(** On the empty page of a new run the history is [history_page]. *)
Lemma opened_blank (sf : Surface) (i : Inputs) (s : SessionState) :
  opened i (blank sf s)
  = {| session := {| messages := Some (log_of s);
                     groq_client_api_key := Some (api_key i) |};
       page := history_page sf (theme i) (skipn 1 (log_of s));
       surface := sf |}.
Proof.
  unfold opened, blank. cbn [session page surface].
  rewrite display_messages_start by reflexivity. reflexivity.
Qed.

Lemma script_opening (gateway : Gateway) (i : Inputs) (w : world) :
  Str.truthy (api_key i) = true ->
  script gateway i w
  = (chat_input gateway (theme i) (prompt i) ;;
     (if clear_pressed i then clear_chat_history else ret tt) ;;
     (if canvas_mode i then canvas (categories i) (amounts i) else ret tt))
      (opened i w).
Proof.
  intros Hk. unfold script.
  unfold bind at 1. rewrite require_api_key_run by assumption.
  unfold bind at 1. rewrite initialize_run.
  unfold bind at 1.
  erewrite display_chat_history_opened by (simpl; reflexivity).
  reflexivity.
Qed.

Lemma canvas_part_run (i : Inputs) (w : world) :
  (if canvas_mode i then canvas (categories i) (amounts i) else ret tt) w
  = (Ok tt, shown w (canvas_part i)).
Proof.
  unfold canvas_part. destruct (canvas_mode i).
  - apply canvas_run.
  - unfold ret. now rewrite shown_nil.
Qed.

Lemma script_idle (gateway : Gateway) (i : Inputs) (w : world) :
  Str.truthy (api_key i) = true ->
  no_prompt (prompt i) = true ->
  clear_pressed i = false ->
  script gateway i w = (Ok tt, shown (opened i w) (canvas_part i)).
Proof.
  intros Hk Hp Hc. rewrite script_opening by assumption.
  unfold bind at 1. rewrite chat_input_no_prompt by assumption.
  rewrite Hc. unfold bind at 1, ret at 1. apply canvas_part_run.
Qed.

(** A run in which the button is pressed, on a log that is not empty. *)
Lemma script_clear (gateway : Gateway) (i : Inputs) (w : world)
    (first : Message) (rest : list Message) :
  Str.truthy (api_key i) = true ->
  clear_pressed i = true ->
  log_of (session w) = first :: rest ->
  exists w',
    script gateway i w = (Raise RerunException, w') /\
    session w' = {| messages := Some [first];
                    groq_client_api_key := Some (api_key i) |}.
Proof.
  intros Hk Hc Hlog. rewrite script_opening by assumption.
  unfold bind at 1.
  destruct (opened_shown i w) as (out & Ho & _).
  destruct (chat_input_log gateway (theme i) (prompt i) (opened i w)
              (l := first :: rest))
    as (Hok & Hkey & Hadd).
  { rewrite Ho. simpl. now rewrite Hlog. }
  destruct (chat_input gateway (theme i) (prompt i) (opened i w))
    as [o w2] eqn:Hrun.
  cbn [fst snd] in Hok, Hkey, Hadd. subst o. rewrite Hc.
  assert (Hm : exists rest', messages (session w2) = Some (first :: rest')).
  { destruct (prompt i) as [[|c p]|].
    - subst w2. rewrite Ho. simpl. rewrite Hlog. now exists rest.
    - destruct Hadd as [-> | (reply & ->)]; eexists; reflexivity.
    - subst w2. rewrite Ho. simpl. rewrite Hlog. now exists rest. }
  destruct Hm as (rest' & Hm).
  unfold bind at 1. erewrite clear_run by eassumption.
  eexists. split; [reflexivity|].
  cbn [session]. rewrite Hkey, Ho. reflexivity.
Qed.

Lemma idle_at_rest (i : Inputs) :
  no_prompt (prompt (at_rest i)) = true /\
  clear_pressed (at_rest i) = false /\
  api_key (at_rest i) = api_key i /\
  canvas_part (at_rest i) = canvas_part i /\
  theme (at_rest i) = theme i.
Proof. repeat split. Qed.

(** X14.  Without a key in the sidebar a run stops at once: the
    session state is left as it was (no log is created, the stored key
    is kept), and the page shows the request for a key and nothing
    else, whatever else was submitted. *)
Theorem X14_no_key_no_run (sf : Surface) (gateway : Gateway) (i : Inputs)
    (s : SessionState) :
  api_key i = [] ->
  interaction sf gateway i s = (s, [Info]).
Proof.
  intros Hk. unfold interaction, script, bind at 1, require_api_key.
  rewrite Hk. reflexivity.
Qed.

(** X14, an instance: a prompt submitted without a key. *)
Lemma X14_witness :
  interaction streamlit_page (always ConnectionFailed)
    {| theme := DayMode; api_key := []; prompt := Some (py "hi");
       clear_pressed := true; canvas_mode := true;
       categories := py "Rent"; amounts := py "500" |}
    session0
  = (session0, [Info]).
Proof. apply X14_no_key_no_run. reflexivity. Defined.



(** X16.  A run with a key in which the button is pressed, on a session
    without a log or with a log that starts with the system message:
    whatever else is submitted in that run, the log ends up as the
    system message alone, the history is empty, and the page that
    remains shows no message, only the manual chart if its box is
    ticked. *)
Theorem X16_clear_run (sf : Surface) (gateway : Gateway) (i : Inputs)
    (s : SessionState) :
  Str.truthy (api_key i) = true ->
  clear_pressed i = true ->
  messages s = None \/ log_ok s ->
  interaction sf gateway i s
  = ({| messages := Some [system_preamble];
        groq_client_api_key := Some (api_key i) |},
     canvas_part i) /\
  history (fst (interaction sf gateway i s)) = [].
Proof.
  intros Hk Hc Hs.
  assert (Hlog : exists rest, log_of s = system_preamble :: rest).
  { unfold log_of. destruct Hs as [-> | (rest & -> & _)]; eauto. }
  destruct Hlog as (rest & Hlog).
  assert (Hrun : interaction sf gateway i s
                 = ({| messages := Some [system_preamble];
                       groq_client_api_key := Some (api_key i) |},
                    canvas_part i)).
  { unfold interaction.
    destruct (script_clear gateway i (blank sf s) Hk Hc Hlog)
      as (w' & Hfirst & Hsession).
    rewrite Hfirst, Hsession.
    destruct (idle_at_rest i) as (Hp' & Hc' & Hk' & Hcv & Ht).
    rewrite script_idle by (rewrite ?Hk'; assumption).
    rewrite Hcv, opened_blank. reflexivity. }
  split; [exact Hrun | now rewrite Hrun].
Qed.

(** X16, an instance: the button pressed in the very first run. *)
Lemma X16_witness :
  interaction streamlit_page (always ConnectionFailed)
    {| theme := DayMode; api_key := py "gsk"; prompt := Some (py "hi");
       clear_pressed := true; canvas_mode := false;
       categories := []; amounts := [] |} fresh
  = ({| messages := Some [system_preamble];
        groq_client_api_key := Some (py "gsk") |}, []) /\
  history (fst (interaction streamlit_page (always ConnectionFailed)
    {| theme := DayMode; api_key := py "gsk"; prompt := Some (py "hi");
       clear_pressed := true; canvas_mode := false;
       categories := []; amounts := [] |} fresh)) = [].
Proof.
  apply X16_clear_run; [reflexivity | reflexivity | now left].
Defined.

Lemma canvas_output_no_post (categories amounts : str) :
  forallb (fun x => negb (is_post x)) (canvas_output categories amounts)
  = true /\
  forallb (fun x => negb (is_chat_message x))
    (canvas_output categories amounts) = true.
Proof.
  destruct (canvas_draws categories amounts) as (extra & Hd & Hc).
  unfold canvas_output. rewrite Hd. simpl. destruct Hc; split; reflexivity.
Qed.

Lemma canvas_part_no_post (i : Inputs) :
  forallb (fun x => negb (is_post x)) (canvas_part i) = true.
Proof.
  unfold canvas_part. destruct (canvas_mode i); [|reflexivity].
  apply canvas_output_no_post.
Qed.

Lemma clear_page (w : world) : page (snd (clear_chat_history w)) = page w.
Proof.
  unfold clear_chat_history, get_messages, set_messages, bind, get_session,
    put_session, raise, ret.
  destruct (messages (session w)) as [[|first rest]|]; reflexivity.
Qed.

(** The end of a run, after the chat handler: the button and the manual
    chart add no request to the page. *)
Lemma script_end_page (i : Inputs) (w : world) :
  exists extra,
    page (snd (((if clear_pressed i then clear_chat_history else ret tt) ;;
                (if canvas_mode i then canvas (categories i) (amounts i)
                 else ret tt)) w))
    = page w ++ extra /\
    forallb (fun x => negb (is_post x)) extra = true.
Proof.
  unfold bind. destruct (clear_pressed i).
  - exists []. split; [|reflexivity]. rewrite app_nil_r.
    pose proof (clear_page w) as Hp.
    destruct (clear_chat_history w) as [[[]|e] w1] eqn:E; simpl in *.
    + exfalso. revert E.
      unfold clear_chat_history, get_messages, set_messages, bind,
        get_session, put_session, raise, ret.
      destruct (messages (session w)) as [[|first rest]|]; discriminate.
    + exact Hp.
  - unfold ret at 1. exists (canvas_part i). split.
    + now rewrite canvas_part_run.
    + apply canvas_part_no_post.
Qed.

(** A run without a prompt adds no request to the page, whatever the
    world it starts in. *)
Lemma script_quiet (gateway : Gateway) (i : Inputs) (w : world) :
  no_prompt (prompt i) = true ->
  exists extra,
    page (snd (script gateway i w)) = page w ++ extra /\
    forallb (fun x => negb (is_post x)) extra = true.
Proof.
  intros Hp.
  assert (Hcases : api_key i = [] \/ Str.truthy (api_key i) = true)
    by (destruct (api_key i); [now left | now right]).
  destruct Hcases as [Hk|Hkey].
  { exists [Info]. split; [|reflexivity].
    unfold script, bind at 1, require_api_key. rewrite Hk. reflexivity. }
  rewrite script_opening by assumption.
  unfold bind at 1. rewrite chat_input_no_prompt by assumption.
  destruct (script_end_page i (opened i w)) as (extra & Hpage & Hextra).
  destruct (opened_shown i w) as (out & Ho & _ & Hout).
  exists (out ++ extra). split.
  - unfold bind in Hpage. unfold bind. rewrite Hpage, Ho.
    unfold shown. cbn [page]. now rewrite app_assoc.
  - now rewrite forallb_app, Hout, Hextra.
Qed.

(** X17.  Only a submitted, non-empty prompt makes the script call the
    gateway.  A run without one adds no request to the page, whatever
    the session state, the page it starts on and the other widgets
    (key or no key, the button, the manual chart, a history with charts
    to redraw); nor does the rerun that the button causes; and the
    page that such an interaction leaves holds no request. *)
Theorem X17_no_prompt_no_request (sf : Surface) (gateway : Gateway)
    (i : Inputs) (s : SessionState) :
  no_prompt (prompt i) = true ->
  (forall w, exists extra,
     page (snd (script gateway i w)) = page w ++ extra /\
     forallb (fun x => negb (is_post x)) extra = true) /\
  (forall w, exists extra,
     page (snd (script gateway (at_rest i) w)) = page w ++ extra /\
     forallb (fun x => negb (is_post x)) extra = true) /\
  forallb (fun x => negb (is_post x)) (snd (interaction sf gateway i s))
  = true.
Proof.
  intros Hp.
  split; [intros w; now apply script_quiet|].
  split; [intros w; now apply script_quiet|].
  unfold interaction.
  destruct (script_quiet gateway i (blank sf s) Hp) as (e1 & H1 & Hn1).
  destruct (script gateway i (blank sf s)) as [o w1] eqn:E.
  cbn [snd blank page app] in H1. rewrite <- H1 in Hn1.
  destruct (script_quiet gateway (at_rest i) (blank sf (session w1)) eq_refl)
    as (e2 & H2 & Hn2).
  cbn [blank page app] in H2. rewrite <- H2 in Hn2.
  destruct o as [[]|e]; [exact Hn1|].
  destruct e; try exact Hn1. exact Hn2.
Qed.

(** X17, an instance: the button pressed on a session with a chart in
    its history. *)
Lemma X17_witness :
  forallb (fun x => negb (is_post x))
    (snd (interaction streamlit_page (always ConnectionFailed)
            {| theme := DayMode; api_key := py "gsk"; prompt := Some [];
               clear_pressed := true; canvas_mode := true;
               categories := py "Rent"; amounts := py "500" |}
            session0))
  = true.
Proof.
  apply (proj2 (proj2 (@X17_no_prompt_no_request streamlit_page
                         (always ConnectionFailed)
                         {| theme := DayMode; api_key := py "gsk";
                            prompt := Some []; clear_pressed := true;
                            canvas_mode := true; categories := py "Rent";
                            amounts := py "500" |}
                         session0 eq_refl))).
Defined.

(** A turn, in full: the session state and the page it leaves. *)
Lemma chat_input_turn (gateway : Gateway) (theme : Theme) (p : str)
    (w : world) (l : list Message) (key : str) :
  Str.truthy p = true ->
  messages (session w) = Some l ->
  groq_client_api_key (session w) = Some key ->
  exists added rest,
    chat_input gateway theme (Some p) w
    = (Ok tt,
       {| session := {| messages := Some (l ++ added);
                        groq_client_api_key := Some key |};
          page := page w ++
                  [ChatMessage User; Markdown (PyStr p);
                   ChatMessage Assistant;
                   Post (completion_request key (l ++ [user_message p]))]
                  ++ rest;
          surface := surface w |}) /\
    forallb (fun x => negb (is_post x)) rest = true /\
    (added = [user_message p] \/
     exists reply, added = [user_message p; assistant_message reply]).
Proof.
  intros Hp Hl Hk.
  destruct (reply_cases
              (gateway (completion_request key (l ++ [user_message p]))))
    as [Hfail | (body & data & reply & Hg & Hd & Hc)].
  - destruct (chat_input_failure gateway theme p w Hp Hl Hk Hfail)
      as (msg & ->).
    exists [user_message p], [Error msg]. split; [|split].
    + unfold shown, awaiting. cbn [page session surface]. f_equal. f_equal.
      now rewrite <- app_assoc.
    + reflexivity.
    + now left.
  - destruct (surface w (drawn (page (awaiting w l key p))) (Markdown reply))
      as [r|] eqn:Hs.
    + rewrite (@chat_input_refused gateway theme p w l key body data reply r
                 Hp Hl Hk Hg Hd Hc Hs).
      exists [user_message p], [Error (ErrorException (raised r))].
      split; [|split].
      * unfold shown, awaiting. cbn [page session surface]. f_equal. f_equal.
        now rewrite <- app_assoc.
      * reflexivity.
      * now left.
    + destruct (@chat_input_success gateway theme p w l key body data reply
                  Hp Hl Hk Hg Hd Hc (conj Hs I))
        as (b & extra & _ & Hchart & ->).
      exists [user_message p; assistant_message reply],
             (Markdown reply :: extra).
      split; [|split].
      * unfold awaiting. cbn [page session surface]. f_equal. f_equal.
        now rewrite <- app_assoc.
      * simpl. apply (chart_outcome_no_post Hchart).
      * right. now exists reply.
Qed.

(** A run with a key and a prompt, the button not pressed: the history,
    the chat handler, the manual chart. *)
Lemma run_with_prompt (sf : Surface) (gateway : Gateway) (i : Inputs)
    (s : SessionState) (p : str) (w1 : world) :
  Str.truthy (api_key i) = true ->
  prompt i = Some p ->
  clear_pressed i = false ->
  chat_input gateway (theme i) (Some p) (opened i (blank sf s))
  = (Ok tt, w1) ->
  interaction sf gateway i s = (session w1, page w1 ++ canvas_part i).
Proof.
  intros Hk Hprompt Hc Hrun.
  unfold interaction. rewrite script_opening by assumption.
  unfold bind at 1. rewrite Hprompt, Hrun, Hc.
  unfold bind at 1, ret at 1. rewrite canvas_part_run. reflexivity.
Qed.

(** X18.  A run with a key in which a non-empty prompt is submitted
    and the button is not pressed.  The page shows the history as the
    history display draws it for the log before the turn, then the
    user's message, then the one request -- made with the key typed in
    this run and carrying the whole log with the new message last --
    then what the reply brings, then the manual chart if its box is
    ticked.  The log gains the user's message, alone or followed by the
    assistant's. *)
Theorem X18_run_with_a_prompt (sf : Surface) (gateway : Gateway)
    (i : Inputs) (s : SessionState) (p : str) :
  Str.truthy (api_key i) = true ->
  prompt i = Some p -> Str.truthy p = true ->
  clear_pressed i = false ->
  exists added rest,
    interaction sf gateway i s
    = ({| messages := Some (log_of s ++ added);
          groq_client_api_key := Some (api_key i) |},
       history_page sf (theme i) (skipn 1 (log_of s)) ++
       [ChatMessage User; Markdown (PyStr p); ChatMessage Assistant;
        Post (completion_request (api_key i)
                (log_of s ++ [user_message p]))] ++
       rest ++ canvas_part i) /\
    history_of (skipn 1 (log_of s))
      (history_page sf (theme i) (skipn 1 (log_of s))) /\
    forallb (fun x => negb (is_post x)) rest = true /\
    (added = [user_message p] \/
     exists reply, added = [user_message p; assistant_message reply]).
Proof.
  intros Hk Hprompt Hp Hc.
  destruct (chat_input_turn gateway (theme i) p (opened i (blank sf s))
              (l := log_of s) (key := api_key i) Hp)
    as (added & rest & Hrun & Hrest & Hadded).
  { now rewrite opened_blank. }
  { now rewrite opened_blank. }
  exists added, rest. split; [|split; [apply history_page_history|now split]].
  rewrite (run_with_prompt sf gateway i s Hk Hprompt Hc Hrun).
  rewrite opened_blank. cbn [session page].
  f_equal. now rewrite <- !app_assoc.
Qed.

(** X18, an instance: a first prompt, with the gateway out of reach. *)
Lemma X18_witness :
  let i := {| theme := DayMode; api_key := py "gsk";
              prompt := Some (py "hi"); clear_pressed := false;
              canvas_mode := false; categories := []; amounts := [] |} in
  exists added rest,
    interaction streamlit_page (always ConnectionFailed) i fresh
    = ({| messages := Some (log_of fresh ++ added);
          groq_client_api_key := Some (py "gsk") |},
       history_page streamlit_page DayMode (skipn 1 (log_of fresh)) ++
       [ChatMessage User; Markdown (PyStr (py "hi")); ChatMessage Assistant;
        Post (completion_request (py "gsk")
                (log_of fresh ++ [user_message (py "hi")]))] ++
       rest ++ canvas_part i) /\
    history_of (skipn 1 (log_of fresh))
      (history_page streamlit_page DayMode (skipn 1 (log_of fresh))) /\
    forallb (fun x => negb (is_post x)) rest = true /\
    (added = [user_message (py "hi")] \/
     exists reply, added = [user_message (py "hi"); assistant_message reply]).
Proof.
  cbv zeta.
  apply (@X18_run_with_a_prompt streamlit_page (always ConnectionFailed)
           {| theme := DayMode; api_key := py "gsk";
              prompt := Some (py "hi"); clear_pressed := false;
              canvas_mode := false; categories := []; amounts := [] |}
           fresh (py "hi")); reflexivity.
Defined.

(* ===================================================================== *)
(** ** The decoder does not read past the end of a value *)
(* ===================================================================== *)

Module JsonSuffix.

Import Json JsonParts.

Lemma match_number_parts (s : str) :
  match_number s =
  let (neg, s1) := sign_part s in
  match s1 with
  | [] => Invalid
  | d :: r =>
      if is_digit d then
        let (ip, s2) := int_part d r in
        let (fp, s3) := frac_part s2 in
        let (ex, s4) := exp_part s3 in
        Scanned (number_of neg ip fp ex) s4
      else Invalid
  end.
Proof.
  unfold match_number, sign_part, int_part, frac_part, exp_part, exp_sign, number_of.
  destruct s as [|c s']; [reflexivity|].
  destruct (c =? 45)%N.
  - destruct s' as [|d r]; [reflexivity|].
    destruct (is_digit d); [|reflexivity].
    destruct (if (d =? 48)%N then _ else _) as [ip s2].
    destruct (match s2 with [] => _ | _ => _ end) as [fp s3].
    destruct (match s3 with [] => _ | _ => _ end) as [ex s4].
    destruct fp, ex; reflexivity.
  - destruct (is_digit c); [|reflexivity].
    destruct (if (c =? 48)%N then _ else _) as [ip s2].
    destruct (match s2 with [] => _ | _ => _ end) as [fp s3].
    destruct (match s3 with [] => _ | _ => _ end) as [ex s4].
    destruct fp, ex; reflexivity.
Qed.

Lemma span_digits_suffix (x ds r t : str) (c0 : char) :
  span_digits x = (ds, c0 :: r) ->
  span_digits (x ++ t) = (ds, (c0 :: r) ++ t).
Proof.
  revert ds; induction x as [|c x IH]; intros ds; simpl.
  - discriminate.
  - destruct (is_digit c).
    + destruct (span_digits x) as [ds' r''] eqn:E.
      intros [= <- Hr]. subst r''. now rewrite (IH _ eq_refl).
    + intros [= <- -> ->]. reflexivity.
Qed.

Lemma stop_chars c : is_stop c = true ->
  (c =? 46)%N = false /\ (c =? 101)%N = false /\ (c =? 69)%N = false /\
  (c =? 34)%N = false /\ is_digit c = false.
Proof.
  unfold is_stop, is_ws, is_digit.
  destruct (N.eqb_spec c 32), (N.eqb_spec c 9), (N.eqb_spec c 10),
    (N.eqb_spec c 13), (N.eqb_spec c 44), (N.eqb_spec c 93),
    (N.eqb_spec c 125); subst; try (repeat split; reflexivity); discriminate.
Qed.

Lemma int_part_suffix d r ip c2 r2 t :
  int_part d r = (ip, c2 :: r2) ->
  int_part d (r ++ t) = (ip, (c2 :: r2) ++ t).
Proof.
  unfold int_part. destruct (d =? 48)%N.
  - now intros [= <- ->].
  - destruct (span_digits r) as [ds r'] eqn:E. intros [= <- ->].
    now erewrite span_digits_suffix by eassumption.
Qed.

Lemma frac_part_suffix s2 fp c3 r3 t :
  frac_part s2 = (fp, c3 :: r3) -> (c3 =? 46)%N = false ->
  frac_part (s2 ++ t) = (fp, (c3 :: r3) ++ t).
Proof.
  unfold frac_part. destruct s2 as [|c r2]; [discriminate|]. cbn [app].
  destruct (c =? 46)%N eqn:Hc.
  - destruct (span_digits r2) as [[|f fs] r'] eqn:E.
    + intros [= <- -> ->]. congruence.
    + intros [= <- ->] _. now erewrite span_digits_suffix by eassumption.
  - now intros [= <- -> ->].
Qed.

Lemma exp_part_suffix s3 ex c0 r' t :
  exp_part s3 = (ex, c0 :: r') -> is_stop c0 = true ->
  exp_part (s3 ++ t) = (ex, (c0 :: r') ++ t) /\
  exists c3 r3, s3 = c3 :: r3 /\ (c3 =? 46)%N = false.
Proof.
  intros H Hstop.
  destruct (stop_chars c0 Hstop) as (Hdot & He & HE & _ & _).
  unfold exp_part in *. destruct s3 as [|c r3]; [discriminate|]. cbn [app].
  destruct ((c =? 101) || (c =? 69))%N eqn:Hc.
  - destruct (exp_sign r3) as [eneg r4] eqn:Es.
    destruct (span_digits r4) as [[|e es] r5] eqn:E.
    + injection H as <- -> ->. rewrite He, HE in Hc. discriminate.
    + injection H as <- ->.
      assert (Hs : exp_sign (r3 ++ t) = (eneg, r4 ++ t)).
      { unfold exp_sign in *. destruct r3 as [|g r3'].
        - injection Es as <- <-. discriminate.
        - cbn [app]. destruct (g =? 45)%N; [now injection Es as <- <-|].
          destruct (g =? 43)%N; now injection Es as <- <-. }
      rewrite Hs. erewrite span_digits_suffix by eassumption. split; [reflexivity|].
      exists c, r3. split; [reflexivity|].
      destruct (N.eqb_spec c 46); [subst; discriminate | reflexivity].
  - injection H as <- -> ->. split; [reflexivity|].
    exists c0, r'. now split.
Qed.

Lemma match_number_suffix (s r t : str) (v : pyobj) :
  match_number s = Scanned v r -> head_stop r ->
  match_number (s ++ t) = Scanned v (r ++ t).
Proof.
  rewrite !match_number_parts. intros H Hstop.
  destruct r as [|c0 r']; [destruct Hstop|]. simpl in Hstop.
  destruct (sign_part s) as [neg s1] eqn:E1.
  destruct s1 as [|d r]; [discriminate|].
  assert (Hs : sign_part (s ++ t) = (neg, (d :: r) ++ t)).
  { unfold sign_part in *. destruct s as [|c s']; [discriminate|].
    cbn [app] in *.
    destruct (c =? 45)%N eqn:Hc; inversion E1; subst; reflexivity. }
  rewrite Hs. cbn [app].
  destruct (is_digit d); [|discriminate].
  destruct (int_part d r) as [ip s2] eqn:E2.
  destruct (frac_part s2) as [fp s3] eqn:E3.
  destruct (exp_part s3) as [ex s4] eqn:E4.
  injection H as <- ->.
  destruct (@exp_part_suffix _ _ _ _ t E4 Hstop) as (H4 & c3 & r3 & -> & Hc3).
  pose proof (@frac_part_suffix _ _ _ _ t E3 Hc3) as H3.
  assert (exists c2 r2, s2 = c2 :: r2) as (c2 & r2 & ->).
  { destruct s2; [discriminate | eauto]. }
  rewrite (@int_part_suffix _ _ _ _ _ t E2), H3, H4. reflexivity.
Qed.

Lemma skip_ws_suffix (r t : str) (c : char) (r1 : str) :
  skip_ws r = c :: r1 -> skip_ws (r ++ t) = c :: r1 ++ t.
Proof.
  induction r as [|x r IH]; simpl; [discriminate|].
  destruct (is_ws x); [exact IH|]. now intros [= -> ->].
Qed.

Lemma skip_ws_blank (r t : str) :
  skip_ws r = [] -> skip_ws (r ++ t) = skip_ws t.
Proof.
  induction r as [|x r IH]; simpl; [reflexivity|].
  destruct (is_ws x); [exact IH | discriminate].
Qed.

Lemma skip_ws_stop (r : str) (c : char) (r1 : str) :
  skip_ws r = c :: r1 -> is_stop c = true -> head_stop r.
Proof.
  destruct r as [|x r]; simpl; [discriminate|].
  destruct (is_ws x) eqn:Hx.
  - intros _ _. unfold is_stop. now rewrite Hx.
  - now intros [= -> _].
Qed.

Lemma scanpieces_suffix (s t : str) :
  forall acc l r, scanpieces s acc = Scanned l r ->
  scanpieces (s ++ t) acc = Scanned l (r ++ t).
Proof.
  induction s as [s IH] using (well_founded_induction
                                 (Wf_nat.well_founded_ltof _ (@length char))).
  unfold Wf_nat.ltof in IH.
  intros acc l r'. destruct s as [|c r]; [discriminate|].
  cbn [app scanpieces].
  destruct (c =? 34)%N; [now intros [= <- <-]|].
  destruct (c =? 92)%N.
  - destruct r as [|e r1]; [discriminate|]. cbn [app].
    destruct (e =? 117)%N.
    + destruct r1 as [|h1 [|h2 [|h3 [|h4 r2]]]]; try discriminate.
      cbn [app]. destruct (hex4 h1 h2 h3 h4); [|discriminate].
      apply IH. simpl; lia.
    + destruct (unescape e); [|discriminate].
      apply IH. simpl; lia.
  - destruct (c <=? 31)%N; [discriminate|].
    apply IH. simpl; lia.
Qed.

Lemma scanstring_suffix (s t r : str) (k : str) :
  scanstring s = Scanned k r ->
  scanstring (s ++ t) = Scanned k (r ++ t).
Proof.
  unfold scanstring.
  destruct (scanpieces s []) as [l r'| |] eqn:E; try discriminate.
  intros [= <- <-]. now rewrite (scanpieces_suffix _ t _ E).
Qed.

Lemma drop_prefix_suffix (p s r t : str) :
  Str.drop_prefix p s = Some r -> Str.drop_prefix p (s ++ t) = Some (r ++ t).
Proof.
  revert s; induction p as [|x p IH]; intros s; simpl.
  - now intros [= <-].
  - destruct s as [|y s]; [discriminate|]. cbn [app].
    destruct (N.eqb x y); [apply IH | discriminate].
Qed.

Lemma drop_prefix_grows (p s t : str) :
  Str.drop_prefix p s = None -> length p <= length s ->
  Str.drop_prefix p (s ++ t) = None.
Proof.
  revert s; induction p as [|x p IH]; intros s; simpl.
  - discriminate.
  - destruct s as [|y s]; simpl; [lia|].
    destruct (N.eqb x y); [|reflexivity]. intros H Hl. apply IH; [exact H|lia].
Qed.

Ltac literal_texts :=
  repeat match goal with
  | |- context [py ?x] =>
      let y := eval vm_compute in (py x) in change (py x) with y
  | H : context [py ?x] |- _ =>
      let y := eval vm_compute in (py x) in change (py x) with y in H
  end.

Lemma drop_prefix_cons (x : char) (p : str) (c : char) (s : str) :
  Str.drop_prefix (x :: p) (c :: s)
  = if N.eqb x c then Str.drop_prefix p s else None.
Proof. reflexivity. Qed.

Ltac closed_tests :=
  repeat match goal with
  | |- context [N.eqb (N.pos ?a) (N.pos ?b)] =>
      let v := eval vm_compute in (N.eqb (N.pos a) (N.pos b)) in
      change (N.eqb (N.pos a) (N.pos b)) with v
  end; cbv iota.

Lemma match_constant_suffix (s t r : str) (v : pyobj) :
  match_constant s = Some (v, r) ->
  match_constant (s ++ t) = Some (v, r ++ t).
Proof.
  destruct s as [|c s']; [vm_compute; discriminate|].
  unfold match_constant. literal_texts. cbn [app].
  rewrite !drop_prefix_cons.
  repeat match goal with
  | |- context [N.eqb ?k c] =>
      destruct (N.eqb_spec k c) as [<-|_]; closed_tests
  end;
  repeat match goal with
  | |- context [Str.drop_prefix ?p s'] =>
      let E := fresh "E" in
      destruct (Str.drop_prefix p s') eqn:E;
      [rewrite (drop_prefix_suffix _ _ t E); now intros [= <- <-]
      | try discriminate]
  end.
  discriminate.
Qed.


Lemma number_not_constant (s t : str) (v : pyobj) (r : str) :
  match_number s = Scanned v r -> match_constant (s ++ t) = None.
Proof.
  rewrite match_number_parts. unfold sign_part.
  destruct s as [|c s']; [discriminate|].
  unfold match_constant. literal_texts. cbn [app].
  rewrite !drop_prefix_cons.
  destruct (N.eqb_spec c 45) as [->|Hc].
  - closed_tests. destruct s' as [|d s'']; [discriminate|].
    destruct (is_digit d) eqn:Hd; [|discriminate]. intros _.
    cbn [app]. rewrite !drop_prefix_cons.
    destruct (N.eqb_spec 73 d) as [<-|_]; [discriminate | reflexivity].
  - destruct (is_digit c) eqn:Hd; [|discriminate]. intros _.
    repeat match goal with
    | |- context [N.eqb ?k c] =>
        destruct (N.eqb_spec k c) as [<-|_]; [discriminate|]
    end.
    reflexivity.
Qed.

Lemma scan_once_nonempty (f : nat) (v : pyobj) (r : str) :
  scan_once f [] <> Scanned v r.
Proof. destruct f; discriminate. Qed.

Lemma parse_pairs_nonempty (f : nat) (acc : Dict.t) (v : pyobj) (r : str) :
  parse_pairs f acc [] <> Scanned v r.
Proof. destruct f; discriminate. Qed.

Lemma skip_ws_app (r t : str) :
  skip_ws r <> [] -> skip_ws (r ++ t) = skip_ws r ++ t.
Proof.
  destruct (skip_ws r) as [|c r1] eqn:E; [congruence|]. intros _.
  now apply skip_ws_suffix.
Qed.

Lemma stop_after (r : str) (c : char) (r1 : str) :
  skip_ws r = c :: r1 ->
  ((c =? 125) || (c =? 44) || (c =? 93))%N = true -> head_stop r.
Proof.
  intros H Hc. apply (skip_ws_stop _ H). unfold is_stop.
  destruct (is_ws c), (c =? 125)%N, (c =? 44)%N, (c =? 93)%N;
    (reflexivity || discriminate).
Qed.

(** Reading a value does not look past its end: with more fuel and with
    any text appended the same value is read and the appended text is
    left unread. *)
Lemma scanners_suffix (f : nat) :
  (forall s v r, scan_once f s = Scanned v r -> head_stop r \/ opens s ->
     forall f' t, f <= f' -> scan_once f' (s ++ t) = Scanned v (r ++ t)) /\
  (forall acc s v r, parse_pairs f acc s = Scanned v r ->
     forall f' t, f <= f' -> parse_pairs f' acc (s ++ t) = Scanned v (r ++ t)) /\
  (forall acc s v r, parse_items f acc s = Scanned v r ->
     forall f' t, f <= f' -> parse_items f' acc (s ++ t) = Scanned v (r ++ t)).
Proof.
  induction f as [|f (IHs & IHp & IHi)].
  { repeat split; intros; discriminate. }
  repeat split.
  - intros [|c r0] v r H Hstop [|f'] t Hf; try discriminate; [lia|].
    assert (Hf' : f <= f') by lia.
    cbn [scan_once app] in H |- *.
    destruct (c =? 34)%N eqn:Hq.
    { destruct (scanstring r0) as [k r'| |] eqn:E; try discriminate.
      injection H as <- <-. now rewrite (scanstring_suffix _ t E). }
    destruct (c =? 123)%N eqn:Hb.
    { destruct (skip_ws r0) as [|c1 r1] eqn:E; [discriminate|].
      rewrite (skip_ws_suffix _ t E).
      destruct (c1 =? 125)%N; [now injection H as <- <-|].
      now apply (IHp _ _ _ _ H). }
    destruct (c =? 91)%N eqn:Hk.
    { destruct (skip_ws r0) as [|c1 r1] eqn:E; [discriminate|].
      rewrite (skip_ws_suffix _ t E).
      destruct (c1 =? 93)%N; [now injection H as <- <-|].
      now apply (IHi _ _ _ _ H). }
    change (c :: r0 ++ t) with ((c :: r0) ++ t).
    destruct (match_constant (c :: r0)) as [[v' r']|] eqn:E.
    { injection H as <- <-. now rewrite (match_constant_suffix _ t E). }
    rewrite (number_not_constant _ t H).
    destruct Hstop as [Hstop|Hopen].
    + now apply match_number_suffix.
    + simpl in Hopen. rewrite Hq, Hb, Hk in Hopen.
      destruct Hopen as [?|[?|?]]; discriminate.
  - intros acc [|q r0] v r H [|f'] t Hf; try discriminate; [lia|].
    assert (Hf' : f <= f') by lia.
    cbn [parse_pairs app] in H |- *.
    destruct (q =? 34)%N; [|discriminate].
    destruct (scanstring r0) as [key r1| |] eqn:E1; try discriminate.
    rewrite (scanstring_suffix _ t E1).
    destruct (skip_ws r1) as [|c r2] eqn:E2; [discriminate|].
    rewrite (skip_ws_suffix _ t E2).
    destruct (c =? 58)%N; [|discriminate].
    destruct (scan_once f (skip_ws r2)) as [v3 r3| |] eqn:E3;
      try discriminate.
    assert (Hne : skip_ws r2 <> []).
    { intros E. rewrite E in E3. now apply scan_once_nonempty in E3. }
    rewrite (skip_ws_app _ t Hne).
    destruct (skip_ws r3) as [|c4 r4] eqn:E4; [discriminate|].
    assert (Hs3 : head_stop r3).
    { apply (stop_after _ E4).
      destruct (c4 =? 125)%N; [reflexivity|].
      destruct (c4 =? 44)%N; [reflexivity | discriminate]. }
    rewrite (IHs _ _ _ E3 (or_introl Hs3) f' t Hf').
    rewrite (skip_ws_suffix _ t E4).
    destruct (c4 =? 125)%N; [now injection H as <- <-|].
    destruct (c4 =? 44)%N; [|discriminate].
    assert (Hne4 : skip_ws r4 <> []).
    { intros E. rewrite E in H. now apply parse_pairs_nonempty in H. }
    rewrite (skip_ws_app _ t Hne4).
    now apply (IHp _ _ _ _ H).
  - intros acc s v r H [|f'] t Hf; [lia|].
    assert (Hf' : f <= f') by lia.
    cbn [parse_items] in H |- *.
    destruct (scan_once f s) as [v1 r1| |] eqn:E1; try discriminate.
    destruct (skip_ws r1) as [|c r2] eqn:E2; [discriminate|].
    assert (Hs1 : head_stop r1).
    { apply (stop_after _ E2).
      destruct (c =? 93)%N; [now rewrite !orb_true_r|].
      destruct (c =? 44)%N; [now rewrite !orb_true_r | discriminate]. }
    rewrite (IHs _ _ _ E1 (or_introl Hs1) f' t Hf').
    rewrite (skip_ws_suffix _ t E2).
    destruct (c =? 93)%N; [now injection H as <- <-|].
    destruct (c =? 44)%N; [|discriminate].
    (* the next element: nothing is required of where the text ends *)
    destruct (skip_ws r2) as [|c3 r3] eqn:E3.
    + destruct f as [|[|f0]]; simpl in H; discriminate.
    + rewrite (skip_ws_suffix _ t E3).
      now apply (IHi _ _ _ _ H).
Qed.

Lemma enough_app (s t : str) : enough s <= enough (s ++ t).
Proof. unfold enough. rewrite length_app. lia. Qed.

Lemma skip_ws_closing (u : str) : skip_ws (u ++ [rbrace]) <> [].
Proof.
  induction u as [|c u IH]; simpl; [discriminate|].
  destruct (is_ws c); [exact IH | discriminate].
Qed.

(** A text that decodes to an object no longer decodes once anything but
    whitespace is appended to it. *)
Lemma loads_extra_data (a t : str) (v : pyobj) :
  loads (lbrace :: a) = Ok v -> skip_ws t <> [] ->
  loads ((lbrace :: a) ++ t) = Raise JSONDecodeError.
Proof.
  unfold loads. cbn [app]. rewrite !JsonFacts.skip_ws_brace.
  destruct (scan_once (enough (lbrace :: a)) (lbrace :: a))
    as [v' r| |] eqn:E; try discriminate.
  destruct (skip_ws r) as [|c r'] eqn:Er; [|discriminate]. intros _ Ht.
  assert (Hopen : head_stop r \/ opens (lbrace :: a)).
  { right. simpl. right. left. reflexivity. }
  pose proof (proj1 (scanners_suffix (enough (lbrace :: a))) _ _ _ E Hopen
                (enough (lbrace :: a ++ t)) t
                (enough_app (lbrace :: a) t)) as H.
  cbn [app] in H. rewrite H.
  rewrite (skip_ws_blank _ t Er).
  destruct (skip_ws t); [congruence | reflexivity].
Qed.

End JsonSuffix.

(** X19.  A payload that would decode on its own is lost when a closing
    brace comes anywhere after it in the text -- a second payload, a
    brace in the prose that follows: the span then runs to that last
    brace, it does not decode, no chart is drawn, the decoding error is
    shown and [False] is returned. *)
Theorem X19_brace_after_the_payload (theme : Theme)
    (pre payload between post : str) (v : pyobj) (w : world) :
  ~ In lbrace pre -> ~ In rbrace post ->
  Json.loads (lbrace :: payload) = Ok v ->
  create_visualization theme
    (PyStr (pre ++ (lbrace :: payload) ++ between ++ rbrace :: post)) w
  = (Ok false, shown w [Error (ErrorCreatingVisualization JSONDecodeError)]).
Proof.
  intros Hpre Hpost Hv.
  assert (Hspan : brace_span
            (pre ++ (lbrace :: payload) ++ between ++ rbrace :: post)
            ((lbrace :: payload) ++ between ++ [rbrace])).
  { pose proof (@brace_span_intro pre (payload ++ between) post Hpre Hpost)
      as H.
    cbn [app]. now rewrite <- !app_assoc in H. }
  rewrite (create_visualization_span theme w Hspan).
  apply decode_and_chart_undecodable.
  eapply JsonSuffix.loads_extra_data; [exact Hv|].
  apply JsonSuffix.skip_ws_closing.
Qed.

(** X19, an instance: a reply that holds two payloads. *)
Lemma X19_witness :
  create_visualization DayMode
    (PyStr (jq "{'data':{'labels':['A'],'values':[1]}} or {'title':'T'}"))
    world0
  = (Ok false,
     shown world0 [Error (ErrorCreatingVisualization JSONDecodeError)]).
Proof.
  apply (@X19_brace_after_the_payload DayMode []
           (tl (jq "{'data':{'labels':['A'],'values':[1]}}"))
           (jq " or {'title':'T'") [] (PyDict
             [(py "data",
               PyDict [(py "labels", PyList [PyStr (py "A")]);
                       (py "values", PyList [PyInt 1])])])
           world0).
  - simpl; tauto.
  - simpl; tauto.
  - vm_compute. reflexivity.
Defined.

(* ===================================================================== *)
(** ** What is sent, and what is shown again *)
(* ===================================================================== *)






Lemma filter_all {A} (f : A -> bool) (l : list A) :
  forallb f l = true -> filter f l = l.
Proof.
  induction l as [|a r IH]; [reflexivity|]. simpl.
  destruct (f a); [|discriminate]. intros H. now rewrite IH.
Qed.

Lemma skipn_1_app {A} (l added : list A) :
  l <> [] -> skipn 1 (l ++ added) = skipn 1 l ++ added.
Proof. destruct l; [congruence | reflexivity]. Qed.

(** The history of a log that a completed turn has extended: the
    history of the log, the two messages, and what the chart function
    leaves on a page on which all of these are drawn. *)
Lemma history_page_turn (sf : Surface) (theme : Theme) (l : list Message)
    (p : str) (reply : pyobj) (w : world) (b : bool)
    (extra : list effect) :
  surface w = sf ->
  drawn (page w)
  = drawn (history_page sf theme l ++
           [ChatMessage User; Markdown (PyStr p);
            ChatMessage Assistant; Markdown reply]) ->
  create_visualization theme reply w = (Ok b, shown w extra) ->
  history_page sf theme (l ++ [user_message p; assistant_message reply])
  = history_page sf theme l ++
    [ChatMessage User; Markdown (PyStr p);
     ChatMessage Assistant; Markdown reply] ++ extra.
Proof.
  intros Hs Hp Hcv. unfold history_page at 1.
  rewrite display_messages_app.
  rewrite (display_messages_start theme l (blank sf fresh)) by reflexivity.
  cbn [snd]. rewrite display_messages_cons.
  change (after_message theme (user_message p)) with (@ret unit tt).
  unfold ret at 1. cbv beta iota. rewrite display_messages_cons.
  unfold after_message. cbn [role content assistant_message].
  unfold bind at 1.
  match goal with
  | |- context [create_visualization theme reply ?w2] =>
      destruct (create_visualization_local theme reply w w2)
        as (b' & extra' & H1 & H2 & _)
  end.
  { rewrite Hs. reflexivity. }
  { rewrite Hp. unfold shown, said, blank.
    cbn [page surface role content user_message assistant_message app].
    now rewrite <- !app_assoc. }
  rewrite Hcv in H1. injection H1 as <- Hx. apply app_inv_head in Hx.
  subst extra'. rewrite H2. unfold ret. cbn [display_messages].
  unfold ret, shown, said, blank.
  cbn [snd page surface role content user_message assistant_message app].
  now rewrite <- !app_assoc.
Qed.

(** X21.  A completed turn -- one after which the log holds the
    assistant's message -- is shown again as it was shown: the run that
    follows, with nothing submitted and the same theme and manual
    texts, draws the page of the run of the turn without its request --
    the history, the user's message, the assistant's reply with the
    same chart or error, the manual chart -- and nothing else. *)
Theorem X21_completed_turn_is_shown_again (sf : Surface)
    (gateway : Gateway) (i : Inputs) (s : SessionState) (p : str)
    (reply : pyobj) :
  Str.truthy (api_key i) = true ->
  prompt i = Some p -> Str.truthy p = true ->
  clear_pressed i = false ->
  log_of s <> [] ->
  messages (fst (interaction sf gateway i s))
  = Some (log_of s ++ [user_message p; assistant_message reply]) ->
  snd (interaction sf gateway (at_rest i) (fst (interaction sf gateway i s)))
  = filter (fun x => negb (is_post x)) (snd (interaction sf gateway i s)).
Proof.
  intros Hk Hprompt Hp Hc Hne Hdone.
  pose proof (opened_blank sf i s) as Ho.
  set (w0 := opened i (blank sf s)) in *.
  assert (Hl : messages (session w0) = Some (log_of s))
    by now rewrite Ho.
  assert (Hkey : groq_client_api_key (session w0) = Some (api_key i))
    by now rewrite Ho.
  assert (Hturn :
    exists b extra,
      create_visualization (theme i) reply
        (shown (awaiting w0 (log_of s) (api_key i) p) [Markdown reply])
      = (Ok b, shown (shown (awaiting w0 (log_of s) (api_key i) p)
                        [Markdown reply]) extra) /\
      chart_outcome b extra /\
      interaction sf gateway i s
      = ({| messages := Some (log_of s ++ [user_message p;
                                           assistant_message reply]);
            groq_client_api_key := Some (api_key i) |},
         (page (awaiting w0 (log_of s) (api_key i) p)
          ++ Markdown reply :: extra) ++ canvas_part i)).
  { destruct (reply_cases
                (gateway (completion_request (api_key i)
                            (log_of s ++ [user_message p]))))
      as [Hfail | (body & data & reply0 & Hg & Hd & Hr)].
    - exfalso.
      destruct (chat_input_failure gateway (theme i) p w0 Hp Hl Hkey Hfail)
        as (msg & Hrun).
      rewrite (run_with_prompt sf gateway i s Hk Hprompt Hc Hrun) in Hdone.
      cbn [fst shown awaiting session messages] in Hdone.
      injection Hdone as Hdone. apply app_inv_head in Hdone. discriminate.
    - destruct (surface w0
                  (drawn (page (awaiting w0 (log_of s) (api_key i) p)))
                  (Markdown reply0)) as [r|] eqn:Hsf.
      + exfalso.
        pose proof (@chat_input_refused gateway (theme i) p w0 (log_of s)
                      (api_key i) body data reply0 r
                      Hp Hl Hkey Hg Hd Hr Hsf) as Hrun.
        rewrite (run_with_prompt sf gateway i s Hk Hprompt Hc Hrun) in Hdone.
        cbn [fst shown awaiting session messages] in Hdone.
        injection Hdone as Hdone. apply app_inv_head in Hdone. discriminate.
      + destruct (@chat_input_success gateway (theme i) p w0 (log_of s)
                    (api_key i) body data reply0
                    Hp Hl Hkey Hg Hd Hr (conj Hsf I))
          as (b & extra & Hcv & Hchart & Hrun).
        rewrite (run_with_prompt sf gateway i s Hk Hprompt Hc Hrun) in Hdone.
        cbn [fst session messages] in Hdone.
        injection Hdone as Hdone. apply app_inv_head in Hdone.
        injection Hdone as ->.
        exists b, extra. split; [exact Hcv|]. split; [exact Hchart|].
        rewrite (run_with_prompt sf gateway i s Hk Hprompt Hc Hrun).
        reflexivity. }
  destruct Hturn as (b & extra & Hcv & Hchart & Hrun).
  rewrite Hrun. cbn [fst snd].
  destruct (idle_at_rest i) as (Hp' & Hc' & Hk' & Hcp & Ht).
  unfold interaction.
  rewrite script_idle by (rewrite ?Hk'; assumption).
  rewrite Hcp, opened_blank. cbn [snd shown session page].
  change (theme (at_rest i)) with (theme i).
  change (log_of {| messages := Some (log_of s ++ [user_message p;
                                         assistant_message reply]);
                    groq_client_api_key := Some (api_key i) |})
    with (log_of s ++ [user_message p; assistant_message reply]).
  rewrite skipn_1_app by assumption.
  rewrite (@history_page_turn sf (theme i) (skipn 1 (log_of s)) p reply
             (shown (awaiting w0 (log_of s) (api_key i) p) [Markdown reply])
             b extra).
  - unfold awaiting. rewrite Ho. cbn [page].
    rewrite !filter_app.
    rewrite (filter_all _ (history_page sf (theme i) (skipn 1 (log_of s))))
      by apply history_page_history.
    rewrite (filter_all _ (canvas_part i)) by apply canvas_part_no_post.
    cbn [filter is_post negb app].
    rewrite (filter_all _ extra) by apply (chart_outcome_no_post Hchart).
    rewrite <- !app_assoc. reflexivity.
  - unfold shown, awaiting. rewrite Ho. reflexivity.
  - unfold shown, awaiting. rewrite Ho. cbn [page].
    rewrite !drawn_app, <- !app_assoc. reflexivity.
  - exact Hcv.
Qed.

(** X21, an instance: a first turn, answered with an empty payload. *)
Lemma X21_witness :
  let gateway :=
    always (Response 200
      (jq "{'choices':[{'message':{'content':'{}'}}]}")) in
  let i := {| theme := DayMode; api_key := py "gsk";
              prompt := Some (py "hi"); clear_pressed := false;
              canvas_mode := false; categories := []; amounts := [] |} in
  snd (interaction streamlit_page gateway (at_rest i)
         (fst (interaction streamlit_page gateway i fresh)))
  = filter (fun x => negb (is_post x))
      (snd (interaction streamlit_page gateway i fresh)).
Proof.
  cbv zeta.
  apply (@X21_completed_turn_is_shown_again streamlit_page
           (always (Response 200
              (jq "{'choices':[{'message':{'content':'{}'}}]}")))
           {| theme := DayMode; api_key := py "gsk";
              prompt := Some (py "hi"); clear_pressed := false;
              canvas_mode := false; categories := []; amounts := [] |}
           fresh (py "hi") (PyStr (py "{}"))).
  - reflexivity.
  - reflexivity.
  - reflexivity.
  - reflexivity.
  - discriminate.
  - vm_compute. reflexivity.
Defined.

(* ===================================================================== *)
(** ** What the page refuses *)
(* ===================================================================== *)

(** X22.  A chart that the page refuses.  For a payload whose frame
    and figure are built: when the page refuses the heading -- a title
    it cannot encode -- nothing of the chart is drawn, the exception is
    shown as the error and [False] is returned; when the page takes the
    heading and refuses the chart -- the same chart is on the page
    already -- the heading stays, the error follows it and [False] is
    returned. *)
Theorem X22_chart_refused_by_the_page (theme : Theme) (text span : str)
    (d : Dict.t) (l v : pyobj) (df : DataFrame) (fig : Figure) (w : world)
    (r : refusal) :
  brace_span text span ->
  Json.loads span = Ok (PyDict d) ->
  labels_and_values d = Some (l, v) ->
  Pandas.from_columns l v = Ok df ->
  Plotly.express (requested_trace d) df (requested_title d) = Ok fig ->
  (surface w (drawn (page w)) (Subheader (requested_title d)) = Some r ->
   create_visualization theme (PyStr text) w
   = (Ok false, shown w [Error (ErrorCreatingVisualization (raised r))])) /\
  (surface w (drawn (page w)) (Subheader (requested_title d)) = None ->
   surface w (drawn (page w ++ [Subheader (requested_title d)]))
     (PlotlyChart (Plotly.update_layout fig (plotly_template theme)) true)
   = Some r ->
   create_visualization theme (PyStr text) w
   = (Ok false,
      shown w [Subheader (requested_title d);
               Error (ErrorCreatingVisualization (raised r))])).
Proof.
  intros Hspan Hd Hlv Hdf Hfig.
  assert (Hrun : create_visualization theme (PyStr text) w
                 = reported
                     (carry_out
                        (heading_then_chart (requested_title d)
                           (Plotly.update_layout fig (plotly_template theme))))
                     w).
  { rewrite (create_visualization_span theme w Hspan).
    rewrite (@decode_and_chart_dict theme span d w Hd).
    unfold reported, try_except.
    now rewrite (@chart_from_data_figure theme d w l v df fig Hlv Hdf Hfig). }
  split.
  - intros Hr. rewrite Hrun. now apply carry_out_heading_refused.
  - intros Hh Hr. rewrite Hrun. apply carry_out_chart_refused.
    + split; [exact Hh | exact I].
    + exact Hr.
Qed.

(** X22, two instances: a title that is half of a surrogate pair, and a
    payload drawn a second time on the page that holds its chart. *)
Lemma X22_witness :
  create_visualization DayMode
    (PyStr (jq "{'title':'\ud800','data':{'labels':[],'values':[]}}")) world0
  = (Ok false,
     shown world0 [Error (ErrorCreatingVisualization UnicodeEncodeError)]) /\
  (let text := jq "{'data':{'labels':['A'],'values':[1]}}" in
   let w1 := snd (create_visualization DayMode (PyStr text) world0) in
   create_visualization DayMode (PyStr text) w1
   = (Ok false,
      shown w1 [Subheader (PyStr (py "Financial Analysis"));
                Error (ErrorCreatingVisualization
                         StreamlitDuplicateElementId)])).
Proof.
  cbv zeta. split.
  - apply (proj1 (@X22_chart_refused_by_the_page DayMode _
             (jq "{'title':'\ud800','data':{'labels':[],'values':[]}}")
             [(py "title", PyStr [55296%N]);
              (py "data", PyDict [(py "labels", PyList []);
                                  (py "values", PyList [])])]
             (PyList []) (PyList [])
             {| Category := series_of []; Amount := series_of [] |}
             {| fig_trace := Bar;
                fig_frame := {| Category := series_of [];
                                Amount := series_of [] |};
                fig_title := PyStr [55296%N];
                fig_layout := None |}
             world0 (exist _ UnicodeEncodeError eq_refl)
             ltac:(concrete_span (@nil char)
                     (removelast
                        (tl (jq "{'title':'\ud800','data':{'labels':[],'values':[]}}")))
                     (@nil char))
             ltac:(vm_compute; reflexivity) ltac:(vm_compute; reflexivity)
             ltac:(vm_compute; reflexivity) ltac:(vm_compute; reflexivity))).
    vm_compute. reflexivity.
  - apply (proj2 (@X22_chart_refused_by_the_page DayMode _
             (jq "{'data':{'labels':['A'],'values':[1]}}")
             [(py "data", PyDict [(py "labels", PyList [PyStr (py "A")]);
                                  (py "values", PyList [PyInt 1])])]
             (PyList [PyStr (py "A")]) (PyList [PyInt 1])
             {| Category := series_of [PyStr (py "A")];
                Amount := series_of [PyInt 1] |}
             {| fig_trace := Bar;
                fig_frame := {| Category := series_of [PyStr (py "A")];
                                Amount := series_of [PyInt 1] |};
                fig_title := PyStr (py "Financial Analysis");
                fig_layout := None |}
             (snd (create_visualization DayMode
                     (PyStr (jq "{'data':{'labels':['A'],'values':[1]}}"))
                     world0))
             (exist _ StreamlitDuplicateElementId eq_refl)
             ltac:(concrete_span (@nil char)
                     (removelast
                        (tl (jq "{'data':{'labels':['A'],'values':[1]}}")))
                     (@nil char))
             ltac:(vm_compute; reflexivity) ltac:(vm_compute; reflexivity)
             ltac:(vm_compute; reflexivity) ltac:(vm_compute; reflexivity))).
    + vm_compute. reflexivity.
    + vm_compute. reflexivity.
Defined.

(** X23.  A reply that the page refuses.  When the gateway answers 200
    with a body that decodes and holds a reply, and the page refuses
    the reply -- a text it cannot encode -- the turn is not completed:
    the exception is shown as an error after the request, no chart is
    attempted, and the log keeps the user's message without an
    answer. *)
Theorem X23_reply_refused_by_the_page (gateway : Gateway) (theme : Theme)
    (prompt : str) (w : world) (l : list Message) (key body : str)
    (data reply : pyobj) (r : refusal) :
  Str.truthy prompt = true ->
  messages (session w) = Some l ->
  groq_client_api_key (session w) = Some key ->
  gateway (completion_request key (l ++ [user_message prompt]))
  = Response 200 body ->
  Json.loads body = Ok data ->
  first_choice_content data = Ok reply ->
  surface w (drawn (page (awaiting w l key prompt))) (Markdown reply)
  = Some r ->
  chat_input gateway theme (Some prompt) w
  = (Ok tt,
     {| session := {| messages := Some (l ++ [user_message prompt]);
                      groq_client_api_key := Some key |};
        page := page w ++
                [ChatMessage User; Markdown (PyStr prompt);
                 ChatMessage Assistant;
                 Post (completion_request key (l ++ [user_message prompt]));
                 Error (ErrorException (raised r))];
        surface := surface w |}).
Proof.
  intros Hp Hl Hk Hg Hd Hc Hs.
  rewrite (@chat_input_refused gateway theme prompt w l key body data reply r
             Hp Hl Hk Hg Hd Hc Hs).
  unfold shown, awaiting. cbn [session page surface].
  now rewrite <- app_assoc.
Qed.

(** X23, an instance: a reply that is half of a surrogate pair. *)
Lemma X23_witness :
  chat_input
    (always (Response 200
       (jq "{'choices':[{'message':{'content':'\ud800'}}]}")))
    DayMode (Some (py "hi")) world0
  = (Ok tt,
     {| session := {| messages := Some [system_preamble;
                                        user_message (py "hi")];
                      groq_client_api_key := Some (py "gsk") |};
        page := [ChatMessage User; Markdown (PyStr (py "hi"));
                 ChatMessage Assistant;
                 Post (completion_request (py "gsk")
                         [system_preamble; user_message (py "hi")]);
                 Error (ErrorException UnicodeEncodeError)];
        surface := streamlit_page |}).
Proof.
  apply (@X23_reply_refused_by_the_page
           (always (Response 200
              (jq "{'choices':[{'message':{'content':'\ud800'}}]}")))
           DayMode (py "hi") world0 [system_preamble] (py "gsk")
           (jq "{'choices':[{'message':{'content':'\ud800'}}]}")
           (PyDict [(py "choices",
              PyList [PyDict [(py "message",
                PyDict [(py "content", PyStr [55296%N])])]])])
           (PyStr [55296%N]) (exist _ UnicodeEncodeError eq_refl)).
  - reflexivity.
  - reflexivity.
  - reflexivity.
  - reflexivity.
  - vm_compute. reflexivity.
  - vm_compute. reflexivity.
  - vm_compute. reflexivity.
Defined.
